(** * PomoGrow credential and session subsystem (utils/auth.ts)

    A shallow embedding of the authentication module: password policy,
    registration, login with lockout, session registry, password reset,
    the access gate and the bounded security log.

    Modelling conventions.
    - A JavaScript string is a [string]; one [ascii] stands for one code
      unit, so [String.length] is the source's [.length].
    - [new Date()] and [Date.now()] are the argument [now], a number of
      milliseconds since the epoch; an ISO timestamp stored in a record is
      the same number (toISOString and the Date constructor are inverse
      on valid dates).  One call of an exported function observes one
      clock reading.
    - [uuidv4()] and the bcrypt salt are arguments of the function that
      draws them.
    - localStorage is the record [World]; a stored collection is read
      whole, changed in memory and written back whole, as in the source.
      Storage is taken to hold well-formed JSON and to accept writes, so
      the [catch] branches of the module are not reached.  The [catch] of
      the per-user storage is reached, when [btoa] refuses a record; see
      the class [Encoder].
    - [validator], [bcryptjs] and the locale-sensitive string built-ins
      are the fields of the class [Platform].

    The later parts embed the callers of the module: the per-user storage
    (utils/secureStorage.ts), the badge rules (utils/badges.ts) and the
    handlers of [App], [AuthScreen], [StudyTimer] and [ExamPlanner]. A
    handler is a function from the React state of its component to the
    state after the event; what it only displays is left out. *)

From Stdlib Require Import ZArith Ascii String DecimalString.
From Stdlib Require DecimalZ DecimalPos.
From stdpp Require Import base tactics option list sets strings gmap.

Local Open Scope string_scope.
Local Open Scope Z_scope.
Local Open Scope list_scope.

(** ** Strings and regular-expression tests *)

Definition chars (s : string) : list ascii := list_ascii_of_string s.

Definition code (c : ascii) : N := N_of_ascii c.

Definition in_range (lo hi : N) (c : ascii) : bool :=
  ((lo <=? code c) && (code c <=? hi))%N.

(** /[A-Z]/ , /[a-z]/ and /\d/ *)
Definition is_upper (c : ascii) : bool := in_range 65 90 c.
Definition is_lower (c : ascii) : bool := in_range 97 122 c.
Definition is_digit (c : ascii) : bool := in_range 48 57 c.

(** The bracket expression of the last rule; the double quote is written
    by its code, 34. *)
Definition special_chars : string :=
  "!@#$%^&*(),.?" +:+ String "034"%char ":{}|<>".

Definition is_special (c : ascii) : bool :=
  existsb (Ascii.eqb c) (chars special_chars).

(** [re.test(s)] for a regular expression that is one character class. *)
Fixpoint test (cls : ascii → bool) (s : string) : bool :=
  match s with
  | EmptyString => false
  | String c s' => cls c || test cls s'
  end.

(** [s.endsWith(suffix)] *)
Definition endsWith (s suffix : string) : bool :=
  let n := String.length s in
  let m := String.length suffix in
  if (m <=? n)%nat then String.eqb (substring (n - m) m s) suffix else false.

(** [xs.join(sep)] *)
Definition join (sep : string) (xs : list string) : string := String.concat sep xs.

(** Template-literal rendering of an integral number. *)
Definition show (z : Z) : string := NilZero.string_of_int (Z.to_int z).

(** [Math.ceil(a / b)] for integral [a] and positive integral [b]. *)
Definition ceil_div (a b : Z) : Z := - ((- a) / b).

(** ** Password policy *)

Record PasswordValidation := {
  isValid : bool;
  errors : list string
}.

Definition msg_length : string := "Password must be at least 8 characters long".
Definition msg_upper : string := "Password must contain at least one uppercase letter".
Definition msg_lower : string := "Password must contain at least one lowercase letter".
Definition msg_digit : string := "Password must contain at least one number".
Definition msg_special : string := "Password must contain at least one special character".

(** [errors.push(m)] when [c] holds. *)
Definition push_if (c : bool) (m : string) (errors : list string) : list string :=
  if c then errors ++ [m] else errors.

Definition validatePassword (password : string) : PasswordValidation :=
  let errors := [] in
  let errors := push_if (String.length password <? 8)%nat msg_length errors in
  let errors := push_if (negb (test is_upper password)) msg_upper errors in
  let errors := push_if (negb (test is_lower password)) msg_lower errors in
  let errors := push_if (negb (test is_digit password)) msg_digit errors in
  let errors := push_if (negb (test is_special password)) msg_special errors in
  {| isValid := (length errors =? 0)%nat; errors := errors |}.

(** The five rules of the policy, in the order the source checks them,
    and what each one asks of a password. *)
Inductive Rule := MinLength | HasUpper | HasLower | HasDigit | HasSpecial.

#[global] Instance Rule_eq_dec : EqDecision Rule.
Proof. solve_decision. Defined.

Definition all_rules : list Rule := [MinLength; HasUpper; HasLower; HasDigit; HasSpecial].

Definition rule_message (r : Rule) : string :=
  match r with
  | MinLength => msg_length
  | HasUpper => msg_upper
  | HasLower => msg_lower
  | HasDigit => msg_digit
  | HasSpecial => msg_special
  end.

Definition between (lo hi c : ascii) : Prop :=
  (N_of_ascii lo ≤ N_of_ascii c ∧ N_of_ascii c ≤ N_of_ascii hi)%N.

Definition satisfies (r : Rule) (password : string) : Prop :=
  match r with
  | MinLength => (8 ≤ String.length password)%nat
  | HasUpper => ∃ c, c ∈ chars password ∧ between "A" "Z" c
  | HasLower => ∃ c, c ∈ chars password ∧ between "a" "z" c
  | HasDigit => ∃ c, c ∈ chars password ∧ between "0" "9" c
  | HasSpecial => ∃ c, c ∈ chars password ∧ c ∈ chars special_chars
  end.

Definition violates (r : Rule) (password : string) : Prop := ¬ satisfies r password.

(** The test the source runs for each rule. *)
Definition violated (password : string) (r : Rule) : bool :=
  match r with
  | MinLength => (String.length password <? 8)%nat
  | HasUpper => negb (test is_upper password)
  | HasLower => negb (test is_lower password)
  | HasDigit => negb (test is_digit password)
  | HasSpecial => negb (test is_special password)
  end.

(** ** Data model *)

Module User.
Record t := mk {
  studyId : string;
  email : string;
  passwordHash : string;
  preferredName : string;
  createdAt : Z;
  lastLogin : Z;
  failedAttempts : Z;
  lockedUntil : option Z;
  isVerified : bool;
  resetToken : option string;
  resetTokenExpiry : option Z
}.

(** Field assignments [user.f = v]. *)
Definition set_passwordHash (v : string) (u : t) : t :=
  mk (studyId u) (email u) v (preferredName u) (createdAt u) (lastLogin u)
     (failedAttempts u) (lockedUntil u) (isVerified u) (resetToken u) (resetTokenExpiry u).
Definition set_lastLogin (v : Z) (u : t) : t :=
  mk (studyId u) (email u) (passwordHash u) (preferredName u) (createdAt u) v
     (failedAttempts u) (lockedUntil u) (isVerified u) (resetToken u) (resetTokenExpiry u).
Definition set_failedAttempts (v : Z) (u : t) : t :=
  mk (studyId u) (email u) (passwordHash u) (preferredName u) (createdAt u) (lastLogin u)
     v (lockedUntil u) (isVerified u) (resetToken u) (resetTokenExpiry u).
Definition set_lockedUntil (v : option Z) (u : t) : t :=
  mk (studyId u) (email u) (passwordHash u) (preferredName u) (createdAt u) (lastLogin u)
     (failedAttempts u) v (isVerified u) (resetToken u) (resetTokenExpiry u).
Definition set_resetToken (v : option string) (u : t) : t :=
  mk (studyId u) (email u) (passwordHash u) (preferredName u) (createdAt u) (lastLogin u)
     (failedAttempts u) (lockedUntil u) (isVerified u) v (resetTokenExpiry u).
Definition set_resetTokenExpiry (v : option Z) (u : t) : t :=
  mk (studyId u) (email u) (passwordHash u) (preferredName u) (createdAt u) (lastLogin u)
     (failedAttempts u) (lockedUntil u) (isVerified u) (resetToken u) v.
End User.
Abbreviation User := User.t.

Module AuthSession.
Record t := mk {
  studyId : string;
  email : string;
  sessionToken : string;
  expiresAt : Z
}.
End AuthSession.
Abbreviation AuthSession := AuthSession.t.

(** An entry of the security log, [{ timestamp, event, identifier }]. *)
Module SecurityLog.
Record t := mk {
  timestamp : Z;
  event : string;
  identifier : string
}.
End SecurityLog.
Abbreviation SecurityLog := SecurityLog.t.

(** The object literals the exported functions resolve to.  A key that
    the literal does not write is [None]. *)
Module Result.
Record t := mk {
  success : bool;
  studyId : option string;
  user : option User;
  error : option string;
  locked : option bool;
  sessionToken : option string
}.

(** [{ success: false, error }] *)
Definition failure (e : string) : t := mk false None None (Some e) None None.
(** [{ success: true }] *)
Definition ok : t := mk true None None None None None.

End Result.
Abbreviation Result := Result.t.

Definition USERS_KEY : string := "pomogrow_users".
Definition SESSIONS_KEY : string := "pomogrow_sessions".
Definition MAX_FAILED_ATTEMPTS : Z := 3.
Definition LOCK_DURATION : Z := 30 * 60 * 1000.
Definition SESSION_DURATION : Z := 24 * 60 * 60 * 1000.

(** ** The platform *)

(** What the module imports and does not define: the [validator] and
    [bcryptjs] packages and the string built-ins.  [bcrypt_hash] takes the
    salt it draws as its first argument. *)
Class Platform := {
  toLowerCase : string → string;
  trim : string → string;
  escape : string → string;
  isEmail : string → bool;
  bcrypt_hash : string → string → string;
  bcrypt_compare : string → string → bool
}.

(** What leaves the module other than through localStorage: the two
    bcrypt calls, the lock alert and the reset token written to the
    console in place of a mail. *)
Inductive Effect :=
| BcryptHash (password : string)
| BcryptCompare (password hash : string)
| SecurityAlert (email name : string)
| ResetTokenLogged (email resetToken : string).

(** localStorage, one field per key, and the effects performed so far. *)
Record World := mkWorld {
  pomogrow_users : list User;
  pomogrow_sessions : list AuthSession;
  security_logs : list SecurityLog;
  effects : list Effect
}.

Definition empty_world : World := mkWorld [] [] [] [].

(** ** Computations over the store *)

Definition IO (A : Type) : Type := World → A * World.

#[global] Instance IO_ret : MRet IO := λ A a w, (a, w).
#[global] Instance IO_bind : MBind IO := λ A B k m w, k (m w).1 (m w).2.

Definition getAllUsers : IO (list User) := λ w, (pomogrow_users w, w).

Definition saveUsers (users : list User) : IO unit := λ w,
  (tt, mkWorld users (pomogrow_sessions w) (security_logs w) (effects w)).

Definition getSessions : IO (list AuthSession) := λ w, (pomogrow_sessions w, w).

(** [localStorage.setItem(SESSIONS_KEY, JSON.stringify(sessions))] *)
Definition setSessions (sessions : list AuthSession) : IO unit := λ w,
  (tt, mkWorld (pomogrow_users w) sessions (security_logs w) (effects w)).

Definition getSecurityLogs : IO (list SecurityLog) := λ w, (security_logs w, w).

Definition setSecurityLogs (logs : list SecurityLog) : IO unit := λ w,
  (tt, mkWorld (pomogrow_users w) (pomogrow_sessions w) logs (effects w)).

Definition perform (e : Effect) : IO unit := λ w,
  (tt, mkWorld (pomogrow_users w) (pomogrow_sessions w) (security_logs w) (effects w ++ [e])).

(** ** Security logging and alerts *)

Definition logSecurityEvent (now : Z) (event identifier : string) : IO unit :=
  let timestamp := now in
  securityLogs ← getSecurityLogs;
  let securityLogs := securityLogs ++ [SecurityLog.mk timestamp event identifier] in
  let securityLogs :=
    if (100 <? length securityLogs)%nat
    then drop (length securityLogs - 100) securityLogs
    else securityLogs in
  setSecurityLogs securityLogs.

Definition sendSecurityAlert (email name : string) : IO unit :=
  perform (SecurityAlert email name).

(** ** The operations *)

Section Auth.
Context `{Platform}.

Definition hashPassword (salt password : string) : IO string :=
  perform (BcryptHash password);;
  mret (bcrypt_hash salt password).

Definition verifyPassword (password hash : string) : IO bool :=
  perform (BcryptCompare password hash);;
  mret (bcrypt_compare password hash).

Definition validateEmail (email : string) : bool :=
  isEmail email && endsWith email "@gmail.com".

Definition sanitizeInput (input : string) : string := escape (trim input).

Definition generateStudyId (uuid : string) : string := "STUDY-" +:+ uuid.

(** [customStudyId || generateStudyId()] *)
Definition chooseStudyId (customStudyId : option string) (uuid : string) : string :=
  match customStudyId with
  | Some s => if String.eqb s "" then generateStudyId uuid else s
  | None => generateStudyId uuid
  end.

Definition registerUser (now : Z) (uuid salt : string)
    (email password preferredName : string) (customStudyId : option string) : IO Result :=
  let sanitizedEmail := sanitizeInput (toLowerCase email) in
  let sanitizedName := sanitizeInput preferredName in
  if negb (validateEmail sanitizedEmail) then
    mret (Result.failure "Please enter a valid Gmail address")
  else
  let passwordValidation := validatePassword password in
  if negb (isValid passwordValidation) then
    mret (Result.failure (join ". " (errors passwordValidation)))
  else
  if (String.length sanitizedName <? 2)%nat then
    mret (Result.failure "Preferred name must be at least 2 characters long")
  else
  users ← getAllUsers;
  if list_find (λ user, User.email user = sanitizedEmail) users is Some _ then
    mret (Result.failure "This Gmail address is already registered")
  else
  let studyId := chooseStudyId customStudyId uuid in
  if list_find (λ user, User.studyId user = studyId) users is Some _ then
    mret (Result.failure "Study ID already exists. Please choose another one.")
  else
  passwordHash ← hashPassword salt password;
  let newUser :=
    User.mk studyId sanitizedEmail passwordHash sanitizedName now now 0 None true None None in
  saveUsers (users ++ [newUser]);;
  mret (Result.mk true (Some studyId) None None None None).

(** *** Session management *)

Definition createSession (now : Z) (uuid : string) (user : User) : IO AuthSession :=
  let session :=
    AuthSession.mk (User.studyId user) (User.email user) uuid (now + SESSION_DURATION) in
  sessions ← getSessions;
  let filteredSessions :=
    filter (λ s, AuthSession.studyId s ≠ User.studyId user) sessions in
  let filteredSessions := filteredSessions ++ [session] in
  setSessions filteredSessions;;
  mret session.

Definition validateSession (now : Z) (sessionToken : string) : IO (option User) :=
  sessions ← getSessions;
  match list_find (λ s, AuthSession.sessionToken s = sessionToken) sessions with
  | None => mret None
  | Some (_, session) =>
    if AuthSession.expiresAt session <? now then
      let filteredSessions :=
        filter (λ s, AuthSession.sessionToken s ≠ sessionToken) sessions in
      setSessions filteredSessions;;
      mret None
    else
      users ← getAllUsers;
      mret (snd <$> list_find (λ u, User.studyId u = AuthSession.studyId session) users)
  end.

Definition logout (sessionToken : string) : IO unit :=
  sessions ← getSessions;
  let filteredSessions :=
    filter (λ s, AuthSession.sessionToken s ≠ sessionToken) sessions in
  setSessions filteredSessions.

(** *** Login *)

Definition msg_invalid_credentials : string :=
  "Invalid credentials. Please check your Study ID/Email and password.".

Definition msg_locked (lockTimeRemaining : Z) : string :=
  "Account temporarily locked due to multiple failed attempts. Try again in "
  +:+ show lockTimeRemaining +:+ " minutes.".

Definition msg_invalid_password (failedAttempts : Z) : string :=
  "Invalid password. " +:+ show (MAX_FAILED_ATTEMPTS - failedAttempts)
  +:+ " attempts remaining before account lock.".

Definition loginUser (now : Z) (uuid : string) (studyIdOrEmail password : string) : IO Result :=
  let sanitizedInput := sanitizeInput (toLowerCase studyIdOrEmail) in
  users ← getAllUsers;
  match list_find (λ u, toLowerCase (User.studyId u) = sanitizedInput
                        ∨ toLowerCase (User.email u) = sanitizedInput) users with
  | None =>
    logSecurityEvent now "INVALID_CREDENTIALS" sanitizedInput;;
    mret (Result.failure msg_invalid_credentials)
  | Some (i, user) =>
    let verify : IO Result :=
      isPasswordValid ← verifyPassword password (User.passwordHash user);
      if negb isPasswordValid then
        let user := User.set_failedAttempts (User.failedAttempts user + 1) user in
        user ← (if MAX_FAILED_ATTEMPTS <=? User.failedAttempts user then
                  let user := User.set_lockedUntil (Some (now + LOCK_DURATION)) user in
                  sendSecurityAlert (User.email user) (User.preferredName user);;
                  logSecurityEvent now "ACCOUNT_LOCKED" (User.email user);;
                  mret user
                else mret user);
        saveUsers (<[i:=user]> users);;
        mret (Result.failure (msg_invalid_password (User.failedAttempts user)))
      else
        let user := User.set_failedAttempts 0 user in
        let user := User.set_lockedUntil None user in
        let user := User.set_lastLogin now user in
        saveUsers (<[i:=user]> users);;
        session ← createSession now uuid user;
        mret (Result.mk true None (Some user) None None
                        (Some (AuthSession.sessionToken session))) in
    match User.lockedUntil user with
    | Some lockedUntil =>
      if now <? lockedUntil then
        let lockTimeRemaining := ceil_div (lockedUntil - now) (1000 * 60) in
        mret (Result.mk false None None (Some (msg_locked lockTimeRemaining))
                        (Some true) None)
      else verify
    | None => verify
    end
  end.

(** *** Password reset *)

Definition initiatePasswordReset (now : Z) (uuid : string) (email : string) : IO Result :=
  let sanitizedEmail := sanitizeInput (toLowerCase email) in
  if negb (validateEmail sanitizedEmail) then
    mret (Result.failure "Please enter a valid Gmail address")
  else
  users ← getAllUsers;
  match list_find (λ u, User.email u = sanitizedEmail) users with
  | None => mret Result.ok
  | Some (i, user) =>
    let resetToken := uuid in
    let resetTokenExpiry := now + 60 * 60 * 1000 in
    let user := User.set_resetToken (Some resetToken) user in
    let user := User.set_resetTokenExpiry (Some resetTokenExpiry) user in
    saveUsers (<[i:=user]> users);;
    perform (ResetTokenLogged email resetToken);;
    mret Result.ok
  end.

Definition msg_invalid_token : string := "Invalid or expired reset token".

(** The guard of [resetPassword]: the stored token is the supplied one,
    an expiry is stored and it has not passed. *)
Definition ticket_accepts (now : Z) (resetToken : string) (user : User) : bool :=
  bool_decide (User.resetToken user = Some resetToken)
  && match User.resetTokenExpiry user with
     | Some expiry => negb (expiry <? now)
     | None => false
     end.

Definition resetPassword (now : Z) (salt : string)
    (email resetToken newPassword : string) : IO Result :=
  let sanitizedEmail := sanitizeInput (toLowerCase email) in
  let passwordValidation := validatePassword newPassword in
  if negb (isValid passwordValidation) then
    mret (Result.failure (join ". " (errors passwordValidation)))
  else
  users ← getAllUsers;
  match list_find (λ u, User.email u = sanitizedEmail) users with
  | None => mret (Result.failure msg_invalid_token)
  | Some (i, user) =>
    if negb (ticket_accepts now resetToken user) then
      mret (Result.failure msg_invalid_token)
    else
      passwordHash ← hashPassword salt newPassword;
      let user := User.set_passwordHash passwordHash user in
      let user := User.set_resetToken None user in
      let user := User.set_resetTokenExpiry None user in
      let user := User.set_failedAttempts 0 user in
      let user := User.set_lockedUntil None user in
      saveUsers (<[i:=user]> users);;
      mret Result.ok
  end.

(** *** Data access control *)

Definition hasDataAccess (now : Z) (sessionToken requestedStudyId : string) : IO bool :=
  user ← validateSession now sessionToken;
  mret match user with
       | Some user => bool_decide (User.studyId user = requestedStudyId)
       | None => false
       end.

Definition getCurrentUser (now : Z) (sessionToken : string) : IO (option User) :=
  validateSession now sessionToken.

End Auth.

(** ** Runs of the module *)

(** One call of an exported function, with the clock reading and the
    random values it observes. *)
Inductive Call :=
| Register (now : Z) (uuid salt email password preferredName : string)
           (customStudyId : option string)
| Login (now : Z) (uuid studyIdOrEmail password : string)
| Logout (sessionToken : string)
| ValidateSession (now : Z) (sessionToken : string)
| InitiatePasswordReset (now : Z) (uuid email : string)
| ResetPassword (now : Z) (salt email resetToken newPassword : string)
| HasDataAccess (now : Z) (sessionToken requestedStudyId : string)
| LogSecurityEvent (now : Z) (event identifier : string).

Definition call `{Platform} (c : Call) (w : World) : World :=
  match c with
  | Register now uuid salt email password preferredName customStudyId =>
    (registerUser now uuid salt email password preferredName customStudyId w).2
  | Login now uuid studyIdOrEmail password =>
    (loginUser now uuid studyIdOrEmail password w).2
  | Logout sessionToken => (logout sessionToken w).2
  | ValidateSession now sessionToken => (validateSession now sessionToken w).2
  | InitiatePasswordReset now uuid email => (initiatePasswordReset now uuid email w).2
  | ResetPassword now salt email resetToken newPassword =>
    (resetPassword now salt email resetToken newPassword w).2
  | HasDataAccess now sessionToken requestedStudyId =>
    (hasDataAccess now sessionToken requestedStudyId w).2
  | LogSecurityEvent now event identifier => (logSecurityEvent now event identifier w).2
  end.

(** The store after a sequence of calls, the first call first. *)
Definition run `{Platform} (cs : list Call) (w : World) : World :=
  foldl (λ w c, call c w) w cs.

(** A store is reachable when some sequence of calls builds it from
    empty storage. *)
Definition reachable `{Platform} (w : World) : Prop :=
  ∃ cs, w = run cs empty_world.

(** ** A reference platform

    An instance of [Platform] on which the model runs: ASCII lower-casing,
    trimming of blanks, the entity replacements of [validator.escape], a
    plain shape test for addresses and a transparent stand-in for bcrypt. *)
Module Reference.

Fixpoint map_chars (f : ascii → ascii) (s : string) : string :=
  match s with
  | EmptyString => EmptyString
  | String c s' => String (f c) (map_chars f s')
  end.

Definition lower (c : ascii) : ascii :=
  if is_upper c then ascii_of_N (code c + 32) else c.

Definition is_blank (c : ascii) : bool :=
  (code c =? 32)%N || in_range 9 13 c.

Fixpoint trim_start (s : string) : string :=
  match s with
  | EmptyString => EmptyString
  | String c s' => if is_blank c then trim_start s' else s
  end.

Definition trim (s : string) : string :=
  String.rev (trim_start (String.rev (trim_start s))).

Definition entity (c : ascii) : string :=
  match code c with
  | 38%N => "&amp;"
  | 34%N => "&quot;"
  | 39%N => "&#x27;"
  | 60%N => "&lt;"
  | 62%N => "&gt;"
  | 47%N => "&#x2F;"
  | 92%N => "&#x5C;"
  | 96%N => "&#96;"
  | _ => String c EmptyString
  end.

Fixpoint escape (s : string) : string :=
  match s with
  | EmptyString => EmptyString
  | String c s' => entity c +:+ escape s'
  end.

Definition count_at (s : string) : nat :=
  length (filter (λ c, c = "@"%char) (chars s)).

Definition isEmail (s : string) : bool :=
  (count_at s =? 1)%nat
  && negb (String.prefix "@" s)
  && negb (endsWith s "@")
  && negb (test is_blank s).

Definition bcrypt_hash (salt password : string) : string :=
  "$2a$12$" +:+ salt +:+ "$" +:+ password.

Definition bcrypt_compare (password hash : string) : bool :=
  endsWith hash ("$" +:+ password).

Definition platform : Platform :=
  Build_Platform (map_chars lower) trim escape isEmail bcrypt_hash bcrypt_compare.

End Reference.

(** ** Sample stores

    Stores built by running the module on the reference platform, used to
    evaluate the operations on concrete inputs. *)
Module Sample.

(** Ana registers at time 1000. *)
Definition registered : World :=
  (@registerUser Reference.platform 1000 "u1" "s1" "ana@gmail.com" "Abcdef1!" "Ana"
     None empty_world).2.

Definition ana : User :=
  User.mk "STUDY-u1" "ana@gmail.com" "$2a$12$s1$Abcdef1!" "Ana" 1000 1000 0 None true
    None None.

(** Ana, then Bob; Ana logs in at 5000 and Bob at 6000. *)
Definition two_users : World :=
  @run Reference.platform
    [Register 2000 "u2" "s2" "bob@gmail.com" "Qwerty9?" "Bob" None;
     Login 5000 "token-a" "ana@gmail.com" "Abcdef1!";
     Login 6000 "token-b" "bob@gmail.com" "Qwerty9?"]
    registered.

(** Ana asks for a reset at time 7000 and is sent the token "r1". *)
Definition reset_pending : World :=
  (@initiatePasswordReset Reference.platform 7000 "r1" "ana@gmail.com" registered).2.

End Sample.

(** ** Vocabulary of the properties *)

(** The [n] most recent entries of a log that grows at its end. *)
Definition most_recent {A} (n : nat) (l : list A) : list A := drop (length l - n) l.

(** The lock test of [loginUser]: a lock expiry is stored and lies ahead. *)
Definition is_locked (now : Z) (u : User) : bool :=
  match User.lockedUntil u with
  | Some lockedUntil => now <? lockedUntil
  | None => false
  end.

(** The record [loginUser] looks for. *)
Abbreviation login_key studyIdOrEmail :=
  (λ u : User,
     toLowerCase (User.studyId u) = sanitizeInput (toLowerCase studyIdOrEmail)
     ∨ toLowerCase (User.email u) = sanitizeInput (toLowerCase studyIdOrEmail)).

(** The record the reset flow looks for. *)
Abbreviation email_key email :=
  (λ u : User, User.email u = sanitizeInput (toLowerCase email)).

(** No two entries of the session collection have the same owner. *)
Definition single_session (sessions : list AuthSession) : Prop :=
  NoDup (AuthSession.studyId <$> sessions).

(** Sessions with the same token have the same owner. *)
Definition token_names_owner (sessions : list AuthSession) : Prop :=
  ∀ s1 s2, s1 ∈ sessions → s2 ∈ sessions →
    AuthSession.sessionToken s1 = AuthSession.sessionToken s2 →
    AuthSession.studyId s1 = AuthSession.studyId s2.

(** A stored lock expiry comes with at least [MAX_FAILED_ATTEMPTS]
    counted failures. *)
Definition lock_counted (u : User) : Prop :=
  is_Some (User.lockedUntil u) → MAX_FAILED_ATTEMPTS ≤ User.failedAttempts u.

(** The record a failed attempt writes back. *)
Definition after_failure (now : Z) (u : User) : User :=
  let n := User.failedAttempts u + 1 in
  if MAX_FAILED_ATTEMPTS <=? n
  then User.set_lockedUntil (Some (now + LOCK_DURATION)) (User.set_failedAttempts n u)
  else User.set_failedAttempts n u.

(** The record a successful login writes back. *)
Definition after_success (now : Z) (u : User) : User :=
  User.set_lastLogin now (User.set_lockedUntil None (User.set_failedAttempts 0 u)).

(** The answer of [loginUser] to a locked account. *)
Definition locked_response (now lockedUntil : Z) : Result :=
  Result.mk false None None
    (Some (msg_locked (ceil_div (lockedUntil - now) (1000 * 60)))) (Some true) None.

(** The call is a login or a password reset that answered success. *)
Definition succeeded `{Platform} (c : Call) (w : World) : Prop :=
  match c with
  | Login now uuid studyIdOrEmail password =>
    Result.success (loginUser now uuid studyIdOrEmail password w).1 = true
  | ResetPassword now salt email resetToken newPassword =>
    Result.success (resetPassword now salt email resetToken newPassword w).1 = true
  | _ => False
  end.

(** ** Vocabulary of the account properties *)

(** The record a password reset writes back, given the new hash. *)
Definition after_reset (hash : string) (u : User) : User :=
  User.set_lockedUntil None (User.set_failedAttempts 0
    (User.set_resetTokenExpiry None (User.set_resetToken None
       (User.set_passwordHash hash u)))).

(** The record [initiatePasswordReset] writes back. *)
Definition after_initiate (now : Z) (uuid : string) (u : User) : User :=
  User.set_resetTokenExpiry (Some (now + 60 * 60 * 1000))
    (User.set_resetToken (Some uuid) u).

(** The fields no operation assigns after registration. *)
Definition same_identity (u u' : User) : Prop :=
  User.studyId u' = User.studyId u
  ∧ User.email u' = User.email u
  ∧ User.preferredName u' = User.preferredName u
  ∧ User.createdAt u' = User.createdAt u
  ∧ User.isVerified u' = User.isVerified u.

(** Addresses and identifiers are each pairwise distinct. *)
Definition unique_users (users : list User) : Prop :=
  NoDup (User.email <$> users) ∧ NoDup (User.studyId <$> users).

(** The reset token and its expiry are stored together. *)
Definition ticket_paired (u : User) : Prop :=
  is_Some (User.resetToken u) ↔ is_Some (User.resetTokenExpiry u).

(** What registration checks of a record, and what the later operations
    keep of it. *)
Definition well_formed_user `{Platform} (u : User) : Prop :=
  validateEmail (User.email u) = true
  ∧ (2 ≤ String.length (User.preferredName u))%nat
  ∧ User.isVerified u = true
  ∧ 0 ≤ User.failedAttempts u
  ∧ ticket_paired u.

(** Every session names a stored record, by identifier and address. *)
Definition sessions_owned (w : World) : Prop :=
  ∀ s, s ∈ pomogrow_sessions w →
    ∃ u, u ∈ pomogrow_users w
         ∧ User.studyId u = AuthSession.studyId s
         ∧ User.email u = AuthSession.email s.

(** The call is a password reset that answered success. *)
Definition reset_succeeded `{Platform} (c : Call) (w : World) : Prop :=
  match c with
  | ResetPassword now salt email resetToken newPassword =>
    Result.success (resetPassword now salt email resetToken newPassword w).1 = true
  | _ => False
  end.

(** ** Per-user data (utils/secureStorage.ts)

    The record kept for each user under the key pomogrow_data_<studyId>.
    As for the other collections, the stored value is the record itself:
    what [btoa] has encoded, [atob] and [JSON.parse] give back.  The
    encoding itself can fail, see [Encoder], and [saveSecureUserData]
    then answers false from its [catch]. *)

Inductive Mood := happy | tired | motivated.

Module StudySession.
Inductive kind := focus | break.
Record t := mk {
  date : Z;
  duration : Z;
  type : kind
}.
End StudySession.
Abbreviation StudySession := StudySession.t.

Module Exam.
Record t := mk {
  id : string;
  subject : string;
  date : string;
  time : string;
  location : option string;
  notes : option string
}.
End Exam.
Abbreviation Exam := Exam.t.

(** A badge as stored with the user, [{ id, name, description, earnedDate }]. *)
Module EarnedBadge.
Record t := mk {
  id : string;
  name : string;
  description : string;
  earnedDate : Z
}.
End EarnedBadge.
Abbreviation EarnedBadge := EarnedBadge.t.

Module EmotionEntry.
Inductive feeling := happy | sad | stressed | motivated | tired | excited.
Record t := mk {
  id : string;
  date : string;
  mood : feeling;
  intensity : Z;
  notes : option string;
  beforeStudy : bool
}.
End EmotionEntry.
Abbreviation EmotionEntry := EmotionEntry.t.

Module TimetableEntry.
Record t := mk {
  id : string;
  subject : string;
  dayOfWeek : Z;
  startTime : string;
  endTime : string;
  location : option string;
  recurring : bool
}.
End TimetableEntry.
Abbreviation TimetableEntry := TimetableEntry.t.

Module SecureUserData.
Record t := mk {
  studyId : string;
  loginId : string;
  displayName : string;
  mood : Mood;
  joinDate : Z;
  pomodorosCompleted : Z;
  badges : list EarnedBadge;
  trees : Z;
  studySessions : list StudySession;
  exams : list Exam;
  skipDays : list string;
  lastActiveDate : Z;
  emotionEntries : list EmotionEntry;
  timetable : list TimetableEntry
}.

(** Field assignments. *)
Definition set_studySessions (v : list StudySession) (d : t) : t :=
  mk (studyId d) (loginId d) (displayName d) (mood d) (joinDate d) (pomodorosCompleted d)
     (badges d) (trees d) v (exams d) (skipDays d) (lastActiveDate d)
     (emotionEntries d) (timetable d).
Definition set_lastActiveDate (v : Z) (d : t) : t :=
  mk (studyId d) (loginId d) (displayName d) (mood d) (joinDate d) (pomodorosCompleted d)
     (badges d) (trees d) (studySessions d) (exams d) (skipDays d) v
     (emotionEntries d) (timetable d).
Definition set_emotionEntries (v : list EmotionEntry) (d : t) : t :=
  mk (studyId d) (loginId d) (displayName d) (mood d) (joinDate d) (pomodorosCompleted d)
     (badges d) (trees d) (studySessions d) (exams d) (skipDays d) (lastActiveDate d)
     v (timetable d).
Definition set_timetable (v : list TimetableEntry) (d : t) : t :=
  mk (studyId d) (loginId d) (displayName d) (mood d) (joinDate d) (pomodorosCompleted d)
     (badges d) (trees d) (studySessions d) (exams d) (skipDays d) (lastActiveDate d)
     (emotionEntries d) v.
End SecureUserData.
Abbreviation SecureUserData := SecureUserData.t.

(** [Partial<SecureUserData>]: the keys an update carries. *)
Module Updates.
Record t := mk {
  studyId : option string;
  loginId : option string;
  displayName : option string;
  mood : option Mood;
  joinDate : option Z;
  pomodorosCompleted : option Z;
  badges : option (list EarnedBadge);
  trees : option Z;
  studySessions : option (list StudySession);
  exams : option (list Exam);
  skipDays : option (list string);
  lastActiveDate : option Z;
  emotionEntries : option (list EmotionEntry);
  timetable : option (list TimetableEntry)
}.

Definition none : t :=
  mk None None None None None None None None None None None None None None.
End Updates.
Abbreviation Updates := Updates.t.

(** [{ ...currentData, ...updates }] *)
Definition spread (currentData : SecureUserData) (updates : Updates) : SecureUserData :=
  SecureUserData.mk
    (default (SecureUserData.studyId currentData) (Updates.studyId updates))
    (default (SecureUserData.loginId currentData) (Updates.loginId updates))
    (default (SecureUserData.displayName currentData) (Updates.displayName updates))
    (default (SecureUserData.mood currentData) (Updates.mood updates))
    (default (SecureUserData.joinDate currentData) (Updates.joinDate updates))
    (default (SecureUserData.pomodorosCompleted currentData)
       (Updates.pomodorosCompleted updates))
    (default (SecureUserData.badges currentData) (Updates.badges updates))
    (default (SecureUserData.trees currentData) (Updates.trees updates))
    (default (SecureUserData.studySessions currentData) (Updates.studySessions updates))
    (default (SecureUserData.exams currentData) (Updates.exams updates))
    (default (SecureUserData.skipDays currentData) (Updates.skipDays updates))
    (default (SecureUserData.lastActiveDate currentData) (Updates.lastActiveDate updates))
    (default (SecureUserData.emotionEntries currentData) (Updates.emotionEntries updates))
    (default (SecureUserData.timetable currentData) (Updates.timetable updates)).

(** localStorage as the whole application sees it: the collections of the
    authentication module, the data records by key, and the key
    pomogrow_session under which the token of the open session is kept. *)
Record Storage := mkStorage {
  auth : World;
  pomogrow_data : gmap string SecureUserData;
  pomogrow_session : option string
}.

Definition empty_storage : Storage := mkStorage empty_world ∅ None.

Definition SIO (A : Type) : Type := Storage → A * Storage.

#[global] Instance SIO_ret : MRet SIO := λ A a s, (a, s).
#[global] Instance SIO_bind : MBind SIO := λ A B k m s, k (m s).1 (m s).2.

(** A computation of the authentication module, run on its collections. *)
Definition liftIO {A} (m : IO A) : SIO A := λ s,
  ((m (auth s)).1, mkStorage (m (auth s)).2 (pomogrow_data s) (pomogrow_session s)).

Definition getData (key : string) : SIO (option SecureUserData) := λ s,
  (pomogrow_data s !! key, s).

Definition setData (key : string) (v : SecureUserData) : SIO unit := λ s,
  (tt, mkStorage (auth s) (<[key := v]> (pomogrow_data s)) (pomogrow_session s)).

Definition removeData (key : string) : SIO unit := λ s,
  (tt, mkStorage (auth s) (delete key (pomogrow_data s)) (pomogrow_session s)).

Definition getUserDataKey (studyId : string) : string := "pomogrow_data_" +:+ studyId.

(** [btoa(JSON.stringify(userData))] throws when the text of the record
    holds a code unit above U+00FF.  A string of the model keeps one
    [ascii] for each code unit and so cannot show such a code unit;
    whether the text of a record has one, and the encoding fails, is the
    field of this class.  What is proved holds for every encoder. *)
Class Encoder := {
  (** [btoa(JSON.stringify(userData))] returns *)
  encodes : SecureUserData → bool
}.

Definition saveSecureUserData `{Encoder} (now : Z) (userData : SecureUserData)
    (sessionToken : string) : SIO bool :=
  access ← liftIO (hasDataAccess now sessionToken (SecureUserData.studyId userData));
  if negb access then mret false
  else
    let dataKey := getUserDataKey (SecureUserData.studyId userData) in
    if negb (encodes userData) then mret false
    else
      setData dataKey userData;;
      mret true.

Definition loadSecureUserData (now : Z) (studyId sessionToken : string)
    : SIO (option SecureUserData) :=
  access ← liftIO (hasDataAccess now sessionToken studyId);
  if negb access then mret None
  else
    let dataKey := getUserDataKey studyId in
    getData dataKey.

Definition createInitialUserData (now : Z) (user : User) : SecureUserData :=
  SecureUserData.mk (User.studyId user) (User.studyId user) (User.preferredName user)
    motivated (User.createdAt user) 0 [] 0 [] [] [] now [] [].

Definition updateSecureUserData `{Encoder} (now : Z) (studyId sessionToken : string)
    (updates : Updates) : SIO (option SecureUserData) :=
  currentData ← loadSecureUserData now studyId sessionToken;
  match currentData with
  | None => mret None
  | Some currentData =>
    let updatedData := spread currentData updates in
    success ← saveSecureUserData now updatedData sessionToken;
    mret (if success : bool then Some updatedData else None)
  end.

Definition addStudySession `{Encoder} (now : Z) (studyId sessionToken : string)
    (session : StudySession) : SIO bool :=
  userData ← loadSecureUserData now studyId sessionToken;
  match userData with
  | None => mret false
  | Some userData =>
    let userData :=
      SecureUserData.set_studySessions
        (SecureUserData.studySessions userData ++ [session]) userData in
    let userData := SecureUserData.set_lastActiveDate now userData in
    saveSecureUserData now userData sessionToken
  end.

Definition addEmotionEntry `{Encoder} (now : Z) (studyId sessionToken : string)
    (entry : EmotionEntry) : SIO bool :=
  userData ← loadSecureUserData now studyId sessionToken;
  match userData with
  | None => mret false
  | Some userData =>
    let userData :=
      SecureUserData.set_emotionEntries
        (SecureUserData.emotionEntries userData ++ [entry]) userData in
    saveSecureUserData now userData sessionToken
  end.

Definition addTimetableEntry `{Encoder} (now : Z) (studyId sessionToken : string)
    (entry : TimetableEntry) : SIO bool :=
  userData ← loadSecureUserData now studyId sessionToken;
  match userData with
  | None => mret false
  | Some userData =>
    let userData :=
      SecureUserData.set_timetable
        (SecureUserData.timetable userData ++ [entry]) userData in
    saveSecureUserData now userData sessionToken
  end.

Definition deleteUserData (now : Z) (studyId sessionToken : string) : SIO bool :=
  access ← liftIO (hasDataAccess now sessionToken studyId);
  if negb access then mret false
  else
    let dataKey := getUserDataKey studyId in
    removeData dataKey;;
    mret true.

(** ** The application shell (App.tsx) and the login form (AuthScreen.tsx) *)

Module App.
Inductive Screen := login | dashboard | timer | badges | forest | planner | analytics.

(** The React state of [App]. *)
Record State := mk {
  currentScreen : Screen;
  userData : option SecureUserData;
  sessionToken : option string;
  loading : bool
}.

Definition initial : State := mk login None None true.
End App.

(** A string or null used as a condition: null and the empty string are
    false. *)
Definition truthy (s : option string) : option string :=
  match s with
  | Some s => if String.eqb s "" then None else Some s
  | None => None
  end.

Definition getSession : SIO (option string) := λ s, (pomogrow_session s, s).

(** [localStorage.setItem('pomogrow_session', token)] *)
Definition setSession (token : string) : SIO unit := λ s,
  (tt, mkStorage (auth s) (pomogrow_data s) (Some token)).

(** [localStorage.removeItem('pomogrow_session')] *)
Definition removeSession : SIO unit := λ s,
  (tt, mkStorage (auth s) (pomogrow_data s) None).

(** The lines [App] runs both when it restores a session and when it is
    told of a login: load the data of the user, or create and save it. *)
Definition loadOrCreate `{Encoder} (now : Z) (user : User) (token : string)
    : SIO SecureUserData :=
  secureUserData ← loadSecureUserData now (User.studyId user) token;
  match secureUserData with
  | Some secureUserData => mret secureUserData
  | None =>
    let secureUserData := createInitialUserData now user in
    saveSecureUserData now secureUserData token;;
    mret secureUserData
  end.

(** The effect [App] runs when it is mounted. *)
Definition App_mount `{Encoder} (now : Z) (st : App.State) : SIO App.State :=
  savedSession ← getSession;
  st ← match truthy savedSession with
       | Some savedSession =>
         user ← liftIO (getCurrentUser now savedSession);
         match user with
         | Some user =>
           secureUserData ← loadOrCreate now user savedSession;
           mret (App.mk App.dashboard (Some secureUserData) (Some savedSession)
                   (App.loading st))
         | None =>
           removeSession;;
           mret st
         end
       | None => mret st
       end;
  mret (App.mk (App.currentScreen st) (App.userData st) (App.sessionToken st) false).

Definition App_handleLogin `{Encoder} (now : Z) (user : User) (token : string) (st : App.State)
    : SIO App.State :=
  secureUserData ← loadOrCreate now user token;
  mret (App.mk App.dashboard (Some secureUserData) (Some token) (App.loading st)).

Definition App_handleLogout (st : App.State) : SIO App.State :=
  match truthy (App.sessionToken st) with
  | Some sessionToken => liftIO (logout sessionToken)
  | None => mret tt
  end;;
  removeSession;;
  mret (App.mk App.login None None (App.loading st)).

(** [handleLogin] of the login form; the answer is the error it shows,
    if any, with the state of [App]. *)
Definition AuthScreen_handleLogin `{Platform} `{Encoder} (now : Z)
    (uuid studyIdOrEmail password : string) (st : App.State)
    : SIO (option string * App.State) :=
  result ← liftIO (loginUser now uuid studyIdOrEmail password);
  match Result.success result, Result.user result, truthy (Result.sessionToken result) with
  | true, Some user, Some sessionToken =>
    setSession sessionToken;;
    st ← App_handleLogin now user sessionToken st;
    mret (None, st)
  | _, _, _ =>
    let error := default "Login failed" (truthy (Result.error result)) in
    let error :=
      if default false (Result.locked result)
      then default "undefined" (Result.error result)
           +:+ " Please check your email for security alerts."
      else error in
    mret (Some error, st)
  end.

(** ** Runs of the whole store *)

Inductive SCall :=
| AuthCall (c : Call)
| SaveData (now : Z) (userData : SecureUserData) (sessionToken : string)
| LoadData (now : Z) (studyId sessionToken : string)
| UpdateData (now : Z) (studyId sessionToken : string) (updates : Updates)
| AddStudySession (now : Z) (studyId sessionToken : string) (session : StudySession)
| AddEmotionEntry (now : Z) (studyId sessionToken : string) (entry : EmotionEntry)
| AddTimetableEntry (now : Z) (studyId sessionToken : string) (entry : TimetableEntry)
| DeleteData (now : Z) (studyId sessionToken : string)
| UiLogin (now : Z) (uuid studyIdOrEmail password : string) (st : App.State)
| UiMount (now : Z) (st : App.State)
| UiLogout (st : App.State).

Definition scall `{Platform} `{Encoder} (c : SCall) (s : Storage) : Storage :=
  match c with
  | AuthCall c => mkStorage (call c (auth s)) (pomogrow_data s) (pomogrow_session s)
  | SaveData now userData sessionToken => (saveSecureUserData now userData sessionToken s).2
  | LoadData now studyId sessionToken => (loadSecureUserData now studyId sessionToken s).2
  | UpdateData now studyId sessionToken updates =>
    (updateSecureUserData now studyId sessionToken updates s).2
  | AddStudySession now studyId sessionToken session =>
    (addStudySession now studyId sessionToken session s).2
  | AddEmotionEntry now studyId sessionToken entry =>
    (addEmotionEntry now studyId sessionToken entry s).2
  | AddTimetableEntry now studyId sessionToken entry =>
    (addTimetableEntry now studyId sessionToken entry s).2
  | DeleteData now studyId sessionToken => (deleteUserData now studyId sessionToken s).2
  | UiLogin now uuid studyIdOrEmail password st =>
    (AuthScreen_handleLogin now uuid studyIdOrEmail password st s).2
  | UiMount now st => (App_mount now st s).2
  | UiLogout st => (App_handleLogout st s).2
  end.

Definition srun `{Platform} `{Encoder} (cs : list SCall) (s : Storage) : Storage :=
  foldl (λ s c, scall c s) s cs.

Definition sreachable `{Platform} `{Encoder} (s : Storage) : Prop :=
  ∃ cs, s = srun cs empty_storage.

(** Every data record sits under the key of its own identifier. *)
Definition data_keyed (s : Storage) : Prop :=
  ∀ key d, pomogrow_data s !! key = Some d →
    key = getUserDataKey (SecureUserData.studyId d).

(** Every data record belongs to a registered user. *)
Definition data_owned (s : Storage) : Prop :=
  ∀ key d, pomogrow_data s !! key = Some d →
    ∃ u, u ∈ pomogrow_users (auth s) ∧ User.studyId u = SecureUserData.studyId d.

(** The user a token resolves to at a clock reading. *)
Definition resolves (now : Z) (sessionToken : string) (w : World) : option User :=
  (validateSession now sessionToken w).1.

(** The user on whose behalf a call touches the data records: the one the
    token resolves to, or the one who has just logged in. *)
Definition acting_user `{Platform} (c : SCall) (s : Storage) : option User :=
  match c with
  | AuthCall _ | UiLogout _ => None
  | SaveData now _ sessionToken
  | LoadData now _ sessionToken
  | UpdateData now _ sessionToken _
  | AddStudySession now _ sessionToken _
  | AddEmotionEntry now _ sessionToken _
  | AddTimetableEntry now _ sessionToken _
  | DeleteData now _ sessionToken => resolves now sessionToken (auth s)
  | UiMount now _ =>
    match truthy (pomogrow_session s) with
    | Some sessionToken => resolves now sessionToken (auth s)
    | None => None
    end
  | UiLogin now uuid studyIdOrEmail password _ =>
    Result.user (loginUser now uuid studyIdOrEmail password (auth s)).1
  end.

(** ** A reference encoder

    The strictest one: a record encodes when its text is ASCII, as if
    every other code unit were above U+00FF. *)
Module ReferenceEncoder.

Definition plain (s : string) : bool := negb (test (λ c, (127 <? code c)%N) s).

Definition optional (s : option string) : bool :=
  match s with
  | Some s => plain s
  | None => true
  end.

Definition ascii_only (d : SecureUserData) : bool :=
  plain (SecureUserData.studyId d) && plain (SecureUserData.loginId d)
  && plain (SecureUserData.displayName d)
  && forallb (λ b, plain (EarnedBadge.id b) && plain (EarnedBadge.name b)
                   && plain (EarnedBadge.description b))
       (SecureUserData.badges d)
  && forallb (λ e, plain (Exam.id e) && plain (Exam.subject e) && plain (Exam.date e)
                   && plain (Exam.time e) && optional (Exam.location e)
                   && optional (Exam.notes e))
       (SecureUserData.exams d)
  && forallb plain (SecureUserData.skipDays d)
  && forallb (λ e, plain (EmotionEntry.id e) && plain (EmotionEntry.date e)
                   && optional (EmotionEntry.notes e))
       (SecureUserData.emotionEntries d)
  && forallb (λ e, plain (TimetableEntry.id e) && plain (TimetableEntry.subject e)
                   && plain (TimetableEntry.startTime e)
                   && plain (TimetableEntry.endTime e)
                   && optional (TimetableEntry.location e))
       (SecureUserData.timetable d).

Definition strict : Encoder := {| encodes := ascii_only |}.

End ReferenceEncoder.

(** ** Sample stores of the application *)
Module SampleApp.

(** Ana and Bob register; Ana logs in through the form at 5000 and Bob
    at 6000. *)
Definition two_users : Storage :=
  @srun Reference.platform ReferenceEncoder.strict
    [AuthCall (Register 1000 "u1" "s1" "ana@gmail.com" "Abcdef1!" "Ana" None);
     AuthCall (Register 2000 "u2" "s2" "bob@gmail.com" "Qwerty9?" "Bob" None);
     UiLogin 5000 "token-a" "ana@gmail.com" "Abcdef1!" App.initial;
     UiLogin 6000 "token-b" "bob@gmail.com" "Qwerty9?" App.initial]
    empty_storage.

(** Ana after her login at 5000. *)
Definition ana : User := User.set_lastLogin 5000 Sample.ana.

Definition ana_data : SecureUserData := createInitialUserData 5000 ana.

(** Both registered, nobody logged in. *)
Definition registered : Storage :=
  @srun Reference.platform ReferenceEncoder.strict
    [AuthCall (Register 1000 "u1" "s1" "ana@gmail.com" "Abcdef1!" "Ana" None);
     AuthCall (Register 2000 "u2" "s2" "bob@gmail.com" "Qwerty9?" "Bob" None)]
    empty_storage.

(** An update that names Bob's identifier, and one that plants three trees. *)
Definition rebind : Updates :=
  Updates.mk (Some "STUDY-u2") None None None None None None None None None None None
    None None.

Definition grow : Updates :=
  Updates.mk None None None None None None None (Some 3) None None None None None None.

(** Ana's record under Bob's identifier, and with three trees. *)
Definition forged : SecureUserData := spread ana_data rebind.

Definition grown : SecureUserData := spread ana_data grow.

(** An update to a name that is not ASCII, and Ana's record under it. *)
Definition rename : Updates :=
  Updates.mk None None (Some "Łukasz") None None None None None None None None None None
    None.

Definition renamed : SecureUserData := spread ana_data rename.

Definition one_session : StudySession := StudySession.mk 7000 25 StudySession.focus.

Definition one_emotion : EmotionEntry :=
  EmotionEntry.mk "e1" "2024-01-01" EmotionEntry.happy 7 None true.

Definition one_slot : TimetableEntry := TimetableEntry.mk
  "t1" "Maths" 1 "09:00" "10:00" None true.

End SampleApp.

(** ** Badges (utils/badges.ts)

    The badge rules read the clock and the local calendar. A [Date] is
    its number of milliseconds; an invalid date, whose time is NaN, is
    [None]. The functions of [Date] that depend on the time zone are kept
    abstract, so what is proved holds in every time zone. Counts are
    integers, as the source only ever adds 1 to them. *)

Class Calendar := {
  (** [date.getHours()] *)
  getHours : Z → Z;
  (** [date.getDay()], 0 for Sunday to 6 for Saturday *)
  getDay : Z → Z;
  (** [date.toDateString()] *)
  toDateString : Z → string;
  (** [new Date(text).getTime()] *)
  parseDate : string → option Z;
  (** [date.setDate(date.getDate() + n)] *)
  addDays : Z → Z → Z
}.

Module Badge.
Inductive Rarity := common | rare | epic | legendary.
Record t := mk {
  id : string;
  name : string;
  description : string;
  requirement : string;
  rarity : Rarity;
  icon : string
}.
End Badge.
Abbreviation Badge := Badge.t.

Definition getAllPossibleBadges : list Badge := [
  Badge.mk "first_pomodoro" "Focus Finisher" "Completed your first Pomodoro session"
    "1 Pomodoro" Badge.common "Target";
  Badge.mk "early_bird" "Early Bird" "Completed a session before 8 AM"
    "Study before 8 AM" Badge.rare "Star";
  Badge.mk "night_owl" "Night Owl" "Completed a session after 10 PM"
    "Study after 10 PM" Badge.rare "Star";
  Badge.mk "consistency_champion" "Consistency Champion" "Studied for 7 days in a row"
    "7-day streak" Badge.epic "Flame";
  Badge.mk "forest_starter" "Forest Starter" "Planted your first 10 trees"
    "10 Pomodoros" Badge.common "Heart";
  Badge.mk "tree_hugger" "Tree Hugger" "Planted 50 trees in your virtual forest"
    "50 Pomodoros" Badge.rare "Crown";
  Badge.mk "forest_guardian" "Forest Guardian"
    "Planted 100 trees - you're making a difference!"
    "100 Pomodoros" Badge.epic "Trophy";
  Badge.mk "pomodoro_master" "Pomodoro Master" "Completed 500 Pomodoro sessions"
    "500 Pomodoros" Badge.legendary "Crown";
  Badge.mk "deadline_dodger" "Deadline Dodger Slayer" "Studied consistently before an exam"
    "Study 5 days before exam" Badge.epic "Zap";
  Badge.mk "weekend_warrior" "Weekend Warrior" "Studied on both weekend days"
    "Study Saturday & Sunday" Badge.rare "Star";
  Badge.mk "study_marathon" "Study Marathon" "Completed 10 Pomodoros in a single day"
    "10 sessions in one day" Badge.epic "Trophy";
  Badge.mk "month_achiever" "Month Achiever" "Studied every day for a month"
    "30-day streak" Badge.legendary "Crown"
].

(** [arr.indexOf(x)] *)
Definition indexOf (x : string) (arr : list string) : option nat :=
  fst <$> list_find (λ y, y = x) arr.

(** [arr.filter((date, index, arr) => arr.indexOf(date) === index)] *)
Definition firstOccurrences (arr : list string) : list string :=
  snd <$> filter (λ p, indexOf p.2 arr = Some p.1) (imap (λ i d, (i, d)) arr).

(** [arr.sort(compare)], a stable sort: each element goes behind the
    elements placed so far that do not compare greater than it. A
    comparison that is NaN counts as 0. *)
Fixpoint insertSorted {A} (compare : A → A → Z) (x : A) (sorted : list A) : list A :=
  match sorted with
  | [] => [x]
  | y :: rest =>
    if 0 <? compare y x then x :: y :: rest else y :: insertSorted compare x rest
  end.

Definition Array_sort {A} (compare : A → A → Z) (arr : list A) : list A :=
  foldl (λ sorted x, insertSorted compare x sorted) [] arr.

Section Badges.
Context `{Calendar}.

(** [(a, b) => new Date(b).getTime() - new Date(a).getTime()] *)
Definition latestFirst (a b : string) : Z :=
  match parseDate b, parseDate a with
  | Some tb, Some ta => tb - ta
  | _, _ => 0
  end.

(** The loop of [getStudyStreak] from index [i] on, [prev] being
    [dates[i - 1]]. *)
Fixpoint countStreak (prev : string) (dates : list string) (streak : Z) : Z :=
  match dates with
  | [] => streak
  | current :: dates =>
    match parseDate prev, parseDate current with
    | Some prevDate, Some currentDate =>
      let diffTime := prevDate - currentDate in
      let diffDays := ceil_div diffTime (1000 * 60 * 60 * 24) in
      if diffDays =? 1 then countStreak current dates (streak + 1) else streak
    | _, _ => streak
    end
  end.

Definition getStudyStreak (now : Z) (userData : SecureUserData) : Z :=
  let dates :=
    Array_sort latestFirst
      (firstOccurrences
         ((λ session, toDateString (StudySession.date session))
            <$> SecureUserData.studySessions userData)) in
  match dates with
  | [] => 0
  | latest :: earlier =>
    let today := toDateString now in
    if negb (String.eqb latest today)
       && negb (String.eqb latest (toDateString (addDays now (-1))))
    then 0
    else countStreak latest earlier 1
  end.

Definition getThisWeekDates (now : Z) : list Z :=
  let startOfWeek := addDays now (- getDay now) in
  (λ i, addDays startOfWeek i) <$> [0; 1; 2; 3; 4; 5; 6].

Definition studiedOn (day : Z) (userData : SecureUserData) : bool :=
  existsb
    (λ session, String.eqb (toDateString (StudySession.date session)) (toDateString day))
    (SecureUserData.studySessions userData).

Definition checkWeekendWarrior (now : Z) (userData : SecureUserData) : bool :=
  let thisWeek := getThisWeekDates now in
  match list_find (λ date, getDay date = 6) thisWeek,
        list_find (λ date, getDay date = 0) thisWeek with
  | Some (_, saturday), Some (_, sunday) =>
    studiedOn saturday userData && studiedOn sunday userData
  | _, _ => false
  end.

(** The object [sessionsByDay], from a date string to its count. *)
Definition sessionsByDay (sessions : list StudySession) : gmap string Z :=
  foldl (λ acc session,
           let date := toDateString (StudySession.date session) in
           <[date := default 0 (acc !! date) + 1]> acc)
        ∅ sessions.

Definition checkStudyMarathon (userData : SecureUserData) : bool :=
  existsb (λ count, 10 <=? count)
    (snd <$> map_to_list (sessionsByDay (SecureUserData.studySessions userData))).

Definition checkDeadlineDodger (userData : SecureUserData) : bool :=
  existsb
    (λ exam,
       match parseDate (Exam.date exam) with
       | Some examDate =>
         let fiveDaysBefore := addDays examDate (-5) in
         let sessionsBeforeExam :=
           filter (λ session, fiveDaysBefore ≤ StudySession.date session
                              ∧ StudySession.date session ≤ examDate)
                  (SecureUserData.studySessions userData) in
         (5 <=? length sessionsBeforeExam)%nat
       | None => false
       end)
    (SecureUserData.exams userData).

(** The [switch] of [awardBadge]. *)
Definition shouldAward (now : Z) (userData : SecureUserData) (id : string) : bool :=
  if String.eqb id "first_pomodoro" then 1 <=? SecureUserData.pomodorosCompleted userData
  else if String.eqb id "forest_starter" then 10 <=? SecureUserData.trees userData
  else if String.eqb id "tree_hugger" then 50 <=? SecureUserData.trees userData
  else if String.eqb id "forest_guardian" then 100 <=? SecureUserData.trees userData
  else if String.eqb id "pomodoro_master"
       then 500 <=? SecureUserData.pomodorosCompleted userData
  else if String.eqb id "early_bird"
       then existsb (λ session, getHours (StudySession.date session) <? 8)
              (SecureUserData.studySessions userData)
  else if String.eqb id "night_owl"
       then existsb (λ session, 22 <=? getHours (StudySession.date session))
              (SecureUserData.studySessions userData)
  else if String.eqb id "consistency_champion" then 7 <=? getStudyStreak now userData
  else if String.eqb id "month_achiever" then 30 <=? getStudyStreak now userData
  else if String.eqb id "weekend_warrior" then checkWeekendWarrior now userData
  else if String.eqb id "study_marathon" then checkStudyMarathon userData
  else if String.eqb id "deadline_dodger" then checkDeadlineDodger userData
  else false.

(** The badge as it is stored once earned. *)
Definition earned (now : Z) (badge : Badge) : EarnedBadge :=
  EarnedBadge.mk (Badge.id badge) (Badge.name badge) (Badge.description badge) now.

Definition awardBadge (now : Z) (userData : SecureUserData) : list EarnedBadge :=
  let allBadges := getAllPossibleBadges in
  let earnedBadgeIds := EarnedBadge.id <$> SecureUserData.badges userData in
  foldl (λ newBadges badge,
           if bool_decide (Badge.id badge ∈ earnedBadgeIds) then newBadges
           else if shouldAward now userData (Badge.id badge)
                then newBadges ++ [earned now badge]
                else newBadges)
        [] allBadges.

End Badges.

(** ** The study timer (components/StudyTimer.tsx)

    The notification of [showCompletionMessage], which draws a random
    message and stores nothing, is left out. *)

Module Timer.
(** The React state of [StudyTimer]; times are in seconds, the three
    lengths in minutes. *)
Record State := mk {
  userData : SecureUserData;
  timeLeft : Z;
  isActive : bool;
  isBreak : bool;
  pomodoroCount : Z;
  showSettings : bool;
  focusTime : Z;
  shortBreakTime : Z;
  longBreakTime : Z
}.

Definition initial (initialUserData : SecureUserData) : State :=
  mk initialUserData (25 * 60) false false 0 false 25 5 15.
End Timer.

(** [onUserDataUpdate], which [App] passes as its [setUserData]. *)
Definition App_setUserData (userData : SecureUserData) (st : App.State) : App.State :=
  App.mk (App.currentScreen st) (Some userData) (App.sessionToken st) (App.loading st).

(** [{ ...userData, badges }] *)
Definition withBadges (badges : list EarnedBadge) (userData : SecureUserData)
    : SecureUserData :=
  SecureUserData.mk
    (SecureUserData.studyId userData) (SecureUserData.loginId userData)
    (SecureUserData.displayName userData) (SecureUserData.mood userData)
    (SecureUserData.joinDate userData) (SecureUserData.pomodorosCompleted userData)
    badges (SecureUserData.trees userData) (SecureUserData.studySessions userData)
    (SecureUserData.exams userData) (SecureUserData.skipDays userData)
    (SecureUserData.lastActiveDate userData) (SecureUserData.emotionEntries userData)
    (SecureUserData.timetable userData).

(** The record [handleTimerComplete] builds after a focus session: one
    more pomodoro, session and tree, then the badges this earns. *)
Definition focusCompleted `{Calendar} (now focusTime : Z) (userData : SecureUserData)
    : SecureUserData :=
  let updatedUserData :=
    SecureUserData.mk
      (SecureUserData.studyId userData) (SecureUserData.loginId userData)
      (SecureUserData.displayName userData) (SecureUserData.mood userData)
      (SecureUserData.joinDate userData)
      (SecureUserData.pomodorosCompleted userData + 1)
      (SecureUserData.badges userData)
      (SecureUserData.trees userData + 1)
      (SecureUserData.studySessions userData
         ++ [StudySession.mk now focusTime StudySession.focus])
      (SecureUserData.exams userData) (SecureUserData.skipDays userData)
      (SecureUserData.lastActiveDate userData)
      (SecureUserData.emotionEntries userData) (SecureUserData.timetable userData) in
  let newBadges := awardBadge now updatedUserData in
  withBadges (SecureUserData.badges userData ++ newBadges) updatedUserData.

(** [handleTimerComplete]; the answer is the state of the timer with the
    state of [App]. *)
Definition StudyTimer_handleTimerComplete `{Calendar} `{Encoder} (now : Z) (sessionToken : string)
    (t : Timer.State) (st : App.State) : SIO (Timer.State * App.State) :=
  if negb (Timer.isBreak t) then
    let newPomodoroCount := Timer.pomodoroCount t + 1 in
    let updatedUserData := focusCompleted now (Timer.focusTime t) (Timer.userData t) in
    success ← saveSecureUserData now updatedUserData sessionToken;
    let userData := if success : bool then updatedUserData else Timer.userData t in
    let st := if success then App_setUserData updatedUserData st else st in
    let breakDuration :=
      if Z.rem newPomodoroCount 4 =? 0
      then Timer.longBreakTime t else Timer.shortBreakTime t in
    mret (Timer.mk userData (breakDuration * 60) false true newPomodoroCount
            (Timer.showSettings t) (Timer.focusTime t) (Timer.shortBreakTime t)
            (Timer.longBreakTime t), st)
  else
    mret (Timer.mk (Timer.userData t) (Timer.focusTime t * 60) false false
            (Timer.pomodoroCount t) (Timer.showSettings t) (Timer.focusTime t)
            (Timer.shortBreakTime t) (Timer.longBreakTime t), st).

(** ** The exam planner (components/ExamPlanner.tsx) *)

Module Planner.
Record FormData := mkForm {
  subject : string;
  date : string;
  time : string;
  location : string;
  notes : string
}.

Definition emptyForm : FormData := mkForm "" "" "" "" "".

(** The React state of [ExamPlanner]. *)
Record State := mk {
  userData : SecureUserData;
  showAddForm : bool;
  editingExam : option Exam;
  formData : FormData
}.

Definition initial (initialUserData : SecureUserData) : State :=
  mk initialUserData false None emptyForm.
End Planner.

(** [{ ...userData, exams }] *)
Definition withExams (exams : list Exam) (userData : SecureUserData) : SecureUserData :=
  SecureUserData.mk
    (SecureUserData.studyId userData) (SecureUserData.loginId userData)
    (SecureUserData.displayName userData) (SecureUserData.mood userData)
    (SecureUserData.joinDate userData) (SecureUserData.pomodorosCompleted userData)
    (SecureUserData.badges userData) (SecureUserData.trees userData)
    (SecureUserData.studySessions userData) exams (SecureUserData.skipDays userData)
    (SecureUserData.lastActiveDate userData) (SecureUserData.emotionEntries userData)
    (SecureUserData.timetable userData).

(** The exam [handleSubmit] builds from the form:
    [editingExam?.id || Date.now().toString()] and the five fields. *)
Definition examData (now : Z) (editingExam : option Exam) (form : Planner.FormData)
    : Exam :=
  Exam.mk
    (default (show now) (truthy (Exam.id <$> editingExam)))
    (Planner.subject form) (Planner.date form) (Planner.time form)
    (Some (Planner.location form)) (Some (Planner.notes form)).

(** The lines [handleSubmit] and [handleDelete] share: save, and on
    success tell the component and [App]. *)
Definition Planner_save `{Encoder} (now : Z) (sessionToken : string)
    (updatedUserData userData : SecureUserData) (st : App.State)
    : SIO (SecureUserData * App.State) :=
  success ← saveSecureUserData now updatedUserData sessionToken;
  mret (if success : bool then (updatedUserData, App_setUserData updatedUserData st)
        else (userData, st)).

Definition ExamPlanner_handleSubmit `{Encoder} (now : Z) (sessionToken : string)
    (p : Planner.State) (st : App.State) : SIO (Planner.State * App.State) :=
  let examData := examData now (Planner.editingExam p) (Planner.formData p) in
  let exams := SecureUserData.exams (Planner.userData p) in
  let updatedExams :=
    match Planner.editingExam p with
    | Some editingExam =>
      (λ exam, if String.eqb (Exam.id exam) (Exam.id editingExam) then examData else exam)
        <$> exams
    | None => exams ++ [examData]
    end in
  let updatedUserData := withExams updatedExams (Planner.userData p) in
  saved ← Planner_save now sessionToken updatedUserData (Planner.userData p) st;
  mret (Planner.mk saved.1 false None Planner.emptyForm, saved.2).

Definition ExamPlanner_handleEdit (exam : Exam) (p : Planner.State) : Planner.State :=
  Planner.mk (Planner.userData p) true (Some exam)
    (Planner.mkForm (Exam.subject exam) (Exam.date exam) (Exam.time exam)
       (default "" (truthy (Exam.location exam))) (default "" (truthy (Exam.notes exam)))).

Definition ExamPlanner_handleDelete `{Encoder} (now : Z) (sessionToken : string) (examId : string)
    (p : Planner.State) (st : App.State) : SIO (Planner.State * App.State) :=
  let updatedUserData :=
    withExams
      (filter (λ exam, Exam.id exam ≠ examId) (SecureUserData.exams (Planner.userData p)))
      (Planner.userData p) in
  saved ← Planner_save now sessionToken updatedUserData (Planner.userData p) st;
  mret (Planner.mk saved.1 (Planner.showAddForm p) (Planner.editingExam p)
          (Planner.formData p), saved.2).

(** ** The other forms of the login screen (components/AuthScreen.tsx) *)

Module AuthScreen.
Inductive AuthMode := login | register | forgot | reset.

Record FormData := mkForm {
  studyIdOrEmail : string;
  customStudyId : string;
  email : string;
  password : string;
  confirmPassword : string;
  preferredName : string;
  resetToken : string
}.

(** The React state of [AuthScreen]. *)
Record State := mk {
  mode : AuthMode;
  showPassword : bool;
  loading : bool;
  error : string;
  success : string;
  formData : FormData
}.

Definition initial : State := mk login false false "" "" (mkForm "" "" "" "" "" "" "").
End AuthScreen.

Section Forms.
Context `{Platform}.

Definition AuthScreen_handleRegister (now : Z) (uuid salt : string)
    (a : AuthScreen.State) : SIO AuthScreen.State :=
  let formData := AuthScreen.formData a in
  if negb (String.eqb (AuthScreen.password formData) (AuthScreen.confirmPassword formData))
  then
    mret (AuthScreen.mk (AuthScreen.mode a) (AuthScreen.showPassword a) false
            "Passwords do not match" (AuthScreen.success a) formData)
  else
    result ← liftIO (registerUser now uuid salt (AuthScreen.email formData)
                       (AuthScreen.password formData) (AuthScreen.preferredName formData)
                       (truthy (Some (AuthScreen.customStudyId formData))));
    if Result.success result then
      mret (AuthScreen.mk AuthScreen.login (AuthScreen.showPassword a) false ""
              ("Registration successful! Your Study ID is: "
               +:+ default "undefined" (Result.studyId result))
              (AuthScreen.mkForm
                 (default "" (truthy (Result.studyId result)))
                 (AuthScreen.customStudyId formData) (AuthScreen.email formData)
                 "" "" (AuthScreen.preferredName formData)
                 (AuthScreen.resetToken formData)))
    else
      mret (AuthScreen.mk (AuthScreen.mode a) (AuthScreen.showPassword a) false
              (default "Registration failed" (truthy (Result.error result)))
              (AuthScreen.success a) formData).

Definition AuthScreen_handleForgotPassword (now : Z) (uuid : string)
    (a : AuthScreen.State) : SIO AuthScreen.State :=
  let formData := AuthScreen.formData a in
  result ← liftIO (initiatePasswordReset now uuid (AuthScreen.email formData));
  if Result.success result then
    mret (AuthScreen.mk AuthScreen.reset (AuthScreen.showPassword a) false ""
            "If this email is registered, you will receive password reset instructions."
            formData)
  else
    mret (AuthScreen.mk (AuthScreen.mode a) (AuthScreen.showPassword a) false
            (default "Password reset failed" (truthy (Result.error result)))
            (AuthScreen.success a) formData).

Definition AuthScreen_handleResetPassword (now : Z) (salt : string)
    (a : AuthScreen.State) : SIO AuthScreen.State :=
  let formData := AuthScreen.formData a in
  if negb (String.eqb (AuthScreen.password formData) (AuthScreen.confirmPassword formData))
  then
    mret (AuthScreen.mk (AuthScreen.mode a) (AuthScreen.showPassword a) false
            "Passwords do not match" (AuthScreen.success a) formData)
  else
    result ← liftIO (resetPassword now salt (AuthScreen.email formData)
                       (AuthScreen.resetToken formData) (AuthScreen.password formData));
    if Result.success result then
      mret (AuthScreen.mk AuthScreen.login (AuthScreen.showPassword a) false ""
              "Password reset successful! You can now log in with your new password."
              (AuthScreen.mkForm
                 (AuthScreen.studyIdOrEmail formData) (AuthScreen.customStudyId formData)
                 (AuthScreen.email formData) "" "" (AuthScreen.preferredName formData) ""))
    else
      mret (AuthScreen.mk (AuthScreen.mode a) (AuthScreen.showPassword a) false
              (default "Password reset failed" (truthy (Result.error result)))
              (AuthScreen.success a) formData).

End Forms.

(** ** A reference calendar

    Universal time, with a date printed as the number of its day since
    the epoch; 1 January 1970 was a Thursday. *)

Module ReferenceCalendar.
Definition day : Z := 24 * 60 * 60 * 1000.

Definition utc : Calendar := {|
  getHours t := (t mod day) / (60 * 60 * 1000);
  getDay t := (t / day + 4) mod 7;
  toDateString t := show (t / day);
  parseDate text := (λ n, Z.of_int n * day) <$> NilZero.int_of_string text;
  addDays t n := t + n * day
|}.
End ReferenceCalendar.

(** The number of study sessions a badge cannot be earned without. *)
Definition sessionsRequired (id : string) : nat :=
  if String.eqb id "early_bird" then 1
  else if String.eqb id "night_owl" then 1
  else if String.eqb id "consistency_champion" then 7
  else if String.eqb id "month_achiever" then 30
  else if String.eqb id "weekend_warrior" then 1
  else if String.eqb id "study_marathon" then 10
  else if String.eqb id "deadline_dodger" then 5
  else 0.

(** The badges that count pomodoros and trees. *)
Definition counterBadges : list string :=
  ["first_pomodoro"; "forest_starter"; "tree_hugger"; "forest_guardian"; "pomodoro_master"].

(** ** Samples of the components *)

Module SampleUi.

(** Ana's record with a hundred trees and no study session. *)
Definition hundred_trees : SecureUserData :=
  spread SampleApp.ana_data
    (Updates.mk None None None None None None None (Some 100) None None None None None
       None).

(** The timer and the planner opened on Ana's record, the planner with
    an exam typed into its form. *)
Definition timer : Timer.State := Timer.initial SampleApp.ana_data.

Definition planner : Planner.State :=
  Planner.mk SampleApp.ana_data true None
    (Planner.mkForm "Maths" "19805" "09:00" "Hall 2" "").

(** The register form as Carol fills it in, and with a confirmation
    that differs from the password. *)
Definition carol : AuthScreen.State :=
  AuthScreen.mk AuthScreen.register false false "" ""
    (AuthScreen.mkForm "" "" "Carol@Gmail.com" "Zyxwvu9!" "Zyxwvu9!" "Carol" "").

Definition mistyped : AuthScreen.State :=
  AuthScreen.mk AuthScreen.register false false "" ""
    (AuthScreen.mkForm "" "" "Carol@Gmail.com" "Zyxwvu9!" "Zyxwvu9?" "Carol" "").

(** Ana registers under the study ID Team; Bob then registers under
    TEAM. *)
Definition team : World :=
  (@registerUser Reference.platform 1000 "u1" "s1" "ana@gmail.com" "Abcdef1!" "Ana"
     (Some "Team") empty_world).2.

Definition team_ana : User :=
  User.mk "Team" "ana@gmail.com" "$2a$12$s1$Abcdef1!" "Ana" 1000 1000 0 None true
    None None.

Definition register_bob : Call :=
  Register 2000 "u2" "s2" "bob@gmail.com" "Qwerty9?" "Bob" (Some "TEAM").

End SampleUi.

(** ** Properties of the password policy *)

Lemma test_spec cls s : test cls s = true ↔ ∃ c, c ∈ chars s ∧ cls c = true.
Proof.
  induction s as [|a s IH]; simpl.
  - split; [done|]. intros (c & Hc & _). by apply elem_of_nil in Hc.
  - rewrite orb_true_iff, IH. split.
    + intros [Ha|(c & Hc & Hcls)].
      * exists a. split; [apply list_elem_of_here|done].
      * exists c. split; [by apply list_elem_of_further|done].
    + intros (c & Hc & Hcls). apply elem_of_cons in Hc as [->|Hc]; eauto.
Qed.

Lemma in_range_spec lo hi c :
  in_range (N_of_ascii lo) (N_of_ascii hi) c = true ↔ between lo hi c.
Proof.
  unfold in_range, between, code.
  rewrite andb_true_iff, !N.leb_le. done.
Qed.

Lemma is_special_spec c : is_special c = true ↔ c ∈ chars special_chars.
Proof.
  unfold is_special. rewrite existsb_exists. split.
  - intros (x & Hx & Heq). apply Ascii.eqb_eq in Heq as ->.
    by apply list_elem_of_In.
  - intros Hc. exists c. split; [by apply list_elem_of_In|apply Ascii.eqb_refl].
Qed.

Lemma test_false_spec cls s : test cls s = false ↔ ¬ ∃ c, c ∈ chars s ∧ cls c = true.
Proof. rewrite <- test_spec. symmetry. apply not_true_iff_false. Qed.

Lemma violated_false_spec password r :
  violated password r = false ↔ satisfies r password.
Proof.
  destruct r; simpl; rewrite ?negb_false_iff, ?test_spec.
  - rewrite Nat.ltb_ge. done.
  - by setoid_rewrite (in_range_spec "A" "Z").
  - by setoid_rewrite (in_range_spec "a" "z").
  - by setoid_rewrite (in_range_spec "0" "9").
  - by setoid_rewrite is_special_spec.
Qed.

Lemma violated_spec password r : violated password r = true ↔ violates r password.
Proof.
  unfold violates. rewrite <- violated_false_spec.
  destruct (violated password r); split; congruence.
Qed.

Lemma validatePassword_errors password :
  errors (validatePassword password)
  = rule_message <$> filter (λ r, violated password r = true) all_rules.
Proof.
  unfold validatePassword, all_rules, push_if. simpl errors.
  rewrite !filter_cons, filter_nil. simpl violated.
  destruct (String.length password <? 8)%nat;
    destruct (test is_upper password);
    destruct (test is_lower password);
    destruct (test is_digit password);
    destruct (test is_special password); reflexivity.
Qed.

Lemma rule_message_inj r1 r2 : rule_message r1 = rule_message r2 → r1 = r2.
Proof. destruct r1, r2; simpl; intros H; first [done | by vm_compute in H]. Qed.

Lemma rule_message_elem_of password r :
  rule_message r ∈ errors (validatePassword password) ↔ violates r password.
Proof.
  rewrite validatePassword_errors, list_elem_of_fmap. split.
  - intros (r' & Heq & Hin). apply rule_message_inj in Heq as <-.
    apply list_elem_of_filter in Hin as [Hv _]. by apply violated_spec.
  - intros Hv. exists r. split; [done|].
    apply list_elem_of_filter. split; [by apply violated_spec|].
    destruct r; unfold all_rules; set_solver.
Qed.

Lemma isValid_errors password :
  isValid (validatePassword password) = true ↔ errors (validatePassword password) = [].
Proof.
  change (isValid (validatePassword password))
    with (length (errors (validatePassword password)) =? 0)%nat.
  rewrite Nat.eqb_eq. split; [apply nil_length_inv|by intros ->].
Qed.

(** C8: [validatePassword] checks all five rules and reports one message
    for each rule the password violates, in the order of the rules and
    nothing else; it answers valid exactly when the list is empty, which
    is exactly when every rule is satisfied. *)
Theorem validatePassword_reports_every_violation (password : string) :
  let v := validatePassword password in
  (∀ r, violates r password → rule_message r ∈ errors v)
  ∧ (∀ m, m ∈ errors v → ∃ r, m = rule_message r ∧ violates r password)
  ∧ NoDup (errors v)
  ∧ errors v = rule_message <$> filter (λ r, violated password r = true) all_rules
  ∧ ((∃ r, violates r password) → isValid v = false)
  ∧ (isValid v = true ↔ errors v = [])
  ∧ (isValid v = true ↔ ∀ r, satisfies r password).
Proof.
  intros v. subst v. split_and!.
  - intros r Hr. by apply rule_message_elem_of.
  - intros m Hm. rewrite validatePassword_errors in Hm.
    apply list_elem_of_fmap in Hm as (r & -> & Hin).
    exists r. split; [done|].
    apply list_elem_of_filter in Hin as [Hv _]. by apply violated_spec.
  - rewrite validatePassword_errors. apply NoDup_fmap_2.
    + intros r1 r2. apply rule_message_inj.
    + apply NoDup_filter. by apply (bool_decide_unpack _).
  - apply validatePassword_errors.
  - intros [r Hr]. apply not_true_iff_false. rewrite isValid_errors.
    intros Hnil. apply rule_message_elem_of in Hr. rewrite Hnil in Hr.
    by apply elem_of_nil in Hr.
  - apply isValid_errors.
  - rewrite isValid_errors. split.
    + intros Hnil r. apply violated_false_spec. apply not_true_iff_false.
      rewrite violated_spec, <- rule_message_elem_of, Hnil. apply not_elem_of_nil.
    + intros Hall. rewrite validatePassword_errors.
      assert (Hv : ∀ r, violated password r = false)
        by (intros r; by apply violated_false_spec).
      unfold all_rules. by rewrite !filter_cons, filter_nil, !Hv.
Qed.

(** ** Running the computations *)

Ltac io_unfold :=
  unfold hashPassword, verifyPassword, sendSecurityAlert, getAllUsers, saveUsers,
    getSessions, setSessions, getSecurityLogs, setSecurityLogs, perform,
    mbind, mret, IO_bind, IO_ret.

Lemma most_recent_cap {A} (l : list A) :
  (if (100 <? length l)%nat then drop (length l - 100) l else l) = most_recent 100 l.
Proof.
  unfold most_recent. destruct (100 <? length l)%nat eqn:Hlen; [done|].
  apply Nat.ltb_ge in Hlen. by replace (length l - 100)%nat with 0%nat by lia.
Qed.

Lemma length_most_recent {A} n (l : list A) :
  length (most_recent n l) = (length l `min` n)%nat.
Proof. unfold most_recent. rewrite length_drop. lia. Qed.

Lemma logSecurityEvent_run now event identifier w :
  logSecurityEvent now event identifier w
  = (tt, mkWorld (pomogrow_users w) (pomogrow_sessions w)
           (most_recent 100 (security_logs w ++ [SecurityLog.mk now event identifier]))
           (effects w)).
Proof. unfold logSecurityEvent. io_unfold. simpl. by rewrite most_recent_cap. Qed.

Section Login_equations.
Context `{Platform}.

Lemma loginUser_no_user now uuid ident pw w :
  list_find (login_key ident) (pomogrow_users w) = None →
  loginUser now uuid ident pw w
  = (Result.failure msg_invalid_credentials,
     mkWorld (pomogrow_users w) (pomogrow_sessions w)
       (most_recent 100 (security_logs w ++
          [SecurityLog.mk now "INVALID_CREDENTIALS" (sanitizeInput (toLowerCase ident))]))
       (effects w)).
Proof.
  intros Hf. unfold loginUser.
  unfold mbind at 1. unfold IO_bind at 1. simpl.
  rewrite Hf. unfold mbind, IO_bind. by rewrite logSecurityEvent_run.
Qed.

Lemma loginUser_locked now uuid ident pw w i u until :
  list_find (login_key ident) (pomogrow_users w) = Some (i, u) →
  User.lockedUntil u = Some until → now < until →
  loginUser now uuid ident pw w
  = (Result.mk false None None
       (Some (msg_locked (ceil_div (until - now) (1000 * 60)))) (Some true) None, w).
Proof.
  intros Hf Hl Hlt. unfold loginUser.
  unfold mbind at 1. unfold IO_bind at 1. simpl.
  rewrite Hf, Hl. apply Z.ltb_lt in Hlt. by rewrite Hlt.
Qed.

Lemma loginUser_wrong_password now uuid ident pw w i u :
  list_find (login_key ident) (pomogrow_users w) = Some (i, u) →
  is_locked now u = false →
  bcrypt_compare pw (User.passwordHash u) = false →
  let n := User.failedAttempts u + 1 in
  loginUser now uuid ident pw w
  = (Result.failure (msg_invalid_password n),
     if MAX_FAILED_ATTEMPTS <=? n then
       mkWorld
         (<[i := User.set_lockedUntil (Some (now + LOCK_DURATION))
                   (User.set_failedAttempts n u)]> (pomogrow_users w))
         (pomogrow_sessions w)
         (most_recent 100 (security_logs w ++
            [SecurityLog.mk now "ACCOUNT_LOCKED" (User.email u)]))
         (effects w ++ [BcryptCompare pw (User.passwordHash u);
                        SecurityAlert (User.email u) (User.preferredName u)])
     else
       mkWorld (<[i := User.set_failedAttempts n u]> (pomogrow_users w))
         (pomogrow_sessions w) (security_logs w)
         (effects w ++ [BcryptCompare pw (User.passwordHash u)])).
Proof.
  intros Hf Hl Hpw n. unfold loginUser, is_locked in *.
  unfold mbind at 1. unfold IO_bind at 1. simpl.
  rewrite Hf.
  destruct (User.lockedUntil u) as [t|]; rewrite ?Hl.
  all: io_unfold; simpl; rewrite Hpw; simpl; fold n.
  all: destruct (MAX_FAILED_ATTEMPTS <=? n) eqn:Hmax; simpl.
  all: by rewrite ?most_recent_cap, <- ?app_assoc.
Qed.

Lemma loginUser_success now uuid ident pw w i u :
  list_find (login_key ident) (pomogrow_users w) = Some (i, u) →
  is_locked now u = false →
  bcrypt_compare pw (User.passwordHash u) = true →
  let u' := User.set_lastLogin now
              (User.set_lockedUntil None (User.set_failedAttempts 0 u)) in
  loginUser now uuid ident pw w
  = (Result.mk true None (Some u') None None (Some uuid),
     mkWorld (<[i := u']> (pomogrow_users w))
       (filter (λ s, AuthSession.studyId s ≠ User.studyId u) (pomogrow_sessions w)
        ++ [AuthSession.mk (User.studyId u) (User.email u) uuid (now + SESSION_DURATION)])
       (security_logs w)
       (effects w ++ [BcryptCompare pw (User.passwordHash u)])).
Proof.
  intros Hf Hl Hpw u'. unfold loginUser, is_locked in *.
  unfold mbind at 1. unfold IO_bind at 1. simpl.
  rewrite Hf.
  destruct (User.lockedUntil u) as [t|]; rewrite ?Hl.
  all: unfold createSession; io_unfold; simpl; by rewrite Hpw.
Qed.

End Login_equations.

Lemma is_locked_true now u :
  is_locked now u = true ↔ ∃ until, User.lockedUntil u = Some until ∧ now < until.
Proof.
  unfold is_locked. destruct (User.lockedUntil u) as [t|].
  - rewrite Z.ltb_lt. split; [eauto|]. by intros (? & [= <-] & ?).
  - split; [done|]. by intros (? & ? & ?).
Qed.

Lemma is_locked_false now u :
  is_locked now u = false ↔ ∀ until, User.lockedUntil u = Some until → until ≤ now.
Proof.
  unfold is_locked. destruct (User.lockedUntil u) as [t|].
  - rewrite Z.ltb_ge. split; [by intros ? ? [= <-]|eauto].
  - split; [done|]. done.
Qed.

(** *** Sessions *)

Lemma createSession_run now uuid user w :
  createSession now uuid user w
  = (AuthSession.mk (User.studyId user) (User.email user) uuid (now + SESSION_DURATION),
     mkWorld (pomogrow_users w)
       (filter (λ s, AuthSession.studyId s ≠ User.studyId user) (pomogrow_sessions w)
        ++ [AuthSession.mk (User.studyId user) (User.email user) uuid
              (now + SESSION_DURATION)])
       (security_logs w) (effects w)).
Proof. reflexivity. Qed.

Lemma validateSession_unknown now tok w :
  list_find (λ s, AuthSession.sessionToken s = tok) (pomogrow_sessions w) = None →
  validateSession now tok w = (None, w).
Proof.
  intros Hf. unfold validateSession. unfold mbind at 1. unfold IO_bind at 1. simpl.
  by rewrite Hf.
Qed.

Lemma validateSession_expired now tok w i session :
  list_find (λ s, AuthSession.sessionToken s = tok) (pomogrow_sessions w)
    = Some (i, session) →
  AuthSession.expiresAt session < now →
  validateSession now tok w
  = (None,
     mkWorld (pomogrow_users w)
       (filter (λ s, AuthSession.sessionToken s ≠ tok) (pomogrow_sessions w))
       (security_logs w) (effects w)).
Proof.
  intros Hf Hexp. unfold validateSession. unfold mbind at 1. unfold IO_bind at 1. simpl.
  rewrite Hf. apply Z.ltb_lt in Hexp. by rewrite Hexp.
Qed.

Lemma validateSession_live now tok w i session :
  list_find (λ s, AuthSession.sessionToken s = tok) (pomogrow_sessions w)
    = Some (i, session) →
  now ≤ AuthSession.expiresAt session →
  validateSession now tok w
  = (snd <$> list_find (λ u, User.studyId u = AuthSession.studyId session)
               (pomogrow_users w), w).
Proof.
  intros Hf Hexp. unfold validateSession. unfold mbind at 1. unfold IO_bind at 1. simpl.
  rewrite Hf. apply Z.ltb_ge in Hexp. by rewrite Hexp.
Qed.

Lemma logout_run tok w :
  logout tok w
  = (tt, mkWorld (pomogrow_users w)
           (filter (λ s, AuthSession.sessionToken s ≠ tok) (pomogrow_sessions w))
           (security_logs w) (effects w)).
Proof. reflexivity. Qed.

Lemma hasDataAccess_world now tok target w :
  (hasDataAccess now tok target w).2 = (validateSession now tok w).2.
Proof. reflexivity. Qed.

(** *** Password reset and registration *)

Section Reset_equations.
Context `{Platform}.

Lemma initiatePasswordReset_invalid now uuid email w :
  validateEmail (sanitizeInput (toLowerCase email)) = false →
  initiatePasswordReset now uuid email w
  = (Result.failure "Please enter a valid Gmail address", w).
Proof. intros Hv. unfold initiatePasswordReset. by rewrite Hv. Qed.

Lemma initiatePasswordReset_unknown now uuid email w :
  validateEmail (sanitizeInput (toLowerCase email)) = true →
  list_find (email_key email) (pomogrow_users w) = None →
  initiatePasswordReset now uuid email w = (Result.ok, w).
Proof.
  intros Hv Hf. unfold initiatePasswordReset. rewrite Hv. simpl.
  unfold mbind at 1. unfold IO_bind at 1. simpl. by rewrite Hf.
Qed.

Lemma initiatePasswordReset_known now uuid email w i u :
  validateEmail (sanitizeInput (toLowerCase email)) = true →
  list_find (email_key email) (pomogrow_users w) = Some (i, u) →
  initiatePasswordReset now uuid email w
  = (Result.ok,
     mkWorld
       (<[i := User.set_resetTokenExpiry (Some (now + 60 * 60 * 1000))
                 (User.set_resetToken (Some uuid) u)]> (pomogrow_users w))
       (pomogrow_sessions w) (security_logs w)
       (effects w ++ [ResetTokenLogged email uuid])).
Proof.
  intros Hv Hf. unfold initiatePasswordReset. rewrite Hv. simpl.
  unfold mbind at 1. unfold IO_bind at 1. simpl. by rewrite Hf.
Qed.

Lemma resetPassword_weak now salt email tok pw w :
  isValid (validatePassword pw) = false →
  resetPassword now salt email tok pw w
  = (Result.failure (join ". " (errors (validatePassword pw))), w).
Proof. intros Hv. unfold resetPassword. by rewrite Hv. Qed.

Lemma resetPassword_unknown now salt email tok pw w :
  isValid (validatePassword pw) = true →
  list_find (email_key email) (pomogrow_users w) = None →
  resetPassword now salt email tok pw w = (Result.failure msg_invalid_token, w).
Proof.
  intros Hv Hf. unfold resetPassword. rewrite Hv. simpl.
  unfold mbind at 1. unfold IO_bind at 1. simpl. by rewrite Hf.
Qed.

Lemma resetPassword_rejected now salt email tok pw w i u :
  isValid (validatePassword pw) = true →
  list_find (email_key email) (pomogrow_users w) = Some (i, u) →
  ticket_accepts now tok u = false →
  resetPassword now salt email tok pw w = (Result.failure msg_invalid_token, w).
Proof.
  intros Hv Hf Ht. unfold resetPassword. rewrite Hv. simpl.
  unfold mbind at 1. unfold IO_bind at 1. simpl. by rewrite Hf, Ht.
Qed.

Lemma resetPassword_accepted now salt email tok pw w i u :
  isValid (validatePassword pw) = true →
  list_find (email_key email) (pomogrow_users w) = Some (i, u) →
  ticket_accepts now tok u = true →
  let u' := User.set_lockedUntil None (User.set_failedAttempts 0
              (User.set_resetTokenExpiry None (User.set_resetToken None
                 (User.set_passwordHash (bcrypt_hash salt pw) u)))) in
  resetPassword now salt email tok pw w
  = (Result.ok,
     mkWorld (<[i := u']> (pomogrow_users w)) (pomogrow_sessions w) (security_logs w)
       (effects w ++ [BcryptHash pw])).
Proof.
  intros Hv Hf Ht u'. unfold resetPassword. rewrite Hv. simpl.
  unfold mbind at 1. unfold IO_bind at 1. simpl. by rewrite Hf, Ht.
Qed.

Lemma registerUser_world now uuid salt email password preferredName customStudyId w :
  (registerUser now uuid salt email password preferredName customStudyId w).2 = w
  ∨ ∃ id mail hash name,
      (registerUser now uuid salt email password preferredName customStudyId w).2
      = mkWorld
          (pomogrow_users w ++ [User.mk id mail hash name now now 0 None true None None])
          (pomogrow_sessions w) (security_logs w)
          (effects w ++ [BcryptHash password]).
Proof.
  unfold registerUser.
  destruct (negb (validateEmail _)); [by left|].
  destruct (negb (isValid _)); [by left|].
  destruct (_ <? 2)%nat; [by left|].
  io_unfold. simpl.
  destruct (list_find _ _); [by left|].
  destruct (list_find _ _); [by left|].
  right. eexists _, _, _, _. reflexivity.
Qed.

End Reset_equations.

(** ** Case analysis on a call *)

Ltac login_cases now uuid ident pw w :=
  let i := fresh "i" in
  let u := fresh "u" in
  let until := fresh "until" in
  let Hf := fresh "Hfind" in
  let Hl := fresh "Hlock" in
  let Hu := fresh "Huntil" in
  let Hlt := fresh "Hbefore" in
  let Hpw := fresh "Hpw" in
  destruct (list_find (login_key ident) (pomogrow_users w)) as [[i u]|] eqn:Hf;
  [ destruct (is_locked now u) eqn:Hl;
    [ pose proof Hl as Hu; apply is_locked_true in Hu as (until & Hu & Hlt);
      rewrite (loginUser_locked now uuid ident pw w i u until Hf Hu Hlt)
    | destruct (bcrypt_compare pw (User.passwordHash u)) eqn:Hpw;
      [ rewrite (loginUser_success now uuid ident pw w i u Hf Hl Hpw)
      | rewrite (loginUser_wrong_password now uuid ident pw w i u Hf Hl Hpw) ] ]
  | rewrite (loginUser_no_user now uuid ident pw w Hf) ].

Ltac validate_cases now tok w :=
  let i := fresh "i" in
  let s := fresh "session" in
  let Hf := fresh "Hfind" in
  let He := fresh "Hexp" in
  destruct (list_find (λ s, AuthSession.sessionToken s = tok) (pomogrow_sessions w))
    as [[i s]|] eqn:Hf;
  [ destruct (Z.lt_ge_cases (AuthSession.expiresAt s) now) as [He|He];
    [ rewrite (validateSession_expired now tok w i s Hf He)
    | rewrite (validateSession_live now tok w i s Hf He) ]
  | rewrite (validateSession_unknown now tok w Hf) ].

Ltac initiate_cases now uuid email w :=
  let i := fresh "i" in
  let u := fresh "u" in
  let Hv := fresh "Hvalid" in
  let Hf := fresh "Hfind" in
  destruct (validateEmail (sanitizeInput (toLowerCase email))) eqn:Hv;
  [ destruct (list_find (email_key email) (pomogrow_users w)) as [[i u]|] eqn:Hf;
    [ rewrite (initiatePasswordReset_known now uuid email w i u Hv Hf)
    | rewrite (initiatePasswordReset_unknown now uuid email w Hv Hf) ]
  | rewrite (initiatePasswordReset_invalid now uuid email w Hv) ].

Ltac reset_cases now salt email tok pw w :=
  let i := fresh "i" in
  let u := fresh "u" in
  let Hv := fresh "Hvalid" in
  let Hf := fresh "Hfind" in
  let Ht := fresh "Hticket" in
  destruct (isValid (validatePassword pw)) eqn:Hv;
  [ destruct (list_find (email_key email) (pomogrow_users w)) as [[i u]|] eqn:Hf;
    [ destruct (ticket_accepts now tok u) eqn:Ht;
      [ rewrite (resetPassword_accepted now salt email tok pw w i u Hv Hf Ht)
      | rewrite (resetPassword_rejected now salt email tok pw w i u Hv Hf Ht) ]
    | rewrite (resetPassword_unknown now salt email tok pw w Hv Hf) ]
  | rewrite (resetPassword_weak now salt email tok pw w Hv) ].

(** ** Reachable stores *)

Section Reachable.
Context `{Platform}.

Lemma run_snoc cs c w : run (cs ++ [c]) w = call c (run cs w).
Proof. unfold run. by rewrite foldl_snoc. Qed.

Lemma reachable_empty : reachable empty_world.
Proof. by exists []. Qed.

Lemma reachable_call c w : reachable w → reachable (call c w).
Proof. intros [cs ->]. exists (cs ++ [c]). by rewrite run_snoc. Qed.

Lemma reachable_invariant (P : World → Prop) :
  P empty_world → (∀ c w, P w → P (call c w)) → ∀ w, reachable w → P w.
Proof.
  intros H0 Hstep w [cs ->].
  induction cs as [|c cs IH] using rev_ind; [done|].
  rewrite run_snoc. by apply Hstep.
Qed.

(** What one call does to the security log: nothing, or one record. *)
Lemma call_security_logs c w :
  security_logs (call c w) = security_logs w
  ∨ ∃ e, security_logs (call c w) = most_recent 100 (security_logs w ++ [e]).
Proof.
  destruct c as [now uuid salt email pw name custom | now uuid ident pw | tok
                | now tok | now uuid email | now salt email tok pw
                | now tok target | now event identifier]; cbn [call].
  - destruct (registerUser_world now uuid salt email pw name custom w)
      as [->|(? & ? & ? & ? & ->)]; by left.
  - login_cases now uuid ident pw w; simpl; eauto.
    destruct (MAX_FAILED_ATTEMPTS <=? _); simpl; eauto.
  - by left.
  - validate_cases now tok w; by left.
  - initiate_cases now uuid email w; by left.
  - reset_cases now salt email tok pw w; by left.
  - rewrite hasDataAccess_world. validate_cases now tok w; by left.
  - rewrite logSecurityEvent_run. simpl. eauto.
Qed.

(** What one call does to the session collection: nothing, the removal
    of the sessions with one token, or the issue of a session. *)
Lemma call_sessions c w :
  pomogrow_sessions (call c w) = pomogrow_sessions w
  ∨ (∃ tok, pomogrow_sessions (call c w)
            = filter (λ s, AuthSession.sessionToken s ≠ tok) (pomogrow_sessions w))
  ∨ (∃ now uuid user w0,
       pomogrow_sessions w0 = pomogrow_sessions w
       ∧ pomogrow_sessions (call c w)
         = pomogrow_sessions (createSession now uuid user w0).2).
Proof.
  destruct c as [now uuid salt email pw name custom | now uuid ident pw | tok
                | now tok | now uuid email | now salt email tok pw
                | now tok target | now event identifier]; cbn [call].
  - destruct (registerUser_world now uuid salt email pw name custom w)
      as [->|(? & ? & ? & ? & ->)]; by left.
  - login_cases now uuid ident pw w.
    + by left.
    + right. right. exists now, uuid, u, w. by rewrite createSession_run.
    + destruct (MAX_FAILED_ATTEMPTS <=? _); by left.
    + by left.
  - right. left. by exists tok.
  - validate_cases now tok w; simpl; eauto.
  - initiate_cases now uuid email w; by left.
  - reset_cases now salt email tok pw w; by left.
  - rewrite hasDataAccess_world. validate_cases now tok w; simpl; eauto.
  - rewrite logSecurityEvent_run. by left.
Qed.

End Reachable.

(** ** The security log *)

Lemma most_recent_split {A} n (l : list A) :
  l = take (length l - n) l ++ most_recent n l.
Proof. unfold most_recent. by rewrite take_drop. Qed.

Lemma last_most_recent_snoc {A} n (l : list A) x :
  (0 < n)%nat → last (most_recent n (l ++ [x])) = Some x.
Proof.
  intros Hn. unfold most_recent. rewrite length_app. simpl.
  rewrite drop_app_le by lia. apply last_snoc.
Qed.

(** C9: every store the module can build holds at most 100 log entries;
    [logSecurityEvent] appends the entry [{now, event, identifier}] and
    then drops entries from the front, keeping exactly the most recent
    100 once more than 100 have been written, the new entry last. *)
Theorem security_log_bounded `{Platform} :
  (∀ w, reachable w → (length (security_logs w) ≤ 100)%nat)
  ∧ ∀ now event identifier w,
      let entry := SecurityLog.mk now event identifier in
      let w' := (logSecurityEvent now event identifier w).2 in
      (length (security_logs w') ≤ 100)%nat
      ∧ last (security_logs w') = Some entry
      ∧ (∃ evicted,
           security_logs w ++ [entry] = evicted ++ security_logs w'
           ∧ length evicted = (length (security_logs w) + 1 - 100)%nat)
      ∧ ((100 ≤ length (security_logs w))%nat → length (security_logs w') = 100%nat)
      ∧ ((length (security_logs w) < 100)%nat →
           security_logs w' = security_logs w ++ [entry])
      ∧ pomogrow_users w' = pomogrow_users w
      ∧ pomogrow_sessions w' = pomogrow_sessions w.
Proof.
  split.
  - apply reachable_invariant; [simpl; lia|].
    intros c w Hw. destruct (call_security_logs c w) as [->|[e ->]]; [done|].
    rewrite length_most_recent. lia.
  - intros now event identifier w entry w'. subst w'.
    rewrite logSecurityEvent_run. simpl. fold entry. split_and!.
    + rewrite length_most_recent. lia.
    + apply last_most_recent_snoc. lia.
    + exists (take (length (security_logs w ++ [entry]) - 100) (security_logs w ++ [entry])).
      split; [apply most_recent_split|].
      rewrite length_take, length_app. simpl. lia.
    + intros Hlen. rewrite length_most_recent, length_app. simpl. lia.
    + intros Hlen. unfold most_recent. rewrite length_app. simpl.
      by replace (length (security_logs w) + 1 - 100)%nat with 0%nat by lia.
    + done.
    + done.
Qed.

(** ** The session registry *)

Lemma list_find_none_forall {A} (P : A → Prop) `{∀ x, Decision (P x)} (l : list A) :
  (∀ x, x ∈ l → ¬ P x) → list_find P l = None.
Proof. intros Hl. apply list_find_None, Forall_forall. exact Hl. Qed.

Lemma filter_none {A} (P : A → Prop) `{∀ x, Decision (P x)} (l : list A) :
  (∀ x, x ∈ l → ¬ P x) → filter P l = [].
Proof.
  induction l as [|a l IH]; intros Hl; [done|].
  rewrite filter_cons, decide_False by (apply Hl, list_elem_of_here).
  apply IH. intros x Hx. by apply Hl, list_elem_of_further.
Qed.

Lemma list_find_elem {A} (P : A → Prop) `{∀ x, Decision (P x)} (l : list A) i x :
  list_find P l = Some (i, x) → x ∈ l ∧ P x.
Proof.
  intros (Hi & HP & _)%list_find_Some. split; [|done].
  by eapply list_elem_of_lookup_2.
Qed.

Lemma single_session_filter (P : AuthSession → Prop) `{∀ s, Decision (P s)} sessions :
  single_session sessions → single_session (filter P sessions).
Proof.
  unfold single_session. intros Hnd. eapply sublist_NoDup; [exact Hnd|].
  apply fmap_sublist, sublist_filter.
Qed.

Lemma single_session_issue sessions owner mail tok expiry :
  single_session sessions →
  single_session (filter (λ s, AuthSession.studyId s ≠ owner) sessions
                  ++ [AuthSession.mk owner mail tok expiry]).
Proof.
  intros Hnd. unfold single_session. rewrite fmap_app. apply NoDup_app. split_and!.
  - by apply single_session_filter.
  - intros id (s & -> & Hs)%list_elem_of_fmap. simpl.
    apply list_elem_of_filter in Hs as [Hne _].
    intros Heq%list_elem_of_singleton. by apply Hne.
  - simpl. apply NoDup_singleton.
Qed.

Lemma single_session_unique sessions s1 s2 :
  single_session sessions → s1 ∈ sessions → s2 ∈ sessions →
  AuthSession.studyId s1 = AuthSession.studyId s2 → s1 = s2.
Proof.
  unfold single_session. intros Hnd (i & Hi)%list_elem_of_lookup (j & Hj)%list_elem_of_lookup Heq.
  assert (i = j) as ->; [|congruence].
  eapply NoDup_lookup; [exact Hnd| |].
  - rewrite list_lookup_fmap, Hi. reflexivity.
  - rewrite list_lookup_fmap, Hj. simpl. by rewrite Heq.
Qed.

(** C7: [validateSession] answers null and leaves the store alone when no
    session carries the token; when the session found has expired it
    answers null and writes back the collection without the sessions
    carrying this token; otherwise it leaves the store alone and answers
    the first user record whose identifier is the session's owner (null
    when the user collection has none). *)
Theorem validateSession_outcomes (now : Z) (sessionToken : string) (w : World) :
  let token_is := λ s, AuthSession.sessionToken s = sessionToken in
  ((∀ s, s ∈ pomogrow_sessions w → AuthSession.sessionToken s ≠ sessionToken) →
     validateSession now sessionToken w = (None, w))
  ∧ (∀ i session,
       list_find token_is (pomogrow_sessions w) = Some (i, session) →
       AuthSession.expiresAt session < now →
       let r := validateSession now sessionToken w in
       r.1 = None
       ∧ (session ∉ pomogrow_sessions r.2)
       ∧ (∀ s, (s ∈ pomogrow_sessions r.2)
               ↔ (s ∈ pomogrow_sessions w ∧ AuthSession.sessionToken s ≠ sessionToken))
       ∧ pomogrow_users r.2 = pomogrow_users w
       ∧ security_logs r.2 = security_logs w)
  ∧ (∀ i session,
       list_find token_is (pomogrow_sessions w) = Some (i, session) →
       now ≤ AuthSession.expiresAt session →
       let r := validateSession now sessionToken w in
       r.2 = w
       ∧ r.1 = snd <$> list_find (λ u, User.studyId u = AuthSession.studyId session)
                         (pomogrow_users w)
       ∧ (∀ u, r.1 = Some u →
               u ∈ pomogrow_users w ∧ User.studyId u = AuthSession.studyId session)
       ∧ (r.1 = None →
            ∀ u, u ∈ pomogrow_users w → User.studyId u ≠ AuthSession.studyId session)).
Proof.
  intros token_is. split_and!.
  - intros Hnone. apply validateSession_unknown. by apply list_find_none_forall.
  - intros i session Hf Hexp r. subst r.
    rewrite (validateSession_expired now sessionToken w i session Hf Hexp). simpl.
    apply list_find_elem in Hf as [Hin Htok]. split_and!; [done| | |done|done].
    + rewrite list_elem_of_filter. by intros [Hne _].
    + intros s. rewrite list_elem_of_filter. tauto.
  - intros i session Hf Hexp r. subst r.
    rewrite (validateSession_live now sessionToken w i session Hf Hexp). simpl.
    split_and!; [done|done| |].
    + intros u Hu.
      destruct (list_find _ (pomogrow_users w)) as [[j u']|] eqn:Hfu; [|done].
      simpl in Hu. injection Hu as ->. by apply list_find_elem in Hfu.
    + intros Hr u Hu Hid.
      destruct (list_find _ (pomogrow_users w)) as [[j u']|] eqn:Hfu; [done|].
      apply list_find_None in Hfu. rewrite Forall_forall in Hfu. by apply (Hfu u).
Qed.

(** C6: [hasDataAccess] is true exactly when [validateSession] resolves a
    user whose identifier is the requested one, that is when the first
    session carrying the token has not expired, its owner has a user
    record and the owner is the requested identifier; its effect on
    the store is that of [validateSession].  A token that resolves to a
    user gives no access to a different identifier. *)
Theorem hasDataAccess_iff (now : Z) (sessionToken requestedStudyId : string) (w : World) :
  ((hasDataAccess now sessionToken requestedStudyId w).1 = true
     ↔ ∃ u, (validateSession now sessionToken w).1 = Some u
            ∧ User.studyId u = requestedStudyId)
  ∧ ((hasDataAccess now sessionToken requestedStudyId w).1 = true
     ↔ ∃ i session j u,
         list_find (λ s, AuthSession.sessionToken s = sessionToken) (pomogrow_sessions w)
           = Some (i, session)
         ∧ now ≤ AuthSession.expiresAt session
         ∧ list_find (λ u, User.studyId u = AuthSession.studyId session) (pomogrow_users w)
           = Some (j, u)
         ∧ AuthSession.studyId session = requestedStudyId)
  ∧ (hasDataAccess now sessionToken requestedStudyId w).2
    = (validateSession now sessionToken w).2
  ∧ (∀ a other,
       (validateSession now sessionToken w).1 = Some a →
       other ≠ User.studyId a →
       (hasDataAccess now sessionToken other w).1 = false).
Proof.
  assert (Hdef : ∀ target,
    (hasDataAccess now sessionToken target w).1
    = match (validateSession now sessionToken w).1 with
      | Some user => bool_decide (User.studyId user = target)
      | None => false
      end) by reflexivity.
  split_and!.
  - rewrite Hdef. destruct (validateSession now sessionToken w).1 as [u|].
    + rewrite bool_decide_eq_true. split; [eauto|]. by intros (? & [= <-] & ?).
    + split; [done|]. by intros (? & ? & ?).
  - rewrite Hdef. validate_cases now sessionToken w; simpl.
    + split; [done|]. intros (i' & s' & j & u & Hf' & Hle & _).
      injection Hf' as <- <-. lia.
    + destruct (list_find _ (pomogrow_users w)) as [[j u]|] eqn:Hfu; simpl.
      * rewrite bool_decide_eq_true.
        pose proof (list_find_elem _ _ _ _ Hfu) as [_ Hid]. simpl in Hid. split.
        -- intros Ht. exists i, session, j, u. split_and!; [done|done|done|congruence].
        -- intros (i' & s' & j' & u' & Hf' & _ & _ & Ht).
           injection Hf' as <- <-. congruence.
      * split; [done|]. intros (i' & s' & j' & u' & Hf' & _ & Hfu' & _).
        injection Hf' as <- <-. by rewrite Hfu in Hfu'.
    + split; [done|]. by intros (i' & s' & j' & u' & Hf' & _).
  - reflexivity.
  - intros a other Ha Hne. rewrite Hdef, Ha. apply bool_decide_eq_false. congruence.
Qed.

(** C4: in every store the module can build no two sessions have the
    same owner.  [createSession] drops every session of the user and
    appends the new one, so the new session is the only one the user
    owns and the sessions of other users stay; the token of a dropped
    session no longer validates and the new token validates for 24 hours,
    given that [uuidv4] returned a token no stored session carries and
    that stored tokens name one owner each. *)
Theorem single_active_session `{Platform} :
  (∀ w, reachable w → single_session (pomogrow_sessions w))
  ∧ (∀ w s1 s2, reachable w →
       s1 ∈ pomogrow_sessions w → s2 ∈ pomogrow_sessions w →
       AuthSession.studyId s1 = AuthSession.studyId s2 → s1 = s2)
  ∧ ∀ now uuid user w,
      let session :=
        AuthSession.mk (User.studyId user) (User.email user) uuid (now + SESSION_DURATION) in
      let w' := (createSession now uuid user w).2 in
      (createSession now uuid user w).1 = session
      ∧ filter (λ s, AuthSession.studyId s = User.studyId user) (pomogrow_sessions w')
        = [session]
      ∧ (∀ s, (s ∈ pomogrow_sessions w')
              ↔ ((s ∈ pomogrow_sessions w ∧ AuthSession.studyId s ≠ User.studyId user)
                 ∨ s = session))
      ∧ (single_session (pomogrow_sessions w) → single_session (pomogrow_sessions w'))
      ∧ (∀ old now',
           old ∈ pomogrow_sessions w →
           AuthSession.studyId old = User.studyId user →
           token_names_owner (pomogrow_sessions w) →
           AuthSession.sessionToken old ≠ uuid →
           validateSession now' (AuthSession.sessionToken old) w' = (None, w'))
      ∧ (∀ now' i,
           (∀ s, s ∈ pomogrow_sessions w → AuthSession.sessionToken s ≠ uuid) →
           list_find (λ u, User.studyId u = User.studyId user) (pomogrow_users w)
             = Some (i, user) →
           now' ≤ now + SESSION_DURATION →
           validateSession now' uuid w' = (Some user, w')).
Proof.
  assert (Hreach : ∀ w, reachable w → single_session (pomogrow_sessions w)).
  { apply reachable_invariant; [apply NoDup_nil_2|].
    intros c w Hw.
    destruct (call_sessions c w)
      as [->|[[tok ->]|(now & uuid & user & w0 & Hw0 & ->)]]; [done| |].
    - by apply single_session_filter.
    - rewrite createSession_run. simpl. rewrite Hw0. by apply single_session_issue. }
  split_and!; [exact Hreach| |].
  { intros w s1 s2 Hw. apply single_session_unique. by apply Hreach. }
  intros now uuid user w session w'. subst w'.
  rewrite createSession_run. simpl. fold session.
  set (others := filter (λ s, AuthSession.studyId s ≠ User.studyId user)
                   (pomogrow_sessions w)).
  assert (Hothers : filter (λ s, AuthSession.studyId s = User.studyId user) others = []).
  { apply filter_none. intros s Hs. apply list_elem_of_filter in Hs as [Hne _]. done. }
  split_and!.
  - done.
  - rewrite filter_app, Hothers. simpl. rewrite filter_cons, filter_nil.
    by rewrite decide_True.
  - intros s. rewrite elem_of_app, list_elem_of_singleton. unfold others.
    rewrite list_elem_of_filter. tauto.
  - intros Hnd. by apply single_session_issue.
  - intros old now' Hold Howner Hnames Hfresh.
    apply validateSession_unknown. simpl.
    apply list_find_none_forall. intros s Hs Htok.
    apply elem_of_app in Hs as [Hs|Hs].
    + apply list_elem_of_filter in Hs as [Hne Hs]. apply Hne.
      rewrite <- Howner. by apply Hnames.
    + apply list_elem_of_singleton in Hs as ->. simpl in Htok. congruence.
  - intros now' i Hfresh Huser Hle.
    assert (Hfind :
      list_find (λ s, AuthSession.sessionToken s = uuid) (others ++ [session])
      = Some (length others, session)).
    { apply list_find_app_Some. right. split_and!; [lia| |].
      - apply list_find_none_forall. intros s Hs.
        apply list_elem_of_filter in Hs as [_ Hs]. by apply Hfresh.
      - rewrite Nat.sub_diag. simpl. by rewrite decide_True. }
    erewrite validateSession_live; [|exact Hfind|simpl; lia].
    simpl. by rewrite Huser.
Qed.

(** ** Finding a record again after it was written back *)

Lemma list_find_insert_same {A} (P : A → Prop) `{∀ x, Decision (P x)}
    (l : list A) i x y :
  list_find P l = Some (i, x) → P y → list_find P (<[i:=y]> l) = Some (i, y).
Proof.
  intros (Hi & HP & Hleast)%list_find_Some Hy.
  apply list_find_insert_Some. right. left.
  split_and!; [done|done| |done|].
  - by eapply lookup_lt_Some.
  - intros j z Hj Hlt. by eapply Hleast.
Qed.

Lemma list_find_lookup {A} (P : A → Prop) `{∀ x, Decision (P x)} (l : list A) i x :
  list_find P l = Some (i, x) → l !! i = Some x.
Proof. by intros (Hi & _)%list_find_Some. Qed.

Lemma list_lookup_insert_found {A} (P : A → Prop) `{∀ x, Decision (P x)}
    (l : list A) i x y :
  list_find P l = Some (i, x) → <[i:=y]> l !! i = Some y.
Proof.
  intros Hf%list_find_lookup. apply list_lookup_insert_eq. by eapply lookup_lt_Some.
Qed.

(** ** Password reset *)

(** C2, as the source has it: the answer of [initiatePasswordReset]
    depends on the address alone, never on the user collection, the
    clock or the token drawn.  An address that passes [validateEmail]
    after sanitising is answered [{ success: true }] whether or not a
    record has it; any other address is answered with the Gmail error
    and the store is left alone. *)
Theorem initiatePasswordReset_enumeration `{Platform} (email : string) :
  (validateEmail (sanitizeInput (toLowerCase email)) = true →
     ∀ now uuid w, (initiatePasswordReset now uuid email w).1 = Result.ok)
  ∧ (validateEmail (sanitizeInput (toLowerCase email)) = false →
       ∀ now uuid w,
         initiatePasswordReset now uuid email w
         = (Result.failure "Please enter a valid Gmail address", w))
  ∧ (∀ now1 uuid1 w1 now2 uuid2 w2,
       (initiatePasswordReset now1 uuid1 email w1).1
       = (initiatePasswordReset now2 uuid2 email w2).1).
Proof.
  assert (Hok : validateEmail (sanitizeInput (toLowerCase email)) = true →
    ∀ now uuid w, (initiatePasswordReset now uuid email w).1 = Result.ok).
  { intros Hv now uuid w. initiate_cases now uuid email w; done. }
  split_and!; [exact Hok| |].
  - intros Hv now uuid w. by apply initiatePasswordReset_invalid.
  - intros now1 uuid1 w1 now2 uuid2 w2.
    destruct (validateEmail (sanitizeInput (toLowerCase email))) eqn:Hv.
    + by rewrite !Hok.
    + by rewrite !initiatePasswordReset_invalid.
Qed.

Lemma ticket_accepts_true now tok u :
  ticket_accepts now tok u = true
  ↔ User.resetToken u = Some tok
    ∧ ∃ expiry, User.resetTokenExpiry u = Some expiry ∧ now ≤ expiry.
Proof.
  unfold ticket_accepts. rewrite andb_true_iff, bool_decide_eq_true.
  destruct (User.resetTokenExpiry u) as [e|].
  - rewrite negb_true_iff, Z.ltb_ge. split.
    + intros [? ?]. eauto.
    + intros [? (? & [= <-] & ?)]. done.
  - split; [by intros [_ ?]|]. by intros [_ (? & ? & _)].
Qed.

(** C5, as the source has it: a new password that violates the policy is
    answered with its violations before any record is looked up.  For
    a new password that passes, [resetPassword] fails with the
    invalid-or-expired answer and leaves the store alone when no record
    has the address, when the stored token is not the supplied one, when
    no expiry is stored or when the expiry has passed.  Otherwise it
    succeeds, stores the new hash, clears both ticket fields, the lock
    and the failure counter, and every later call with this address and
    token fails. *)
Theorem resetPassword_single_use `{Platform}
    (now : Z) (salt email resetToken newPassword : string) (w : World) :
  let r := resetPassword now salt email resetToken newPassword w in
  (isValid (validatePassword newPassword) = false →
     r = (Result.failure (join ". " (errors (validatePassword newPassword))), w))
  ∧ (isValid (validatePassword newPassword) = true →
     (list_find (email_key email) (pomogrow_users w) = None →
        r = (Result.failure msg_invalid_token, w))
     ∧ (∀ i u,
          list_find (email_key email) (pomogrow_users w) = Some (i, u) →
          (User.resetToken u ≠ Some resetToken
           ∨ User.resetTokenExpiry u = None
           ∨ ∃ expiry, User.resetTokenExpiry u = Some expiry ∧ expiry < now) →
          r = (Result.failure msg_invalid_token, w))
     ∧ (∀ i u expiry,
          list_find (email_key email) (pomogrow_users w) = Some (i, u) →
          User.resetToken u = Some resetToken →
          User.resetTokenExpiry u = Some expiry →
          now ≤ expiry →
          r.1 = Result.ok
          ∧ (∃ u',
               pomogrow_users r.2 = <[i:=u']> (pomogrow_users w)
               ∧ list_find (email_key email) (pomogrow_users r.2) = Some (i, u')
               ∧ User.resetToken u' = None
               ∧ User.resetTokenExpiry u' = None
               ∧ User.failedAttempts u' = 0
               ∧ User.lockedUntil u' = None
               ∧ User.passwordHash u' = bcrypt_hash salt newPassword)
          ∧ (∀ now2 salt2 newPassword2,
               let r2 := resetPassword now2 salt2 email resetToken newPassword2 r.2 in
               Result.success r2.1 = false
               ∧ r2.2 = r.2
               ∧ (isValid (validatePassword newPassword2) = true →
                    r2.1 = Result.failure msg_invalid_token)))).
Proof.
  intros r. subst r. split; [apply resetPassword_weak|].
  intros Hv. split_and!.
  - by apply resetPassword_unknown.
  - intros i u Hf Hbad. eapply resetPassword_rejected; [done|exact Hf|].
    apply not_true_iff_false. rewrite ticket_accepts_true.
    intros [Htok (e & He & Hle)].
    destruct Hbad as [Hne|[Hnone|(e' & He' & Hlt)]]; [done|congruence|].
    rewrite He in He'. injection He' as <-. lia.
  - intros i u expiry Hf Htok Hexp Hle.
    assert (Ht : ticket_accepts now resetToken u = true)
      by (apply ticket_accepts_true; eauto).
    rewrite (resetPassword_accepted now salt email resetToken newPassword w i u Hv Hf Ht).
    cbn [fst snd pomogrow_users]. set (u' := User.set_lockedUntil _ _).
    assert (Hf' : list_find (email_key email) (<[i:=u']> (pomogrow_users w)) = Some (i, u')).
    { eapply list_find_insert_same; [exact Hf|].
      apply list_find_elem in Hf as [_ Hmail]. exact Hmail. }
    split_and!; [done|by exists u'|].
    intros now2 salt2 newPassword2.
    set (w' := mkWorld _ _ _ _).
    assert (Hrej : ticket_accepts now2 resetToken u' = false).
    { apply not_true_iff_false. rewrite ticket_accepts_true. by intros [? _]. }
    destruct (isValid (validatePassword newPassword2)) eqn:Hv2.
    + rewrite (resetPassword_rejected now2 salt2 email resetToken newPassword2 w' i u'
                 Hv2 Hf' Hrej). by split_and!.
    + rewrite (resetPassword_weak now2 salt2 email resetToken newPassword2 w' Hv2).
      by split_and!.
Qed.

(** ** Login and lockout *)


Lemma ceil_div_bounds a b :
  0 < b → 0 < a →
  1 ≤ ceil_div a b ∧ b * (ceil_div a b - 1) < a ≤ b * ceil_div a b.
Proof.
  intros Hb Ha. unfold ceil_div.
  pose proof (Z.div_mod (- a) b) as Hdm.
  pose proof (Z.mod_pos_bound (- a) b Hb) as Hmod.
  nia.
Qed.

(** The numeral a message shows reads back as the number shown. *)
Lemma show_reads_back z :
  0 < z → Z.of_int <$> NilZero.int_of_string (show z) = Some z.
Proof.
  intros Hz. unfold show. rewrite NilZero.isi.
  - cbn [fmap option_fmap option_map]. f_equal. apply DecimalZ.of_to.
  - destruct z as [|p|p]; try lia. cbn [Z.to_int]. intros [= Hp].
    revert Hp. apply DecimalPos.Unsigned.to_uint_nonnil.
  - destruct z as [|p|p]; try lia. cbn [Z.to_int]. discriminate.
Qed.

Section Lockout.
Context `{Platform}.

Lemma loginUser_failure_step now uuid ident pw w i u :
  list_find (login_key ident) (pomogrow_users w) = Some (i, u) →
  is_locked now u = false →
  bcrypt_compare pw (User.passwordHash u) = false →
  (loginUser now uuid ident pw w).1
    = Result.failure (msg_invalid_password (User.failedAttempts u + 1))
  ∧ pomogrow_users (loginUser now uuid ident pw w).2
    = <[i := after_failure now u]> (pomogrow_users w)
  ∧ list_find (login_key ident) (pomogrow_users (loginUser now uuid ident pw w).2)
    = Some (i, after_failure now u)
  ∧ pomogrow_sessions (loginUser now uuid ident pw w).2 = pomogrow_sessions w.
Proof.
  intros Hf Hl Hpw.
  rewrite (loginUser_wrong_password now uuid ident pw w i u Hf Hl Hpw).
  pose proof (list_find_elem _ _ _ _ Hf) as [_ Hkey].
  unfold after_failure. cbn [fst snd].
  destruct (MAX_FAILED_ATTEMPTS <=? User.failedAttempts u + 1);
    cbn [pomogrow_users pomogrow_sessions]; split_and!; try done.
  all: eapply list_find_insert_same; [exact Hf|exact Hkey].
Qed.

End Lockout.


(** C3: three consecutive wrong passwords on a record that has no counted
    failure and no lock leave it with a counter of 3 and a lock expiry 30
    minutes after the third attempt, the first two leaving it unlocked.
    Any login for a record whose lock expiry lies ahead is answered
    with the locked failure, whose text ends in Try again in m minutes,
    m being the decimal numeral of the minutes left, rounded up, and
    leaves the whole store as it was: no counter moves and bcrypt is not
    called.  Once the expiry is reached, the right password succeeds and
    writes back a counter of 0 and no lock. *)
Theorem lockout_after_three_failures `{Platform} :
  (∀ ident w i u t1 t2 t3 k1 k2 k3 p1 p2 p3,
     list_find (login_key ident) (pomogrow_users w) = Some (i, u) →
     User.failedAttempts u = 0 →
     User.lockedUntil u = None →
     bcrypt_compare p1 (User.passwordHash u) = false →
     bcrypt_compare p2 (User.passwordHash u) = false →
     bcrypt_compare p3 (User.passwordHash u) = false →
     let w2 := run [Login t1 k1 ident p1; Login t2 k2 ident p2] w in
     let w3 := call (Login t3 k3 ident p3) w2 in
     (∃ u2, list_find (login_key ident) (pomogrow_users w2) = Some (i, u2)
            ∧ User.failedAttempts u2 = 2 ∧ User.lockedUntil u2 = None)
     ∧ (∃ u3, list_find (login_key ident) (pomogrow_users w3) = Some (i, u3)
              ∧ User.failedAttempts u3 = 3
              ∧ User.lockedUntil u3 = Some (t3 + 30 * 60 * 1000)
              ∧ User.passwordHash u3 = User.passwordHash u)
     ∧ (∀ now k pw, now < t3 + 30 * 60 * 1000 →
          loginUser now k ident pw w3
          = (Result.mk false None None
               (Some ("Account temporarily locked due to multiple failed attempts. "
                      +:+ "Try again in "
                      +:+ show (ceil_div (t3 + 30 * 60 * 1000 - now) (1000 * 60))
                      +:+ " minutes."))
               (Some true) None, w3))
     ∧ (∀ now k pw, t3 + 30 * 60 * 1000 ≤ now →
          bcrypt_compare pw (User.passwordHash u) = true →
          let r := loginUser now k ident pw w3 in
          Result.success r.1 = true
          ∧ Result.sessionToken r.1 = Some k
          ∧ ∃ u', Result.user r.1 = Some u'
                  ∧ pomogrow_users r.2 !! i = Some u'
                  ∧ User.failedAttempts u' = 0
                  ∧ User.lockedUntil u' = None))
  ∧ (∀ ident w i u until now k pw,
       list_find (login_key ident) (pomogrow_users w) = Some (i, u) →
       User.lockedUntil u = Some until →
       now < until →
       let minutes := ceil_div (until - now) (1000 * 60) in
       loginUser now k ident pw w
       = (Result.mk false None None
            (Some ("Account temporarily locked due to multiple failed attempts. "
                   +:+ "Try again in " +:+ show minutes +:+ " minutes."))
            (Some true) None, w)
       ∧ Z.of_int <$> NilZero.int_of_string (show minutes) = Some minutes
       ∧ 1 ≤ minutes
       ∧ 60000 * (minutes - 1) < until - now ≤ 60000 * minutes)
  ∧ (∀ ident w i u now k pw,
       list_find (login_key ident) (pomogrow_users w) = Some (i, u) →
       is_locked now u = false →
       bcrypt_compare pw (User.passwordHash u) = true →
       let r := loginUser now k ident pw w in
       r.1 = Result.mk true None (Some (after_success now u)) None None (Some k)
       ∧ pomogrow_users r.2 = <[i := after_success now u]> (pomogrow_users w)
       ∧ User.failedAttempts (after_success now u) = 0
       ∧ User.lockedUntil (after_success now u) = None).
Proof.
  assert (Hlocked : ∀ ident w i u until now k pw,
    list_find (login_key ident) (pomogrow_users w) = Some (i, u) →
    User.lockedUntil u = Some until → now < until →
    loginUser now k ident pw w = (locked_response now until, w)).
  { intros. by eapply loginUser_locked. }
  assert (Hsuccess : ∀ ident w i u now k pw,
    list_find (login_key ident) (pomogrow_users w) = Some (i, u) →
    is_locked now u = false →
    bcrypt_compare pw (User.passwordHash u) = true →
    loginUser now k ident pw w
    = (Result.mk true None (Some (after_success now u)) None None (Some k),
       mkWorld (<[i := after_success now u]> (pomogrow_users w))
         (filter (λ s, AuthSession.studyId s ≠ User.studyId u) (pomogrow_sessions w)
          ++ [AuthSession.mk (User.studyId u) (User.email u) k (now + SESSION_DURATION)])
         (security_logs w)
         (effects w ++ [BcryptCompare pw (User.passwordHash u)]))).
  { intros. by eapply loginUser_success. }
  split_and!.
  - intros ident w i u t1 t2 t3 k1 k2 k3 p1 p2 p3 Hf Hzero Hnone Hp1 Hp2 Hp3 w2 w3.
    subst w3 w2. unfold run. cbn [foldl call].
    (* first failure *)
    assert (Hl1 : is_locked t1 u = false) by (unfold is_locked; by rewrite Hnone).
    destruct (loginUser_failure_step t1 k1 ident p1 w i u Hf Hl1 Hp1) as (_ & _ & Hf1 & _).
    set (w1 := (loginUser t1 k1 ident p1 w).2) in *.
    assert (Hu1 : after_failure t1 u = User.set_failedAttempts 1 u).
    { unfold after_failure. rewrite Hzero. done. }
    rewrite Hu1 in Hf1. set (u1 := User.set_failedAttempts 1 u) in *.
    (* second failure *)
    assert (Hl2 : is_locked t2 u1 = false) by (unfold is_locked; simpl; by rewrite Hnone).
    destruct (loginUser_failure_step t2 k2 ident p2 w1 i u1 Hf1 Hl2 Hp2) as (_ & _ & Hf2 & _).
    set (w2 := (loginUser t2 k2 ident p2 w1).2) in *.
    assert (Hu2 : after_failure t2 u1 = User.set_failedAttempts 2 u1) by done.
    rewrite Hu2 in Hf2. set (u2 := User.set_failedAttempts 2 u1) in *.
    (* third failure *)
    assert (Hl3 : is_locked t3 u2 = false) by (unfold is_locked; simpl; by rewrite Hnone).
    destruct (loginUser_failure_step t3 k3 ident p3 w2 i u2 Hf2 Hl3 Hp3) as (_ & _ & Hf3 & _).
    set (w3 := (loginUser t3 k3 ident p3 w2).2) in *.
    assert (Hu3 : after_failure t3 u2
                  = User.set_lockedUntil (Some (t3 + LOCK_DURATION))
                      (User.set_failedAttempts 3 u2)) by done.
    rewrite Hu3 in Hf3. set (u3 := User.set_lockedUntil _ _) in *.
    split_and!.
    + exists u2. split_and!; [done|done|exact Hnone].
    + by exists u3.
    + intros now k pw Hlt. by apply (Hlocked ident w3 i u3 _ now k pw).
    + intros now k pw Hge Hpw.
      assert (Hl4 : is_locked now u3 = false).
      { apply is_locked_false. intros t [= <-]. exact Hge. }
      rewrite (Hsuccess ident w3 i u3 now k pw Hf3 Hl4 Hpw). cbn [fst snd].
      split_and!; [done|done|].
      exists (after_success now u3). split_and!; [done| |done|done].
      cbn [pomogrow_users]. by eapply list_lookup_insert_found.
  - intros ident w i u until now k pw Hf Hu Hlt minutes.
    destruct (ceil_div_bounds (until - now) (1000 * 60)) as [Hone Hbounds]; [lia|lia|].
    fold minutes in Hone, Hbounds.
    split_and!; [exact (Hlocked ident w i u until now k pw Hf Hu Hlt)| |done|lia|lia].
    apply show_reads_back. lia.
  - intros ident w i u now k pw Hf Hl Hpw r. subst r.
    by rewrite (Hsuccess ident w i u now k pw Hf Hl Hpw).
Qed.

(** ** The failure counter across calls *)

Lemma lookup_insert_other_or_same {A} (l : list A) i j x y :
  l !! i = Some x →
  ∃ x', <[j:=y]> l !! i = Some x' ∧ ((i = j ∧ x' = y) ∨ (i ≠ j ∧ x' = x)).
Proof.
  intros Hi. destruct (decide (i = j)) as [->|Hne].
  - exists y. split; [|by left].
    apply list_lookup_insert_eq. by eapply lookup_lt_Some.
  - exists x. split; [|by right]. by rewrite list_lookup_insert_ne.
Qed.

Lemma lock_counted_after_failure now u :
  lock_counted u → lock_counted (after_failure now u).
Proof.
  unfold lock_counted, after_failure, MAX_FAILED_ATTEMPTS. intros Hu.
  destruct (3 <=? User.failedAttempts u + 1) eqn:Hn; simpl.
  - intros _. by apply Z.leb_le.
  - intros Hsome. apply Hu in Hsome. lia.
Qed.

Section Counter.
Context `{Platform}.

Lemma call_lock_counted c w :
  Forall lock_counted (pomogrow_users w) →
  Forall lock_counted (pomogrow_users (call c w)).
Proof.
  intros Hall.
  destruct c as [now uuid salt email pw name custom | now uuid ident pw | tok
                | now tok | now uuid email | now salt email tok pw
                | now tok target | now event identifier]; cbn [call].
  - destruct (registerUser_world now uuid salt email pw name custom w)
      as [->|(? & ? & ? & ? & ->)]; [done|].
    cbn [pomogrow_users]. apply Forall_app. split; [done|].
    apply Forall_singleton. by intros [? [=]].
  - destruct (list_find (login_key ident) (pomogrow_users w)) as [[i u]|] eqn:Hf.
    + pose proof (list_find_elem _ _ _ _ Hf) as [Hin _].
      pose proof (proj1 (Forall_forall _ _) Hall u Hin) as Hu.
      destruct (is_locked now u) eqn:Hl.
      * apply is_locked_true in Hl as (t & Ht & Hlt).
        by rewrite (loginUser_locked now uuid ident pw w i u t Hf Ht Hlt).
      * destruct (bcrypt_compare pw (User.passwordHash u)) eqn:Hpw.
        -- rewrite (loginUser_success now uuid ident pw w i u Hf Hl Hpw).
           cbn [snd pomogrow_users]. apply Forall_insert; [done|]. by intros [? [=]].
        -- destruct (loginUser_failure_step now uuid ident pw w i u Hf Hl Hpw)
             as (_ & -> & _).
           apply Forall_insert; [done|]. by apply lock_counted_after_failure.
    + by rewrite (loginUser_no_user now uuid ident pw w Hf).
  - done.
  - validate_cases now tok w; done.
  - initiate_cases now uuid email w; [|done|done].
    cbn [snd pomogrow_users]. apply Forall_insert; [done|].
    pose proof (list_find_elem _ _ _ _ Hfind) as [Hin _].
    exact (proj1 (Forall_forall _ _) Hall u Hin).
  - reset_cases now salt email tok pw w; [|done|done|done].
    cbn [snd pomogrow_users]. apply Forall_insert; [done|]. by intros [? [=]].
  - rewrite hasDataAccess_world. validate_cases now tok w; done.
  - by rewrite logSecurityEvent_run.
Qed.

Lemma reachable_lock_counted w u :
  reachable w → u ∈ pomogrow_users w → lock_counted u.
Proof.
  intros Hw. revert u. apply Forall_forall. revert w Hw.
  apply reachable_invariant; [apply Forall_nil_2|apply call_lock_counted].
Qed.

(** Only a login or a reset that succeeds lowers a failure counter. *)
Lemma call_failedAttempts c w i u :
  pomogrow_users w !! i = Some u →
  ∃ u', pomogrow_users (call c w) !! i = Some u'
        ∧ (User.failedAttempts u ≤ User.failedAttempts u'
           ∨ (User.failedAttempts u' = 0 ∧ User.lockedUntil u' = None ∧ succeeded c w)).
Proof.
  intros Hi.
  assert (Hsame : ∀ P : User → Prop, ∃ u', pomogrow_users w !! i = Some u'
    ∧ (User.failedAttempts u ≤ User.failedAttempts u' ∨ P u')).
  { intros P. exists u. split; [done|]. left. lia. }
  destruct c as [now uuid salt email pw name custom | now uuid ident pw | tok
                | now tok | now uuid email | now salt email tok pw
                | now tok target | now event identifier]; cbn [call succeeded].
  - destruct (registerUser_world now uuid salt email pw name custom w)
      as [->|(? & ? & ? & ? & ->)]; [apply Hsame|].
    exists u. split; [|left; lia]. cbn [pomogrow_users]. by apply lookup_app_l_Some.
  - destruct (list_find (login_key ident) (pomogrow_users w)) as [[j v]|] eqn:Hf.
    + pose proof (list_find_lookup _ _ _ _ Hf) as Hj.
      destruct (is_locked now v) eqn:Hl.
      * apply is_locked_true in Hl as (t & Ht & Hlt).
        rewrite (loginUser_locked now uuid ident pw w j v t Hf Ht Hlt).
        cbn [fst snd]. apply Hsame.
      * destruct (bcrypt_compare pw (User.passwordHash v)) eqn:Hpw.
        -- rewrite (loginUser_success now uuid ident pw w j v Hf Hl Hpw).
           cbn [fst snd pomogrow_users Result.success].
           destruct (lookup_insert_other_or_same (pomogrow_users w) i j u
                       (after_success now v) Hi) as (u' & Hu' & [[-> ->]|[Hne ->]]).
           ++ exists (after_success now v). split; [exact Hu'|]. by right.
           ++ exists u. split; [exact Hu'|]. left. lia.
        -- destruct (loginUser_failure_step now uuid ident pw w j v Hf Hl Hpw)
             as (_ & -> & _).
           destruct (lookup_insert_other_or_same (pomogrow_users w) i j u
                       (after_failure now v) Hi) as (u' & Hu' & [[-> ->]|[Hne ->]]).
           ++ exists (after_failure now v). split; [exact Hu'|]. left.
              rewrite Hj in Hi. injection Hi as <-.
              unfold after_failure. destruct (_ <=? _); simpl; lia.
           ++ exists u. split; [exact Hu'|]. left. lia.
    + rewrite (loginUser_no_user now uuid ident pw w Hf). cbn [fst snd]. apply Hsame.
  - apply Hsame.
  - validate_cases now tok w; cbn [fst snd]; apply Hsame.
  - initiate_cases now uuid email w; [|apply Hsame|apply Hsame].
    cbn [snd pomogrow_users]. pose proof (list_find_lookup _ _ _ _ Hfind) as Hj.
    destruct (lookup_insert_other_or_same (pomogrow_users w) i i0 u
                (User.set_resetTokenExpiry (Some (now + 60 * 60 * 1000))
                   (User.set_resetToken (Some uuid) u0)) Hi)
      as (u' & Hu' & [[-> ->]|[Hne ->]]).
    + eexists. split; [exact Hu'|]. left.
      rewrite Hj in Hi. injection Hi as <-. simpl. lia.
    + exists u. split; [exact Hu'|]. left. lia.
  - reset_cases now salt email tok pw w; [|cbn [fst snd]; apply Hsame..].
    cbn [fst snd pomogrow_users Result.success Result.ok].
    match goal with |- context [<[i0 := ?y]> _] =>
      destruct (lookup_insert_other_or_same (pomogrow_users w) i i0 u y Hi)
        as (u' & Hu' & [[-> ->]|[Hne ->]])
    end.
    + eexists. split; [exact Hu'|]. by right.
    + exists u. split; [exact Hu'|]. left. lia.
  - rewrite hasDataAccess_world. validate_cases now tok w; cbn [fst snd]; apply Hsame.
  - rewrite logSecurityEvent_run. apply Hsame.
Qed.

End Counter.

(** C10: a store the module can build never holds a lock expiry on a
    record with fewer than 3 counted failures, and no call lowers a
    counter except a login or a password reset that succeeds, whatever
    the clock reads.  So when the expiry of a lock has passed, one more
    wrong password raises the counter by one, which is again at least 3,
    and stores a new expiry 30 minutes ahead, during which every login
    is answered with the locked failure. *)
Theorem lock_expiry_keeps_counter `{Platform} :
  (∀ w u until, reachable w → u ∈ pomogrow_users w →
     User.lockedUntil u = Some until → 3 ≤ User.failedAttempts u)
  ∧ (∀ c w i u, pomogrow_users w !! i = Some u →
       ∃ u', pomogrow_users (call c w) !! i = Some u'
             ∧ (User.failedAttempts u ≤ User.failedAttempts u'
                ∨ (User.failedAttempts u' = 0 ∧ User.lockedUntil u' = None
                   ∧ succeeded c w)))
  ∧ (∀ ident w i u until now k pw,
       list_find (login_key ident) (pomogrow_users w) = Some (i, u) →
       User.lockedUntil u = Some until →
       until ≤ now →
       (reachable w ∨ 3 ≤ User.failedAttempts u) →
       bcrypt_compare pw (User.passwordHash u) = false →
       let w' := (loginUser now k ident pw w).2 in
       ∃ u', list_find (login_key ident) (pomogrow_users w') = Some (i, u')
             ∧ User.failedAttempts u' = User.failedAttempts u + 1
             ∧ 3 ≤ User.failedAttempts u
             ∧ User.lockedUntil u' = Some (now + 30 * 60 * 1000)
             ∧ ∀ now' k' pw', now' < now + 30 * 60 * 1000 →
                 loginUser now' k' ident pw' w'
                 = (locked_response now' (now + 30 * 60 * 1000), w')).
Proof.
  split_and!.
  - intros w u t Hw Hu Ht. apply (reachable_lock_counted w u Hw Hu). by rewrite Ht.
  - apply call_failedAttempts.
  - intros ident w i u t now k pw Hf Ht Hle Hcount Hpw w'. subst w'.
    assert (Hthree : 3 ≤ User.failedAttempts u).
    { destruct Hcount as [Hw|Hc]; [|exact Hc].
      pose proof (list_find_elem _ _ _ _ Hf) as [Hin _].
      apply (reachable_lock_counted w u Hw Hin). by rewrite Ht. }
    assert (Hl : is_locked now u = false).
    { apply is_locked_false. intros t'. rewrite Ht. by intros [= <-]. }
    destruct (loginUser_failure_step now k ident pw w i u Hf Hl Hpw) as (_ & _ & Hf' & _).
    assert (Hu' : after_failure now u
                  = User.set_lockedUntil (Some (now + LOCK_DURATION))
                      (User.set_failedAttempts (User.failedAttempts u + 1) u)).
    { unfold after_failure, MAX_FAILED_ATTEMPTS.
      by rewrite (proj2 (Z.leb_le _ _)) by lia. }
    rewrite Hu' in Hf'. eexists. split_and!; [exact Hf'|done|done|done|].
    intros now' k' pw' Hlt. by eapply loginUser_locked.
Qed.

(** ** The operations on the sample stores *)

Section Samples.
#[local] Existing Instance Reference.platform.



(** C2 does not hold as the specification words it: an address of another provider is
    answered with a failure. *)
Lemma initiatePasswordReset_rejects_other_domain :
  (initiatePasswordReset 7000 "r1" "bob@yahoo.com" Sample.registered).1
  = Result.failure "Please enter a valid Gmail address"
  ∧ Result.success
      (initiatePasswordReset 7000 "r1" "bob@yahoo.com" Sample.registered).1 = false.
Proof. split; reflexivity. Qed.

Lemma initiatePasswordReset_enumeration_witness :
  (initiatePasswordReset 7000 "r1" "ana@gmail.com" Sample.registered).1 = Result.ok
  ∧ (initiatePasswordReset 7000 "r1" "eve@gmail.com" Sample.registered).1 = Result.ok
  ∧ initiatePasswordReset 7000 "r1" "bob@yahoo.com" Sample.registered
    = (Result.failure "Please enter a valid Gmail address", Sample.registered).
Proof.
  split_and!.
  - apply (proj1 (initiatePasswordReset_enumeration "ana@gmail.com")). reflexivity.
  - apply (proj1 (initiatePasswordReset_enumeration "eve@gmail.com")). reflexivity.
  - apply (proj1 (proj2 (initiatePasswordReset_enumeration "bob@yahoo.com"))).
    reflexivity.
Defined.

(** C5 does not hold as the specification words it: with a new password that violates
    the policy, an unknown address is answered with the violations and
    not with the invalid-or-expired failure. *)
Lemma resetPassword_weak_password_first :
  list_find (email_key "nobody@gmail.com") (pomogrow_users Sample.reset_pending) = None
  ∧ (resetPassword 8000 "s9" "nobody@gmail.com" "r1" "abc" Sample.reset_pending).1
    ≠ Result.failure msg_invalid_token.
Proof. split; [reflexivity|]. vm_compute. discriminate. Qed.

Lemma resetPassword_single_use_witness :
  let r := resetPassword 8000 "s9" "ana@gmail.com" "r1" "Zyxwvu9!" Sample.reset_pending in
  r.1 = Result.ok
  ∧ (resetPassword 9000 "s10" "ana@gmail.com" "r1" "Zyxwvu9!" r.2).1
    = Result.failure msg_invalid_token
  ∧ resetPassword 8000 "s9" "ana@gmail.com" "r0" "Zyxwvu9!" Sample.reset_pending
    = (Result.failure msg_invalid_token, Sample.reset_pending)
  ∧ resetPassword 8000 "s9" "ana@gmail.com" "r1" "abc" Sample.reset_pending
    = (Result.failure (join ". " (errors (validatePassword "abc"))), Sample.reset_pending).
Proof.
  intros r. subst r.
  destruct (resetPassword_single_use 8000 "s9" "ana@gmail.com" "r1" "Zyxwvu9!"
              Sample.reset_pending) as (_ & Hvalid).
  destruct (Hvalid eq_refl) as (_ & _ & Haccept).
  destruct (Haccept 0%nat
              (User.set_resetTokenExpiry (Some 3607000)
                 (User.set_resetToken (Some "r1") Sample.ana)) 3607000
              eq_refl eq_refl eq_refl) as (Hok & _ & Hagain); [lia|].
  destruct (resetPassword_single_use 8000 "s9" "ana@gmail.com" "r0" "Zyxwvu9!"
              Sample.reset_pending) as (_ & Hvalid0).
  destruct (Hvalid0 eq_refl) as (_ & Hreject & _).
  destruct (resetPassword_single_use 8000 "s9" "ana@gmail.com" "r1" "abc"
              Sample.reset_pending) as (Hweak & _).
  split_and!.
  - exact Hok.
  - destruct (Hagain 9000 "s10" "Zyxwvu9!") as (_ & _ & Hfail). apply Hfail. reflexivity.
  - apply (Hreject 0%nat
             (User.set_resetTokenExpiry (Some 3607000)
                (User.set_resetToken (Some "r1") Sample.ana))); [reflexivity|].
    left. discriminate.
  - apply Hweak. reflexivity.
Defined.

Lemma lockout_after_three_failures_witness :
  let w3 := run [Login 2000 "k1" "ana@gmail.com" "bad1";
                 Login 3000 "k2" "ana@gmail.com" "bad2";
                 Login 4000 "k3" "ana@gmail.com" "bad3"] Sample.registered in
  (∃ u3, list_find (login_key "ana@gmail.com") (pomogrow_users w3) = Some (0%nat, u3)
         ∧ User.failedAttempts u3 = 3
         ∧ User.lockedUntil u3 = Some 1804000)
  ∧ loginUser 5000 "k4" "ana@gmail.com" "Abcdef1!" w3
    = (Result.mk false None None
         (Some ("Account temporarily locked due to multiple failed attempts. "
                +:+ "Try again in 30 minutes."))
         (Some true) None, w3)
  ∧ Result.success (loginUser 1804000 "k5" "ana@gmail.com" "Abcdef1!" w3).1 = true.
Proof.
  intros w3. subst w3.
  destruct lockout_after_three_failures as (Hthree & _ & _).
  destruct (Hthree "ana@gmail.com" Sample.registered 0%nat Sample.ana
              2000 3000 4000 "k1" "k2" "k3" "bad1" "bad2" "bad3"
              eq_refl eq_refl eq_refl eq_refl eq_refl eq_refl)
    as (_ & (u3 & Hf3 & Hn3 & Hl3 & _) & Hlocked & Hopen).
  split_and!.
  - exists u3. split_and!; [exact Hf3|exact Hn3|exact Hl3].
  - apply (Hlocked 5000 "k4" "Abcdef1!"). lia.
  - apply (Hopen 1804000 "k5" "Abcdef1!"); [lia|reflexivity].
Defined.

Lemma single_active_session_witness :
  single_session (pomogrow_sessions Sample.two_users)
  ∧ (let w' := (createSession 9000 "token-a2" Sample.ana Sample.two_users).2 in
     validateSession 9500 "token-a" w' = (None, w')
     ∧ validateSession 9500 "token-a2" w'
       = (Some (User.set_lastLogin 5000 Sample.ana), w')).
Proof.
  destruct single_active_session as (Hreach & _ & Hissue).
  split.
  - apply Hreach.
    exists [Register 1000 "u1" "s1" "ana@gmail.com" "Abcdef1!" "Ana" None;
            Register 2000 "u2" "s2" "bob@gmail.com" "Qwerty9?" "Bob" None;
            Login 5000 "token-a" "ana@gmail.com" "Abcdef1!";
            Login 6000 "token-b" "bob@gmail.com" "Qwerty9?"].
    reflexivity.
  - destruct (Hissue 9000 "token-a2" (User.set_lastLogin 5000 Sample.ana) Sample.two_users)
      as (_ & _ & _ & _ & Hold & Hnew).
    split.
    + apply (Hold (AuthSession.mk "STUDY-u1" "ana@gmail.com" "token-a" 86405000) 9500).
      * apply list_elem_of_here.
      * reflexivity.
      * intros s1 s2 Hs1 Hs2.
        apply list_elem_of_In in Hs1. apply list_elem_of_In in Hs2.
        simpl in Hs1, Hs2.
        destruct Hs1 as [<-|[<-|[]]]; destruct Hs2 as [<-|[<-|[]]];
          simpl; intros Htok; first [reflexivity|discriminate Htok].
      * discriminate.
    + apply (Hnew 9500 0%nat).
      * intros s Hs. apply list_elem_of_In in Hs. simpl in Hs.
        destruct Hs as [<-|[<-|[]]]; discriminate.
      * reflexivity.
      * unfold SESSION_DURATION. lia.
Defined.

Lemma hasDataAccess_iff_witness :
  (hasDataAccess 7000 "token-a" "STUDY-u1" Sample.two_users).1 = true
  ∧ (hasDataAccess 7000 "token-a" "STUDY-u2" Sample.two_users).1 = false.
Proof.
  split.
  - apply (proj1 (hasDataAccess_iff 7000 "token-a" "STUDY-u1" Sample.two_users)).
    exists (User.set_lastLogin 5000 Sample.ana). split; reflexivity.
  - destruct (hasDataAccess_iff 7000 "token-a" "STUDY-u2" Sample.two_users)
      as (_ & _ & _ & Hother).
    apply (Hother (User.set_lastLogin 5000 Sample.ana) "STUDY-u2");
      [reflexivity|discriminate].
Defined.

Lemma validateSession_outcomes_witness :
  validateSession 7000 "token-z" Sample.two_users = (None, Sample.two_users)
  ∧ (validateSession 86405001 "token-a" Sample.two_users).1 = None
  ∧ (validateSession 86405000 "token-a" Sample.two_users).1
    = Some (User.set_lastLogin 5000 Sample.ana).
Proof.
  destruct (validateSession_outcomes 7000 "token-z" Sample.two_users) as (Hnone & _).
  destruct (validateSession_outcomes 86405001 "token-a" Sample.two_users)
    as (_ & Hstale & _).
  destruct (validateSession_outcomes 86405000 "token-a" Sample.two_users)
    as (_ & _ & Hlive).
  split_and!.
  - apply Hnone. intros s Hs. apply list_elem_of_In in Hs. simpl in Hs.
    destruct Hs as [<-|[<-|[]]]; discriminate.
  - apply (Hstale 0%nat (AuthSession.mk "STUDY-u1" "ana@gmail.com" "token-a" 86405000));
      [reflexivity|simpl; lia].
  - destruct (Hlive 0%nat (AuthSession.mk "STUDY-u1" "ana@gmail.com" "token-a" 86405000))
      as (_ & Hres & _); [reflexivity|simpl; lia|].
    exact Hres.
Defined.

Lemma validatePassword_reports_every_violation_witness :
  msg_length ∈ errors (validatePassword "abc")
  ∧ msg_upper ∈ errors (validatePassword "abc")
  ∧ isValid (validatePassword "abc") = false.
Proof.
  destruct (validatePassword_reports_every_violation "abc")
    as (Hall & _ & _ & _ & Hinvalid & _).
  assert (Hshort : violates MinLength "abc").
  { unfold violates, satisfies. simpl. lia. }
  split_and!.
  - apply (Hall MinLength). exact Hshort.
  - apply (Hall HasUpper). apply violated_spec. reflexivity.
  - apply Hinvalid. exists MinLength. exact Hshort.
Defined.

Lemma security_log_bounded_witness :
  (length (security_logs Sample.registered) ≤ 100)%nat
  ∧ (length (security_logs
               (run (replicate 120 (LogSecurityEvent 1 "INVALID_CREDENTIALS" "x"))
                  empty_world)) ≤ 100)%nat.
Proof.
  destruct security_log_bounded as (Hreach & _).
  split.
  - apply Hreach.
    exists [Register 1000 "u1" "s1" "ana@gmail.com" "Abcdef1!" "Ana" None]. reflexivity.
  - apply Hreach. eexists. reflexivity.
Defined.

Lemma lock_expiry_keeps_counter_witness :
  let w3 := run [Login 2000 "k1" "ana@gmail.com" "bad1";
                 Login 3000 "k2" "ana@gmail.com" "bad2";
                 Login 4000 "k3" "ana@gmail.com" "bad3"] Sample.registered in
  let w4 := (loginUser 1804000 "k4" "ana@gmail.com" "bad4" w3).2 in
  3 ≤ User.failedAttempts
        (User.set_lockedUntil (Some 1804000) (User.set_failedAttempts 3 Sample.ana))
  ∧ ∃ u4, list_find (login_key "ana@gmail.com") (pomogrow_users w4) = Some (0%nat, u4)
          ∧ User.failedAttempts u4 = 4
          ∧ User.lockedUntil u4 = Some 3604000.
Proof.
  intros w3 w4. subst w4 w3.
  destruct lock_expiry_keeps_counter as (Hcounted & _ & Hrelock).
  set (w3 := run [Login 2000 "k1" "ana@gmail.com" "bad1";
                  Login 3000 "k2" "ana@gmail.com" "bad2";
                  Login 4000 "k3" "ana@gmail.com" "bad3"] Sample.registered).
  assert (Hreach : reachable w3).
  { exists [Register 1000 "u1" "s1" "ana@gmail.com" "Abcdef1!" "Ana" None;
            Login 2000 "k1" "ana@gmail.com" "bad1";
            Login 3000 "k2" "ana@gmail.com" "bad2";
            Login 4000 "k3" "ana@gmail.com" "bad3"].
    reflexivity. }
  split.
  - apply (Hcounted w3 _ 1804000 Hreach); [apply list_elem_of_here|reflexivity].
  - destruct (Hrelock "ana@gmail.com" w3 0%nat
                (User.set_lockedUntil (Some 1804000) (User.set_failedAttempts 3 Sample.ana))
                1804000 1804000 "k4" "bad4")
      as (u4 & Hf & Hn & _ & Hl & _);
      [reflexivity|reflexivity|lia|left; exact Hreach|reflexivity|].
    exists u4. split_and!; [exact Hf|exact Hn|exact Hl].
Defined.

End Samples.

(** ** Registration *)

Section Registration.
Context `{Platform}.

(** The five checks of [registerUser], in the order of the source. *)
Lemma registerUser_cases now uuid salt email password preferredName customStudyId w :
  let mail := sanitizeInput (toLowerCase email) in
  let name := sanitizeInput preferredName in
  let id := chooseStudyId customStudyId uuid in
  let r := registerUser now uuid salt email password preferredName customStudyId w in
  (validateEmail mail = false
   ∧ r = (Result.failure "Please enter a valid Gmail address", w))
  ∨ (validateEmail mail = true
     ∧ isValid (validatePassword password) = false
     ∧ r = (Result.failure (join ". " (errors (validatePassword password))), w))
  ∨ (validateEmail mail = true
     ∧ isValid (validatePassword password) = true
     ∧ (String.length name < 2)%nat
     ∧ r = (Result.failure "Preferred name must be at least 2 characters long", w))
  ∨ (validateEmail mail = true
     ∧ isValid (validatePassword password) = true
     ∧ (2 ≤ String.length name)%nat
     ∧ is_Some (list_find (λ u, User.email u = mail) (pomogrow_users w))
     ∧ r = (Result.failure "This Gmail address is already registered", w))
  ∨ (validateEmail mail = true
     ∧ isValid (validatePassword password) = true
     ∧ (2 ≤ String.length name)%nat
     ∧ list_find (λ u, User.email u = mail) (pomogrow_users w) = None
     ∧ is_Some (list_find (λ u, User.studyId u = id) (pomogrow_users w))
     ∧ r = (Result.failure "Study ID already exists. Please choose another one.", w))
  ∨ (validateEmail mail = true
     ∧ isValid (validatePassword password) = true
     ∧ (2 ≤ String.length name)%nat
     ∧ list_find (λ u, User.email u = mail) (pomogrow_users w) = None
     ∧ list_find (λ u, User.studyId u = id) (pomogrow_users w) = None
     ∧ r = (Result.mk true (Some id) None None None None,
            mkWorld
              (pomogrow_users w
               ++ [User.mk id mail (bcrypt_hash salt password) name now now 0 None true
                     None None])
              (pomogrow_sessions w) (security_logs w)
              (effects w ++ [BcryptHash password]))).
Proof.
  intros mail name id r.
  assert (Hr : r = registerUser now uuid salt email password preferredName customStudyId w)
    by reflexivity.
  clearbody r. unfold registerUser in Hr. fold mail name id in Hr.
  destruct (validateEmail mail) eqn:Hmail; cbn [negb] in Hr; [|by left].
  right.
  destruct (isValid (validatePassword password)) eqn:Hpw; cbn [negb] in Hr; [|by left].
  right.
  destruct (String.length name <? 2)%nat eqn:Hname.
  { apply Nat.ltb_lt in Hname. by left. }
  apply Nat.ltb_ge in Hname. right.
  unfold mbind at 1 in Hr. unfold IO_bind at 1 in Hr. cbn [getAllUsers fst snd] in Hr.
  destruct (list_find (λ u, User.email u = mail) (pomogrow_users w)) as [p|] eqn:Hfe.
  { left. split_and!; [done|done|done|by eexists|done]. }
  right.
  destruct (list_find (λ u, User.studyId u = id) (pomogrow_users w)) as [p|] eqn:Hfi.
  { left. split_and!; [done|done|done|done|by eexists|done]. }
  right. split_and!; [done|done|done|done|done|exact Hr].
Qed.

End Registration.

(** ** The user collection across calls *)

Lemma same_identity_refl u : same_identity u u.
Proof. by repeat split. Qed.

Lemma same_identity_after_failure now u : same_identity u (after_failure now u).
Proof. unfold after_failure. destruct (_ <=? _); by repeat split. Qed.

Lemma same_identity_after_success now u : same_identity u (after_success now u).
Proof. by repeat split. Qed.

Lemma same_identity_after_initiate now uuid u : same_identity u (after_initiate now uuid u).
Proof. by repeat split. Qed.

Lemma same_identity_after_reset hash u : same_identity u (after_reset hash u).
Proof. by repeat split. Qed.

Lemma list_fmap_insert_same {A B} (f : A → B) (l : list A) i x y :
  l !! i = Some x → f y = f x → f <$> <[i:=y]> l = f <$> l.
Proof.
  intros Hi Hf. rewrite list_fmap_insert, Hf.
  apply list_insert_id. by rewrite list_lookup_fmap, Hi.
Qed.

Lemma list_find_none_not_in {A B} (f : A → B) `{EqDecision B} (l : list A) b :
  list_find (λ x, f x = b) l = None → b ∉ f <$> l.
Proof.
  intros Hf (x & -> & Hx)%list_elem_of_fmap.
  apply list_find_None in Hf. rewrite Forall_forall in Hf. by apply (Hf x).
Qed.

Section Accounts.
Context `{Platform}.

(** What one call does to the user collection: nothing, the append of a
    registered record, or the write-back of one record. *)
Lemma call_users c w :
  pomogrow_users (call c w) = pomogrow_users w
  ∨ (∃ id mail hash name now,
       pomogrow_users (call c w)
       = pomogrow_users w ++ [User.mk id mail hash name now now 0 None true None None]
       ∧ validateEmail mail = true
       ∧ (2 ≤ String.length name)%nat
       ∧ list_find (λ u, User.email u = mail) (pomogrow_users w) = None
       ∧ list_find (λ u, User.studyId u = id) (pomogrow_users w) = None)
  ∨ (∃ i u u',
       pomogrow_users w !! i = Some u
       ∧ pomogrow_users (call c w) = <[i:=u']> (pomogrow_users w)
       ∧ ((∃ now, u' = after_failure now u)
          ∨ (∃ now, u' = after_success now u)
          ∨ (∃ now uuid, u' = after_initiate now uuid u)
          ∨ (∃ hash, u' = after_reset hash u ∧ reset_succeeded c w))).
Proof.
  destruct c as [now uuid salt email pw name custom | now uuid ident pw | tok
                | now tok | now uuid email | now salt email tok pw
                | now tok target | now event identifier]; cbn [call reset_succeeded].
  - destruct (registerUser_cases now uuid salt email pw name custom w)
      as [[_ ->]|[(_ & _ & ->)|[(_ & _ & _ & ->)|[(_ & _ & _ & _ & ->)
         |[(_ & _ & _ & _ & _ & ->)|(Hm & _ & Hn & Hfe & Hfi & ->)]]]]];
      try by left.
    right. left. eexists _, _, _, _, _. by split_and!.
  - destruct (list_find (login_key ident) (pomogrow_users w)) as [[i u]|] eqn:Hf.
    + pose proof (list_find_lookup _ _ _ _ Hf) as Hi.
      destruct (is_locked now u) eqn:Hl.
      * apply is_locked_true in Hl as (t & Ht & Hlt).
        rewrite (loginUser_locked now uuid ident pw w i u t Hf Ht Hlt). by left.
      * destruct (bcrypt_compare pw (User.passwordHash u)) eqn:Hpw.
        -- rewrite (loginUser_success now uuid ident pw w i u Hf Hl Hpw).
           right. right. exists i, u, (after_success now u).
           split_and!; [done|done|]. right. left. by exists now.
        -- destruct (loginUser_failure_step now uuid ident pw w i u Hf Hl Hpw)
             as (_ & -> & _).
           right. right. exists i, u, (after_failure now u).
           split_and!; [done|done|]. left. by exists now.
    + rewrite (loginUser_no_user now uuid ident pw w Hf). by left.
  - by left.
  - validate_cases now tok w; by left.
  - initiate_cases now uuid email w; [|by left|by left].
    right. right. exists i, u, (after_initiate now uuid u).
    split_and!; [by eapply list_find_lookup|done|]. right. right. left. by exists now, uuid.
  - destruct (isValid (validatePassword pw)) eqn:Hv.
    + destruct (list_find (email_key email) (pomogrow_users w)) as [[i u]|] eqn:Hf.
      * destruct (ticket_accepts now tok u) eqn:Ht.
        -- rewrite (resetPassword_accepted now salt email tok pw w i u Hv Hf Ht).
           right. right. exists i, u, (after_reset (bcrypt_hash salt pw) u).
           split_and!; [by eapply list_find_lookup|done|].
           right. right. right. by eexists.
        -- rewrite (resetPassword_rejected now salt email tok pw w i u Hv Hf Ht). by left.
      * rewrite (resetPassword_unknown now salt email tok pw w Hv Hf). by left.
    + rewrite (resetPassword_weak now salt email tok pw w Hv). by left.
  - rewrite hasDataAccess_world. validate_cases now tok w; by left.
  - rewrite logSecurityEvent_run. by left.
Qed.

(** An invariant of the records: it holds of a registered record and the
    four write-backs keep it. *)
Lemma call_users_Forall (P : User → Prop) c w :
  (∀ id mail hash name now,
     validateEmail mail = true → (2 ≤ String.length name)%nat →
     P (User.mk id mail hash name now now 0 None true None None)) →
  (∀ now u, P u → P (after_failure now u)) →
  (∀ now u, P u → P (after_success now u)) →
  (∀ now uuid u, P u → P (after_initiate now uuid u)) →
  (∀ hash u, P u → P (after_reset hash u)) →
  Forall P (pomogrow_users w) → Forall P (pomogrow_users (call c w)).
Proof.
  intros Hnew Hfail Hok Hinit Hreset Hall.
  destruct (call_users c w)
    as [->|[(id & mail & hash & name & now & -> & Hm & Hn & _)
           |(i & u & u' & Hi & -> & Hu')]]; [done| |].
  - apply Forall_app. split; [done|]. apply Forall_singleton. by apply Hnew.
  - apply Forall_insert; [done|].
    assert (Pu : P u).
    { rewrite Forall_forall in Hall. apply Hall. by eapply list_elem_of_lookup_2. }
    destruct Hu' as [[now ->]|[[now ->]|[(now & uuid & ->)|(hash & -> & _)]]]; auto.
Qed.

Lemma call_keeps_accounts c w i u :
  pomogrow_users w !! i = Some u →
  ∃ u', pomogrow_users (call c w) !! i = Some u'
        ∧ same_identity u u'
        ∧ (User.passwordHash u' = User.passwordHash u ∨ reset_succeeded c w).
Proof.
  intros Hi.
  destruct (call_users c w)
    as [->|[(id & mail & hash & name & now & -> & _)
           |(j & v & v' & Hj & -> & Hv')]].
  - exists u. split_and!; [done|apply same_identity_refl|by left].
  - exists u. split_and!; [by apply lookup_app_l_Some|apply same_identity_refl|by left].
  - destruct (lookup_insert_other_or_same (pomogrow_users w) i j u v' Hi)
      as (u' & Hu' & [[-> ->]|[Hne ->]]).
    + rewrite Hj in Hi. injection Hi as ->. exists v'. split; [done|].
      destruct Hv' as [[now ->]|[[now ->]|[(now & uuid & ->)|(hash & -> & Hres)]]].
      * split; [apply same_identity_after_failure|left].
        unfold after_failure. by destruct (_ <=? _).
      * split; [apply same_identity_after_success|by left].
      * split; [apply same_identity_after_initiate|by left].
      * split; [apply same_identity_after_reset|by right].
    + exists u. split_and!; [done|apply same_identity_refl|by left].
Qed.

Lemma call_unique_users c w :
  unique_users (pomogrow_users w) → unique_users (pomogrow_users (call c w)).
Proof.
  intros [Hmail Hid].
  destruct (call_users c w)
    as [->|[(id & mail & hash & name & now & -> & _ & _ & Hfe & Hfi)
           |(i & u & u' & Hi & -> & Hu')]]; [done| |].
  - unfold unique_users. rewrite !fmap_app. split.
    + apply NoDup_app. split_and!; [done| |apply NoDup_singleton].
      intros x Hx. cbn. intros ->%list_elem_of_singleton.
      by apply (list_find_none_not_in User.email (pomogrow_users w) mail).
    + apply NoDup_app. split_and!; [done| |apply NoDup_singleton].
      intros x Hx. cbn. intros ->%list_elem_of_singleton.
      by apply (list_find_none_not_in User.studyId (pomogrow_users w) id).
  - assert (Hsame : same_identity u u').
    { destruct Hu' as [[now ->]|[[now ->]|[(now & uuid & ->)|(hash & -> & _)]]];
        auto using same_identity_after_failure, same_identity_after_success,
                   same_identity_after_initiate, same_identity_after_reset. }
    destruct Hsame as (Hsid & Hsmail & _).
    unfold unique_users.
    by rewrite (list_fmap_insert_same User.email _ i u u' Hi Hsmail),
               (list_fmap_insert_same User.studyId _ i u u' Hi Hsid).
Qed.

End Accounts.

(** ** Invariants of the accounts *)

Section Account_invariants.
Context `{Platform}.

Lemma run_keeps_accounts cs w i u :
  pomogrow_users w !! i = Some u →
  ∃ u', pomogrow_users (run cs w) !! i = Some u' ∧ same_identity u u'.
Proof.
  intros Hi. induction cs as [|c cs IH] using rev_ind.
  - exists u. split; [done|apply same_identity_refl].
  - destruct IH as (u1 & Hu1 & Hs1). rewrite run_snoc.
    destruct (call_keeps_accounts c (run cs w) i u1 Hu1) as (u2 & Hu2 & Hs2 & _).
    exists u2. split; [done|].
    destruct Hs1 as (? & ? & ? & ? & ?), Hs2 as (? & ? & ? & ? & ?).
    repeat split; congruence.
Qed.

Lemma NoDup_fmap_unique {A B} (f : A → B) (l : list A) x y :
  NoDup (f <$> l) → x ∈ l → y ∈ l → f x = f y → x = y.
Proof.
  intros Hnd (i & Hi)%list_elem_of_lookup (j & Hj)%list_elem_of_lookup Heq.
  assert (i = j) as ->; [|congruence].
  eapply NoDup_lookup; [exact Hnd| |].
  - rewrite list_lookup_fmap, Hi. reflexivity.
  - rewrite list_lookup_fmap, Hj. simpl. by rewrite Heq.
Qed.

Lemma reachable_unique_users w : reachable w → unique_users (pomogrow_users w).
Proof.
  revert w. apply reachable_invariant.
  - split; apply NoDup_nil_2.
  - intros c w. apply call_unique_users.
Qed.

(** X1: in every store the module can build, no two records have the
    same address and no two have the same identifier. *)
Theorem registered_users_unique (w : World) :
  reachable w →
  unique_users (pomogrow_users w)
  ∧ (∀ u1 u2, u1 ∈ pomogrow_users w → u2 ∈ pomogrow_users w →
       User.email u1 = User.email u2 → u1 = u2)
  ∧ (∀ u1 u2, u1 ∈ pomogrow_users w → u2 ∈ pomogrow_users w →
       User.studyId u1 = User.studyId u2 → u1 = u2).
Proof.
  intros Hw.
  pose proof (reachable_unique_users w Hw) as Hu.
  split; [exact Hu|]. destruct Hu as [Hmail Hid]. split.
  - intros u1 u2. by apply NoDup_fmap_unique.
  - intros u1 u2. by apply NoDup_fmap_unique.
Qed.

Lemma ticket_paired_update (u : User) tok exp :
  (is_Some tok ↔ is_Some exp) →
  ticket_paired (User.set_resetTokenExpiry exp (User.set_resetToken tok u)).
Proof. done. Qed.

(** X2: every record of a store the module can build has an address that
    passes [validateEmail], so one ending in @gmail.com, a name of at
    least two characters, the verified flag, a counter that is not
    negative, and a reset token exactly when it has a reset expiry. *)
Theorem registered_users_well_formed (w : World) (u : User) :
  reachable w → u ∈ pomogrow_users w →
  well_formed_user u ∧ endsWith (User.email u) "@gmail.com" = true.
Proof.
  intros Hw Hu.
  assert (Hwf : well_formed_user u).
  { revert u Hu. apply Forall_forall. revert w Hw. apply reachable_invariant.
    - apply Forall_nil_2.
    - intros c w. apply call_users_Forall.
      + intros id mail hash name now Hm Hn.
        split_and!; [done|done|done|done|].
        unfold ticket_paired. cbn. split; by intros [? [=]].
      + intros now v (? & ? & ? & ? & ?). unfold after_failure.
        destruct (_ <=? _); split_and!; cbn; first [done|lia].
      + intros now v (? & ? & ? & ? & ?). by split_and!.
      + intros now uuid v (? & ? & ? & ? & ?). split_and!; [done|done|done|done|].
        unfold ticket_paired. cbn. split; by eexists.
      + intros hash v (? & ? & ? & ? & ?). split_and!; [done|done|done|done|].
        unfold ticket_paired. cbn. split; by intros [? [=]]. }
  split; [exact Hwf|].
  destruct Hwf as (Hmail & _). unfold validateEmail in Hmail.
  by apply andb_true_iff in Hmail as [_ ?].
Qed.

(** X3: no call removes or moves a record or changes its identifier,
    address, name, creation time or verified flag, and the password hash
    of a record changes only in a password reset that answers success.
    Over any sequence of calls a record stays at its index with the same
    identity. *)
Theorem accounts_persist :
  (∀ c w i u, pomogrow_users w !! i = Some u →
     ∃ u', pomogrow_users (call c w) !! i = Some u'
           ∧ same_identity u u'
           ∧ (User.passwordHash u' = User.passwordHash u ∨ reset_succeeded c w))
  ∧ (∀ cs w i u, pomogrow_users w !! i = Some u →
       ∃ u', pomogrow_users (run cs w) !! i = Some u'
             ∧ User.studyId u' = User.studyId u
             ∧ User.email u' = User.email u)
  ∧ (∀ cs w, (length (pomogrow_users w) ≤ length (pomogrow_users (run cs w)))%nat).
Proof.
  split_and!.
  - apply call_keeps_accounts.
  - intros cs w i u Hi. destruct (run_keeps_accounts cs w i u Hi) as (u' & Hu' & Hs & Hm & _).
    by exists u'.
  - intros cs w. induction cs as [|c cs IH] using rev_ind; [done|].
    rewrite run_snoc. etrans; [exact IH|].
    destruct (call_users c (run cs w))
      as [->|[(id & mail & hash & name & now & -> & _)|(i & u & u' & Hi & -> & _)]].
    + done.
    + rewrite length_app. simpl. lia.
    + by rewrite length_insert.
Qed.

(** The outcomes of a registration, for the properties below. *)
Lemma registerUser_outcome
    (now : Z) (uuid salt email password preferredName : string)
    (customStudyId : option string) (w : World) :
  let mail := sanitizeInput (toLowerCase email) in
  let name := sanitizeInput preferredName in
  let id := chooseStudyId customStudyId uuid in
  let r := registerUser now uuid salt email password preferredName customStudyId w in
  (Result.success r.1 = true
   ↔ validateEmail mail = true
     ∧ isValid (validatePassword password) = true
     ∧ (2 ≤ String.length name)%nat
     ∧ (∀ u, u ∈ pomogrow_users w → User.email u ≠ mail)
     ∧ (∀ u, u ∈ pomogrow_users w → User.studyId u ≠ id))
  ∧ (Result.success r.1 = true →
       r.1 = Result.mk true (Some id) None None None None
       ∧ pomogrow_users r.2
         = pomogrow_users w
           ++ [User.mk id mail (bcrypt_hash salt password) name now now 0 None true
                 None None]
       ∧ pomogrow_sessions r.2 = pomogrow_sessions w
       ∧ security_logs r.2 = security_logs w
       ∧ effects r.2 = effects w ++ [BcryptHash password])
  ∧ (Result.success r.1 = false →
       r.2 = w ∧ is_Some (Result.error r.1) ∧ Result.studyId r.1 = None).
Proof.
  intros mail name id r.
  assert (Hnone : ∀ {B} `{EqDecision B} (f : User → B) b,
    list_find (λ u, f u = b) (pomogrow_users w) = None
    ↔ ∀ u, u ∈ pomogrow_users w → f u ≠ b).
  { intros B ? f b. rewrite list_find_None, Forall_forall. done. }
  destruct (registerUser_cases now uuid salt email password preferredName customStudyId w)
    as [[Hm Hr]|[(Hm & Hp & Hr)|[(Hm & Hp & Hn & Hr)|[(Hm & Hp & Hn & Hfe & Hr)
       |[(Hm & Hp & Hn & Hfe & Hfi & Hr)|(Hm & Hp & Hn & Hfe & Hfi & Hr)]]]]];
    fold mail name id r in Hm, Hr |- *; try fold mail name id in Hfe;
    try fold mail name id in Hfi; rewrite Hr; cbn [fst snd Result.failure Result.success
      Result.error Result.studyId pomogrow_users pomogrow_sessions security_logs effects].
  - split_and!; [|done|by intros _; split_and!].
    split; [done|]. intros (Hm' & _). congruence.
  - split_and!; [|done|by intros _; split_and!].
    split; [done|]. intros (_ & Hp' & _). congruence.
  - split_and!; [|done|by intros _; split_and!].
    split; [done|]. intros (_ & _ & Hn' & _). unfold name in *. lia.
  - split_and!; [|done|by intros _; split_and!].
    split; [done|]. intros (_ & _ & _ & He & _).
    apply (Hnone _ _ User.email mail) in He. rewrite He in Hfe. by destruct Hfe.
  - split_and!; [|done|by intros _; split_and!].
    split; [done|]. intros (_ & _ & _ & _ & Hi).
    apply (Hnone _ _ User.studyId id) in Hi. rewrite Hi in Hfi. by destruct Hfi.
  - split_and!; [|by intros _; split_and!|done].
    split; [|done]. intros _. split_and!; [done|done|done| |].
    + by apply (Hnone _ _ User.email mail).
    + by apply (Hnone _ _ User.studyId id).
Qed.

(** X4: [registerUser] answers success exactly when the sanitised address
    passes [validateEmail], the password passes the policy, the
    sanitised name has two characters or more, no record has the address
    and no record has the identifier; it then appends one record with the
    hash of the password, no counted failure, no lock and no reset
    ticket, and returns the identifier.  In every other case the store
    is left as it was, bcrypt is not called and an error is returned. *)
Theorem registerUser_success_iff
    (now : Z) (uuid salt email password preferredName : string)
    (customStudyId : option string) (w : World) :
  let mail := sanitizeInput (toLowerCase email) in
  let name := sanitizeInput preferredName in
  let id := chooseStudyId customStudyId uuid in
  let r := registerUser now uuid salt email password preferredName customStudyId w in
  (Result.success r.1 = true
   ↔ validateEmail mail = true
     ∧ isValid (validatePassword password) = true
     ∧ (2 ≤ String.length name)%nat
     ∧ (∀ u, u ∈ pomogrow_users w → User.email u ≠ mail)
     ∧ (∀ u, u ∈ pomogrow_users w → User.studyId u ≠ id))
  ∧ (Result.success r.1 = true →
       r.1 = Result.mk true (Some id) None None None None
       ∧ pomogrow_users r.2
         = pomogrow_users w
           ++ [User.mk id mail (bcrypt_hash salt password) name now now 0 None true
                 None None]
       ∧ pomogrow_sessions r.2 = pomogrow_sessions w
       ∧ security_logs r.2 = security_logs w
       ∧ effects r.2 = effects w ++ [BcryptHash password])
  ∧ (Result.success r.1 = false →
       r.2 = w ∧ is_Some (Result.error r.1) ∧ Result.studyId r.1 = None).
Proof. apply registerUser_outcome. Qed.

(** X5: once an address is registered, no later [registerUser] with an
    address that sanitises to it succeeds, whatever calls were made in
    between and whatever password, name and identifier are given; the
    store is left as it was. *)
Theorem registerUser_twice
    (now : Z) (uuid salt email password preferredName : string)
    (customStudyId : option string) (w : World) (cs : list Call)
    (now' : Z) (uuid' salt' email' password' preferredName' : string)
    (customStudyId' : option string) :
  Result.success
    (registerUser now uuid salt email password preferredName customStudyId w).1 = true →
  sanitizeInput (toLowerCase email') = sanitizeInput (toLowerCase email) →
  let w1 := (registerUser now uuid salt email password preferredName customStudyId w).2 in
  let w2 := run cs w1 in
  let r := registerUser now' uuid' salt' email' password' preferredName' customStudyId' w2 in
  Result.success r.1 = false ∧ r.2 = w2.
Proof.
  intros Hok Hsame w1 w2 r.
  destruct (registerUser_outcome now uuid salt email password preferredName
              customStudyId w) as (_ & Hdone & _).
  destruct (Hdone Hok) as (_ & Husers & _). fold w1 in Husers.
  set (new := User.mk _ _ _ _ _ _ _ _ _ _ _) in Husers.
  assert (Hnew : pomogrow_users w1 !! length (pomogrow_users w) = Some new).
  { rewrite Husers. by rewrite lookup_app_r, Nat.sub_diag by lia. }
  destruct (run_keeps_accounts cs w1 _ new Hnew) as (u' & Hu' & _ & Hmail & _).
  fold w2 in Hu'.
  destruct (registerUser_outcome now' uuid' salt' email' password' preferredName'
              customStudyId' w2) as (Hiff & _ & Hfail).
  fold r in Hiff, Hfail.
  destruct (Result.success r.1) eqn:Hr.
  - exfalso. destruct (proj1 Hiff eq_refl) as (_ & _ & _ & Hfree & _).
    apply (Hfree u'); [by eapply list_elem_of_lookup_2|].
    rewrite Hmail, Hsame. reflexivity.
  - split; [done|]. by apply Hfail.
Qed.

End Account_invariants.

(** ** Sessions: owners, logout and expiry *)

Lemma filter_all {A} (P : A → Prop) `{∀ x, Decision (P x)} (l : list A) :
  (∀ x, x ∈ l → P x) → filter P l = l.
Proof.
  induction l as [|a l IH]; intros Hl; [done|].
  rewrite filter_cons, decide_True by (apply Hl, list_elem_of_here).
  f_equal. apply IH. intros x Hx. by apply Hl, list_elem_of_further.
Qed.

Lemma list_find_filter_snd {A} (P Q : A → Prop)
    `{∀ x, Decision (P x)} `{∀ x, Decision (Q x)} (l : list A) :
  (∀ x, P x → Q x) →
  snd <$> list_find P (filter Q l) = snd <$> list_find P l.
Proof.
  intros HPQ. induction l as [|a l IH]; [done|].
  rewrite filter_cons. destruct (decide (Q a)) as [Hq|Hq].
  - cbn. destruct (decide (P a)); [done|].
    destruct (list_find P (filter Q l)) as [[? ?]|], (list_find P l) as [[? ?]|];
      cbn in *; congruence.
  - cbn. rewrite decide_False by (intros Hp; by apply Hq, HPQ).
    rewrite IH. by destruct (list_find P l) as [[? ?]|].
Qed.

Lemma list_find_unique {A B} `{EqDecision B} (f : A → B) (l : list A) i x :
  NoDup (f <$> l) → l !! i = Some x → list_find (λ y, f y = f x) l = Some (i, x).
Proof.
  intros Hnd Hi. apply list_find_Some. split_and!; [done|done|].
  intros j y Hj Hlt Heq. assert (j = i); [|lia].
  eapply NoDup_lookup; [exact Hnd| |].
  - rewrite list_lookup_fmap, Hj. reflexivity.
  - rewrite list_lookup_fmap, Hi. cbn. by rewrite Heq.
Qed.

Lemma list_find_issued (P : AuthSession → Prop) `{∀ s, Decision (P s)}
    (sessions : list AuthSession) owner mail uuid expiry :
  (∀ s, s ∈ sessions → AuthSession.sessionToken s ≠ uuid) →
  list_find (λ s, AuthSession.sessionToken s = uuid)
    (filter P sessions ++ [AuthSession.mk owner mail uuid expiry])
  = Some (length (filter P sessions), AuthSession.mk owner mail uuid expiry).
Proof.
  intros Hfresh. apply list_find_app_Some. right. split_and!; [lia| |].
  - apply list_find_none_forall. intros s Hs.
    apply list_elem_of_filter in Hs as [_ Hs]. by apply Hfresh.
  - rewrite Nat.sub_diag. cbn. by rewrite decide_True.
Qed.

Lemma validateSession_result now tok w :
  (validateSession now tok w).1
  = match snd <$> list_find (λ s, AuthSession.sessionToken s = tok) (pomogrow_sessions w) with
    | Some session =>
      if AuthSession.expiresAt session <? now then None
      else snd <$> list_find (λ u, User.studyId u = AuthSession.studyId session)
                     (pomogrow_users w)
    | None => None
    end.
Proof.
  validate_cases now tok w; cbn [fst fmap option_fmap option_map snd].
  - by rewrite (proj2 (Z.ltb_lt _ _) Hexp).
  - by rewrite (proj2 (Z.ltb_ge _ _) Hexp).
  - done.
Qed.

(** X6: [logout] removes exactly the sessions carrying the token and
    touches nothing else.  The token then resolves to no user and opens
    no data at any time, every other token resolves as before, a second
    logout changes nothing, and the logout of a token no session carries
    leaves the collection as it was. *)
Theorem logout_revokes (sessionToken : string) (w : World) :
  let w' := (logout sessionToken w).2 in
  (∀ s, (s ∈ pomogrow_sessions w')
        ↔ (s ∈ pomogrow_sessions w ∧ AuthSession.sessionToken s ≠ sessionToken))
  ∧ pomogrow_users w' = pomogrow_users w
  ∧ security_logs w' = security_logs w
  ∧ (∀ now, validateSession now sessionToken w' = (None, w'))
  ∧ (∀ now target, (hasDataAccess now sessionToken target w').1 = false)
  ∧ (∀ now other, other ≠ sessionToken →
       (validateSession now other w').1 = (validateSession now other w).1)
  ∧ (logout sessionToken w').2 = w'
  ∧ ((∀ s, s ∈ pomogrow_sessions w → AuthSession.sessionToken s ≠ sessionToken) →
       pomogrow_sessions w' = pomogrow_sessions w).
Proof.
  intros w'. subst w'. rewrite logout_run. cbn [snd].
  set (rest := filter (λ s, AuthSession.sessionToken s ≠ sessionToken) (pomogrow_sessions w)).
  set (w' := mkWorld _ _ _ _).
  assert (Hgone : list_find (λ s, AuthSession.sessionToken s = sessionToken)
                    (pomogrow_sessions w') = None).
  { apply list_find_none_forall. intros s Hs.
    by apply list_elem_of_filter in Hs as [Hne _]. }
  assert (Hval : ∀ now, validateSession now sessionToken w' = (None, w')).
  { intros now. by apply validateSession_unknown. }
  split_and!.
  - intros s. cbn. unfold rest. rewrite list_elem_of_filter. tauto.
  - done.
  - done.
  - exact Hval.
  - intros now target.
    change ((hasDataAccess now sessionToken target w').1)
      with (match (validateSession now sessionToken w').1 with
            | Some user => bool_decide (User.studyId user = target)
            | None => false
            end).
    by rewrite Hval.
  - intros now other Hother.
    assert (Hfind :
      snd <$> list_find (λ s, AuthSession.sessionToken s = other) (pomogrow_sessions w')
      = snd <$> list_find (λ s, AuthSession.sessionToken s = other) (pomogrow_sessions w)).
    { apply list_find_filter_snd. intros s ->. done. }
    rewrite !validateSession_result. by rewrite Hfind.
  - rewrite logout_run. unfold w' at 2. cbn [pomogrow_users pomogrow_sessions
      security_logs effects snd]. unfold w'. f_equal. fold rest.
    apply filter_all. intros s Hs. by apply list_elem_of_filter in Hs as [Hne _].
  - intros Hnone. cbn. by apply filter_all.
Qed.

(** X7: a token that [validateSession] answered null for resolves to no
    user afterwards, at any clock reading, as long as no other call is
    made; and validating twice at the same reading gives the answer and
    the store of validating once. *)
Theorem validateSession_settles (now : Z) (sessionToken : string) (w : World) :
  validateSession now sessionToken (validateSession now sessionToken w).2
  = validateSession now sessionToken w
  ∧ ((validateSession now sessionToken w).1 = None →
     ∀ now', (validateSession now' sessionToken (validateSession now sessionToken w).2).1
             = None).
Proof.
  validate_cases now sessionToken w; cbn [fst snd].
  - set (w' := mkWorld _ _ _ _).
    assert (Hgone : list_find (λ s, AuthSession.sessionToken s = sessionToken)
                      (pomogrow_sessions w') = None).
    { apply list_find_none_forall. intros s Hs.
      by apply list_elem_of_filter in Hs as [Hne _]. }
    split.
    + by apply validateSession_unknown.
    + intros _ now'. by rewrite validateSession_unknown.
  - split.
    + by eapply validateSession_live.
    + intros Hnone now'.
      destruct (Z.lt_ge_cases (AuthSession.expiresAt session) now') as [He|He].
      * by erewrite validateSession_expired.
      * by erewrite validateSession_live.
  - split.
    + by apply validateSession_unknown.
    + intros _ now'. by rewrite validateSession_unknown.
Qed.

Section Session_owners.
Context `{Platform}.

Lemma call_sessions_owner c w s :
  s ∈ pomogrow_sessions (call c w) →
  s ∈ pomogrow_sessions w
  ∨ ∃ u, u ∈ pomogrow_users w
         ∧ User.studyId u = AuthSession.studyId s
         ∧ User.email u = AuthSession.email s.
Proof.
  destruct c as [now uuid salt email pw name custom | now uuid ident pw | tok
                | now tok | now uuid email | now salt email tok pw
                | now tok target | now event identifier]; cbn [call].
  - destruct (registerUser_world now uuid salt email pw name custom w)
      as [->|(? & ? & ? & ? & ->)]; by left.
  - login_cases now uuid ident pw w; cbn [snd pomogrow_sessions]; try by left.
    + intros [Hs|Hs]%elem_of_app.
      * apply list_elem_of_filter in Hs as [_ Hs]. by left.
      * apply list_elem_of_singleton in Hs as ->. right. exists u.
        split_and!; [exact (proj1 (list_find_elem _ _ _ _ Hfind))|done|done].
    + destruct (MAX_FAILED_ATTEMPTS <=? _); by left.
  - rewrite logout_run. cbn. intros [_ Hs]%list_elem_of_filter. by left.
  - validate_cases now tok w; cbn [snd pomogrow_sessions]; try by left.
    intros [_ Hs]%list_elem_of_filter. by left.
  - initiate_cases now uuid email w; by left.
  - reset_cases now salt email tok pw w; by left.
  - rewrite hasDataAccess_world.
    validate_cases now tok w; cbn [snd pomogrow_sessions]; try by left.
    intros [_ Hs]%list_elem_of_filter. by left.
  - rewrite logSecurityEvent_run. by left.
Qed.

Lemma reachable_sessions_owned w : reachable w → sessions_owned w.
Proof.
  revert w. apply reachable_invariant.
  - intros s Hs. by apply elem_of_nil in Hs.
  - intros c w Hw s Hs.
    assert (Hold : ∃ u, u ∈ pomogrow_users w
                        ∧ User.studyId u = AuthSession.studyId s
                        ∧ User.email u = AuthSession.email s).
    { destruct (call_sessions_owner c w s Hs) as [Hin|Hu]; [by apply Hw|done]. }
    destruct Hold as (u & (i & Hi)%list_elem_of_lookup & Hid & Hmail).
    destruct (call_keeps_accounts c w i u Hi) as (u' & Hu' & (Hid' & Hmail' & _) & _).
    exists u'. split_and!; [by eapply list_elem_of_lookup_2|congruence|congruence].
Qed.

(** X8: in every store the module can build, each session names a stored
    record by identifier and address, so a session that has not expired
    always resolves to a user, the one it was issued to. *)
Theorem sessions_have_owners (w : World) :
  reachable w →
  sessions_owned w
  ∧ ∀ now tok i session,
      list_find (λ s, AuthSession.sessionToken s = tok) (pomogrow_sessions w)
        = Some (i, session) →
      now ≤ AuthSession.expiresAt session →
      ∃ u, validateSession now tok w = (Some u, w)
           ∧ u ∈ pomogrow_users w
           ∧ User.studyId u = AuthSession.studyId session
           ∧ User.email u = AuthSession.email session.
Proof.
  intros Hw. pose proof (reachable_sessions_owned w Hw) as Hown.
  split; [exact Hown|].
  intros now tok i session Hf Hle.
  rewrite (validateSession_live now tok w i session Hf Hle).
  pose proof (list_find_elem _ _ _ _ Hf) as [Hin _].
  destruct (Hown session Hin) as (u & Hu & Hid & Hmail).
  destruct (list_find (λ u, User.studyId u = AuthSession.studyId session)
              (pomogrow_users w)) as [[j v]|] eqn:Hfu.
  - pose proof (list_find_elem _ _ _ _ Hfu) as [Hv Hvid]. cbn in Hvid.
    exists v. split_and!; [done|done|done|].
    assert (v = u) as ->; [|done].
    destruct (reachable_unique_users w Hw) as [_ Hnd].
    eapply (NoDup_fmap_unique User.studyId); [exact Hnd|done|done|congruence].
  - exfalso. apply list_find_None in Hfu. rewrite Forall_forall in Hfu.
    by apply (Hfu u).
Qed.

End Session_owners.

(** ** Login, its token and the reset ticket *)

Section Login_flow.
Context `{Platform}.

(** X9: [loginUser] answers success exactly when a record matches the
    identifier, no lock expiry lies ahead and bcrypt accepts the
    password.  A login that fails returns an error and neither user nor
    token, and leaves the session collection as it was. *)
Theorem loginUser_success_iff (now : Z) (uuid studyIdOrEmail password : string) (w : World) :
  let r := loginUser now uuid studyIdOrEmail password w in
  (Result.success r.1 = true
   ↔ ∃ i u, list_find (login_key studyIdOrEmail) (pomogrow_users w) = Some (i, u)
            ∧ is_locked now u = false
            ∧ bcrypt_compare password (User.passwordHash u) = true)
  ∧ (Result.success r.1 = false →
       pomogrow_sessions r.2 = pomogrow_sessions w
       ∧ Result.user r.1 = None
       ∧ Result.sessionToken r.1 = None
       ∧ is_Some (Result.error r.1)).
Proof.
  intros r. subst r.
  destruct (list_find (login_key studyIdOrEmail) (pomogrow_users w)) as [[i u]|] eqn:Hf.
  - destruct (is_locked now u) eqn:Hl.
    + pose proof Hl as Hl'. apply is_locked_true in Hl' as (t & Ht & Hlt).
      rewrite (loginUser_locked now uuid studyIdOrEmail password w i u t Hf Ht Hlt).
      cbn [fst snd Result.success Result.user Result.sessionToken Result.error].
      split; [|by intros _; split_and!].
      split; [done|]. intros (i' & u' & [= <- <-] & Hl'' & _). congruence.
    + destruct (bcrypt_compare password (User.passwordHash u)) eqn:Hpw.
      * rewrite (loginUser_success now uuid studyIdOrEmail password w i u Hf Hl Hpw).
        cbn [fst snd Result.success]. split; [|done].
        split; [|done]. intros _. by exists i, u.
      * rewrite (loginUser_wrong_password now uuid studyIdOrEmail password w i u Hf Hl Hpw).
        cbn [fst snd Result.failure Result.success Result.user Result.sessionToken
               Result.error].
        split.
        -- split; [done|]. intros (i' & u' & [= <- <-] & _ & Hpw'). congruence.
        -- intros _. destruct (MAX_FAILED_ATTEMPTS <=? _); by split_and!.
  - rewrite (loginUser_no_user now uuid studyIdOrEmail password w Hf).
    cbn [fst snd Result.failure Result.success Result.user Result.sessionToken
           Result.error pomogrow_sessions].
    split; [|by intros _; split_and!].
    split; [done|]. by intros (i' & u' & [=] & _).
Qed.

(** X10: in a store the module can build, the token returned by a
    successful login, when no stored session carries it yet, resolves to
    the record the login wrote back for the next 24 hours and opens the
    data of that identifier and of no other; after 24 hours it resolves
    to no user and the session is removed. *)
Theorem login_token_validates
    (now : Z) (uuid studyIdOrEmail password : string) (w : World) (i : nat) (u : User) :
  reachable w →
  list_find (login_key studyIdOrEmail) (pomogrow_users w) = Some (i, u) →
  is_locked now u = false →
  bcrypt_compare password (User.passwordHash u) = true →
  (∀ s, s ∈ pomogrow_sessions w → AuthSession.sessionToken s ≠ uuid) →
  let r := loginUser now uuid studyIdOrEmail password w in
  Result.sessionToken r.1 = Some uuid
  ∧ Result.user r.1 = Some (after_success now u)
  ∧ (∀ now', now' ≤ now + 24 * 60 * 60 * 1000 →
       validateSession now' uuid r.2 = (Some (after_success now u), r.2)
       ∧ (hasDataAccess now' uuid (User.studyId u) r.2).1 = true
       ∧ ∀ other, other ≠ User.studyId u → (hasDataAccess now' uuid other r.2).1 = false)
  ∧ (∀ now', now + 24 * 60 * 60 * 1000 < now' →
       (validateSession now' uuid r.2).1 = None
       ∧ ∀ s, s ∈ pomogrow_sessions (validateSession now' uuid r.2).2 →
              AuthSession.sessionToken s ≠ uuid).
Proof.
  intros Hw Hf Hl Hpw Hfresh r. subst r.
  rewrite (loginUser_success now uuid studyIdOrEmail password w i u Hf Hl Hpw).
  fold (after_success now u). cbn [fst snd Result.sessionToken Result.user].
  set (session := AuthSession.mk _ _ _ _).
  set (w' := mkWorld _ _ _ _).
  assert (Hfs : list_find (λ s, AuthSession.sessionToken s = uuid) (pomogrow_sessions w')
                = Some (length (filter (λ s, AuthSession.studyId s ≠ User.studyId u)
                                  (pomogrow_sessions w)), session)).
  { by apply list_find_issued. }
  assert (Hfu : list_find (λ v, User.studyId v = AuthSession.studyId session)
                  (pomogrow_users w') = Some (i, after_success now u)).
  { cbn [pomogrow_users w' AuthSession.studyId session].
    eapply list_find_insert_same; [|done].
    destruct (reachable_unique_users w Hw) as [_ Hnd].
    apply (list_find_unique User.studyId); [exact Hnd|by eapply list_find_lookup]. }
  split_and!; [done|done| |].
  - intros now' Hle.
    assert (Hval : validateSession now' uuid w' = (Some (after_success now u), w')).
    { erewrite validateSession_live; [|exact Hfs|cbn; unfold SESSION_DURATION; lia].
      by rewrite Hfu. }
    assert (Hacc : ∀ target, (hasDataAccess now' uuid target w').1
                             = bool_decide (User.studyId u = target)).
    { intros target.
      change ((hasDataAccess now' uuid target w').1)
        with (match (validateSession now' uuid w').1 with
              | Some user => bool_decide (User.studyId user = target)
              | None => false
              end).
      by rewrite Hval. }
    split_and!; [exact Hval| |].
    + rewrite Hacc. by apply bool_decide_eq_true.
    + intros other Hne. rewrite Hacc. apply bool_decide_eq_false. congruence.
  - intros now' Hlt.
    erewrite validateSession_expired; [|exact Hfs|cbn; unfold SESSION_DURATION; lia].
    split; [done|]. cbn [snd pomogrow_sessions]. intros s Hs.
    by apply list_elem_of_filter in Hs as [Hne _].
Qed.

(** X11: the token [initiatePasswordReset] stores for a registered
    address is good for one hour: with a new password that passes the
    policy, [resetPassword] with this token succeeds up to one hour
    later and fails with the invalid-or-expired answer after that or
    with any other token.  A second [initiatePasswordReset] replaces
    the ticket, so the first token is refused from then on. *)
Theorem reset_ticket_lifetime
    (now : Z) (uuid email : string) (w : World) (i : nat) (u : User) :
  validateEmail (sanitizeInput (toLowerCase email)) = true →
  list_find (email_key email) (pomogrow_users w) = Some (i, u) →
  let w1 := (initiatePasswordReset now uuid email w).2 in
  (∀ t salt pw,
     isValid (validatePassword pw) = true →
     t ≤ now + 60 * 60 * 1000 →
     (resetPassword t salt email uuid pw w1).1 = Result.ok
     ∧ pomogrow_users (resetPassword t salt email uuid pw w1).2
       = <[i := after_reset (bcrypt_hash salt pw) u]> (pomogrow_users w))
  ∧ (∀ t salt pw tok,
       isValid (validatePassword pw) = true →
       now + 60 * 60 * 1000 < t ∨ tok ≠ uuid →
       resetPassword t salt email tok pw w1 = (Result.failure msg_invalid_token, w1))
  ∧ (∀ now2 uuid2 t salt pw,
       uuid2 ≠ uuid →
       isValid (validatePassword pw) = true →
       let w2 := (initiatePasswordReset now2 uuid2 email w1).2 in
       resetPassword t salt email uuid pw w2 = (Result.failure msg_invalid_token, w2)).
Proof.
  intros Hv Hf w1. subst w1.
  rewrite (initiatePasswordReset_known now uuid email w i u Hv Hf). cbn [snd].
  fold (after_initiate now uuid u). set (w1 := mkWorld _ _ _ _).
  pose proof (list_find_elem _ _ _ _ Hf) as [_ Hkey].
  assert (Hf1 : list_find (email_key email) (pomogrow_users w1)
                = Some (i, after_initiate now uuid u)).
  { cbn [pomogrow_users w1]. by eapply list_find_insert_same. }
  split_and!.
  - intros t salt pw Hpw Hle.
    assert (Ht : ticket_accepts t uuid (after_initiate now uuid u) = true).
    { apply ticket_accepts_true. split; [done|]. eexists. split; [done|]. lia. }
    rewrite (resetPassword_accepted t salt email uuid pw w1 i _ Hpw Hf1 Ht).
    cbn [fst snd pomogrow_users w1]. split; [done|].
    by rewrite list_insert_insert_eq.
  - intros t salt pw tok Hpw Hbad.
    eapply resetPassword_rejected; [done|exact Hf1|].
    apply not_true_iff_false. rewrite ticket_accepts_true. cbn.
    intros [[= ->] (e & [= <-] & Hle)]. destruct Hbad as [Hlate|Hne]; [lia|done].
  - intros now2 uuid2 t salt pw Hne Hpw.
    rewrite (initiatePasswordReset_known now2 uuid2 email w1 i _ Hv Hf1). cbn [snd].
    set (w2 := mkWorld _ _ _ _).
    eapply resetPassword_rejected; [done| |].
    + cbn [pomogrow_users w2]. by eapply list_find_insert_same.
    + apply not_true_iff_false. rewrite ticket_accepts_true. cbn.
      intros [[= ->] _]. done.
Qed.

(** X12: a password reset that succeeds reopens a locked account: when
    the login identifier and the reset address find the same record and
    bcrypt accepts the new password against its own hash, a login with
    the new password succeeds at any time after the reset, also before
    the old lock expiry, and starts from a counter of 0. *)
Theorem reset_unlocks_account
    (now : Z) (salt email resetToken newPassword studyIdOrEmail : string)
    (w : World) (i : nat) (u : User) :
  isValid (validatePassword newPassword) = true →
  list_find (email_key email) (pomogrow_users w) = Some (i, u) →
  list_find (login_key studyIdOrEmail) (pomogrow_users w) = Some (i, u) →
  ticket_accepts now resetToken u = true →
  bcrypt_compare newPassword (bcrypt_hash salt newPassword) = true →
  let w1 := (resetPassword now salt email resetToken newPassword w).2 in
  ∀ now' uuid,
    let r := loginUser now' uuid studyIdOrEmail newPassword w1 in
    Result.success r.1 = true
    ∧ Result.sessionToken r.1 = Some uuid
    ∧ ∃ u', Result.user r.1 = Some u'
            ∧ pomogrow_users r.2 !! i = Some u'
            ∧ User.failedAttempts u' = 0
            ∧ User.lockedUntil u' = None
            ∧ User.passwordHash u' = bcrypt_hash salt newPassword.
Proof.
  intros Hv Hfe Hfl Ht Hround w1 now' uuid r. subst r w1.
  rewrite (resetPassword_accepted now salt email resetToken newPassword w i u Hv Hfe Ht).
  cbn [snd]. fold (after_reset (bcrypt_hash salt newPassword) u).
  set (u1 := after_reset _ u). set (w1 := mkWorld _ _ _ _).
  pose proof (list_find_elem _ _ _ _ Hfl) as [_ Hkey].
  assert (Hf1 : list_find (login_key studyIdOrEmail) (pomogrow_users w1) = Some (i, u1)).
  { cbn [pomogrow_users w1]. by eapply list_find_insert_same. }
  rewrite (loginUser_success now' uuid studyIdOrEmail newPassword w1 i u1 Hf1
             eq_refl Hround).
  cbn [fst snd Result.success Result.sessionToken Result.user pomogrow_users].
  split_and!; [done|done|]. eexists. split_and!; [done| |done|done|done].
  by eapply list_lookup_insert_found.
Qed.

End Login_flow.

(** ** Per-user data: running the operations *)

Lemma hasDataAccess_unfold now tok target w :
  hasDataAccess now tok target w
  = (match resolves now tok w with
     | Some user => bool_decide (User.studyId user = target)
     | None => false
     end, (validateSession now tok w).2).
Proof. reflexivity. Qed.

Lemma hasDataAccess_true now tok target w :
  (hasDataAccess now tok target w).1 = true
  ↔ ∃ u, resolves now tok w = Some u ∧ User.studyId u = target.
Proof.
  rewrite hasDataAccess_unfold. cbn [fst].
  destruct (resolves now tok w) as [u|].
  - rewrite bool_decide_eq_true. split; [eauto|]. by intros (? & [= <-] & ?).
  - split; [done|]. by intros (? & ? & ?).
Qed.

Lemma validateSession_twice now tok w :
  validateSession now tok (validateSession now tok w).2 = validateSession now tok w.
Proof.
  validate_cases now tok w; cbn [fst snd].
  - apply validateSession_unknown. apply list_find_none_forall. intros s Hs.
    by apply list_elem_of_filter in Hs as [Hne _].
  - by eapply validateSession_live.
  - by apply validateSession_unknown.
Qed.

Lemma hasDataAccess_twice now tok target target' w :
  hasDataAccess now tok target' (hasDataAccess now tok target w).2
  = ((hasDataAccess now tok target' w).1, (hasDataAccess now tok target w).2).
Proof.
  rewrite !hasDataAccess_unfold. cbn [fst snd]. unfold resolves.
  by rewrite validateSession_twice.
Qed.

Lemma saveSecureUserData_run `{Encoder} now d tok s :
  saveSecureUserData now d tok s
  = let a := hasDataAccess now tok (SecureUserData.studyId d) (auth s) in
    let ok := a.1 && encodes d in
    (ok, mkStorage a.2
           (if ok then <[getUserDataKey (SecureUserData.studyId d) := d]> (pomogrow_data s)
            else pomogrow_data s)
           (pomogrow_session s)).
Proof.
  unfold saveSecureUserData. unfold mbind at 1. unfold SIO_bind at 1.
  cbn [liftIO fst snd].
  destruct (hasDataAccess now tok (SecureUserData.studyId d) (auth s)).1; [|done].
  by destruct (encodes d).
Qed.

Lemma loadSecureUserData_run now id tok s :
  loadSecureUserData now id tok s
  = let a := hasDataAccess now tok id (auth s) in
    (if a.1 then pomogrow_data s !! getUserDataKey id else None,
     mkStorage a.2 (pomogrow_data s) (pomogrow_session s)).
Proof.
  unfold loadSecureUserData. unfold mbind at 1. unfold SIO_bind at 1.
  cbn [liftIO fst snd].
  by destruct (hasDataAccess now tok id (auth s)).1.
Qed.

Lemma deleteUserData_run now id tok s :
  deleteUserData now id tok s
  = let a := hasDataAccess now tok id (auth s) in
    (a.1, mkStorage a.2
            (if a.1 then delete (getUserDataKey id) (pomogrow_data s) else pomogrow_data s)
            (pomogrow_session s)).
Proof.
  unfold deleteUserData. unfold mbind at 1. unfold SIO_bind at 1.
  cbn [liftIO fst snd].
  by destruct (hasDataAccess now tok id (auth s)).1.
Qed.

(** Loading and then saving a changed record, as the update and the
    three append operations do. *)
Lemma load_then_save `{Encoder} {A} now id tok s (change : SecureUserData → SecureUserData)
    (answer : SecureUserData → bool → A) (none : A) :
  (d0 ← loadSecureUserData now id tok;
   match d0 with
   | None => mret none
   | Some d0 => ok ← saveSecureUserData now (change d0) tok; mret (answer (change d0) ok)
   end) s
  = let a := hasDataAccess now tok id (auth s) in
    match (if a.1 then pomogrow_data s !! getUserDataKey id else None) with
    | None => (none, mkStorage a.2 (pomogrow_data s) (pomogrow_session s))
    | Some d0 =>
      let d := change d0 in
      let b := (hasDataAccess now tok (SecureUserData.studyId d) (auth s)).1
               && encodes d in
      (answer d b,
       mkStorage a.2
         (if b then <[getUserDataKey (SecureUserData.studyId d) := d]> (pomogrow_data s)
          else pomogrow_data s)
         (pomogrow_session s))
    end.
Proof.
  unfold mbind at 1. unfold SIO_bind at 1. rewrite loadSecureUserData_run.
  cbn [fst snd].
  destruct (if (hasDataAccess now tok id (auth s)).1
            then pomogrow_data s !! getUserDataKey id else None) as [d0|]; [|done].
  unfold mbind at 1. unfold SIO_bind at 1. rewrite saveSecureUserData_run.
  cbn [fst snd auth pomogrow_data pomogrow_session].
  by rewrite hasDataAccess_twice.
Qed.

Lemma updateSecureUserData_run `{Encoder} now id tok updates s :
  updateSecureUserData now id tok updates s
  = let a := hasDataAccess now tok id (auth s) in
    match (if a.1 then pomogrow_data s !! getUserDataKey id else None) with
    | None => (None, mkStorage a.2 (pomogrow_data s) (pomogrow_session s))
    | Some d0 =>
      let d := spread d0 updates in
      let b := (hasDataAccess now tok (SecureUserData.studyId d) (auth s)).1
               && encodes d in
      (if b then Some d else None,
       mkStorage a.2
         (if b then <[getUserDataKey (SecureUserData.studyId d) := d]> (pomogrow_data s)
          else pomogrow_data s)
         (pomogrow_session s))
    end.
Proof.
  exact (load_then_save now id tok s (λ d0, spread d0 updates)
           (λ d (b : bool), if b then Some d else None) None).
Qed.

Lemma addStudySession_run `{Encoder} now id tok session s :
  addStudySession now id tok session s
  = let a := hasDataAccess now tok id (auth s) in
    match (if a.1 then pomogrow_data s !! getUserDataKey id else None) with
    | None => (false, mkStorage a.2 (pomogrow_data s) (pomogrow_session s))
    | Some d0 =>
      let d := SecureUserData.set_lastActiveDate now
                 (SecureUserData.set_studySessions
                    (SecureUserData.studySessions d0 ++ [session]) d0) in
      let b := (hasDataAccess now tok (SecureUserData.studyId d) (auth s)).1
               && encodes d in
      (b,
       mkStorage a.2
         (if b then <[getUserDataKey (SecureUserData.studyId d) := d]> (pomogrow_data s)
          else pomogrow_data s)
         (pomogrow_session s))
    end.
Proof.
  unfold addStudySession.
  pose proof (load_then_save now id tok s
    (λ d0, SecureUserData.set_lastActiveDate now
             (SecureUserData.set_studySessions
                (SecureUserData.studySessions d0 ++ [session]) d0))
    (λ _ (b : bool), b) false) as Heq.
  refine (eq_trans _ Heq). unfold mbind, SIO_bind, mret, SIO_ret.
  destruct (loadSecureUserData now id tok s).1; [|done].
  by destruct (saveSecureUserData _ _ _ _).
Qed.

Lemma addEmotionEntry_run `{Encoder} now id tok entry s :
  addEmotionEntry now id tok entry s
  = let a := hasDataAccess now tok id (auth s) in
    match (if a.1 then pomogrow_data s !! getUserDataKey id else None) with
    | None => (false, mkStorage a.2 (pomogrow_data s) (pomogrow_session s))
    | Some d0 =>
      let d := SecureUserData.set_emotionEntries
                 (SecureUserData.emotionEntries d0 ++ [entry]) d0 in
      let b := (hasDataAccess now tok (SecureUserData.studyId d) (auth s)).1
               && encodes d in
      (b,
       mkStorage a.2
         (if b then <[getUserDataKey (SecureUserData.studyId d) := d]> (pomogrow_data s)
          else pomogrow_data s)
         (pomogrow_session s))
    end.
Proof.
  unfold addEmotionEntry.
  pose proof (load_then_save now id tok s
    (λ d0, SecureUserData.set_emotionEntries
             (SecureUserData.emotionEntries d0 ++ [entry]) d0)
    (λ _ (b : bool), b) false) as Heq.
  refine (eq_trans _ Heq). unfold mbind, SIO_bind, mret, SIO_ret.
  destruct (loadSecureUserData now id tok s).1; [|done].
  by destruct (saveSecureUserData _ _ _ _).
Qed.

Lemma addTimetableEntry_run `{Encoder} now id tok entry s :
  addTimetableEntry now id tok entry s
  = let a := hasDataAccess now tok id (auth s) in
    match (if a.1 then pomogrow_data s !! getUserDataKey id else None) with
    | None => (false, mkStorage a.2 (pomogrow_data s) (pomogrow_session s))
    | Some d0 =>
      let d := SecureUserData.set_timetable
                 (SecureUserData.timetable d0 ++ [entry]) d0 in
      let b := (hasDataAccess now tok (SecureUserData.studyId d) (auth s)).1
               && encodes d in
      (b,
       mkStorage a.2
         (if b then <[getUserDataKey (SecureUserData.studyId d) := d]> (pomogrow_data s)
          else pomogrow_data s)
         (pomogrow_session s))
    end.
Proof.
  unfold addTimetableEntry.
  pose proof (load_then_save now id tok s
    (λ d0, SecureUserData.set_timetable
             (SecureUserData.timetable d0 ++ [entry]) d0)
    (λ _ (b : bool), b) false) as Heq.
  refine (eq_trans _ Heq). unfold mbind, SIO_bind, mret, SIO_ret.
  destruct (loadSecureUserData now id tok s).1; [|done].
  by destruct (saveSecureUserData _ _ _ _).
Qed.

(** ** The application shell: running the handlers *)

Lemma loadOrCreate_run `{Encoder} now user tok s :
  loadOrCreate now user tok s
  = let a := hasDataAccess now tok (User.studyId user) (auth s) in
    match (if a.1 then pomogrow_data s !! getUserDataKey (User.studyId user) else None) with
    | Some d => (d, mkStorage a.2 (pomogrow_data s) (pomogrow_session s))
    | None =>
      let d := createInitialUserData now user in
      (d, mkStorage a.2
            (if a.1 && encodes d
             then <[getUserDataKey (User.studyId user) := d]> (pomogrow_data s)
             else pomogrow_data s)
            (pomogrow_session s))
    end.
Proof.
  unfold loadOrCreate. unfold mbind at 1. unfold SIO_bind at 1.
  rewrite loadSecureUserData_run. cbn [fst snd].
  destruct (if (hasDataAccess now tok (User.studyId user) (auth s)).1
            then pomogrow_data s !! getUserDataKey (User.studyId user) else None)
    as [d0|]; [done|].
  unfold mbind, SIO_bind, mret, SIO_ret. rewrite saveSecureUserData_run.
  cbn [fst snd auth pomogrow_data pomogrow_session createInitialUserData
         SecureUserData.studyId].
  by rewrite hasDataAccess_twice.
Qed.

Lemma App_handleLogin_run `{Encoder} now user tok st s :
  App_handleLogin now user tok st s
  = (App.mk App.dashboard (Some (loadOrCreate now user tok s).1) (Some tok) (App.loading st),
     (loadOrCreate now user tok s).2).
Proof. reflexivity. Qed.

Lemma App_handleLogout_run st s :
  App_handleLogout st s
  = (App.mk App.login None None (App.loading st),
     mkStorage
       (match truthy (App.sessionToken st) with
        | Some tok => (logout tok (auth s)).2
        | None => auth s
        end)
       (pomogrow_data s) None).
Proof. unfold App_handleLogout. by destruct (truthy (App.sessionToken st)). Qed.

Lemma App_mount_run `{Encoder} now st s :
  App_mount now st s
  = match truthy (pomogrow_session s) with
    | Some tok =>
      match resolves now tok (auth s) with
      | Some user =>
        let s1 := mkStorage (validateSession now tok (auth s)).2 (pomogrow_data s)
                    (pomogrow_session s) in
        (App.mk App.dashboard (Some (loadOrCreate now user tok s1).1) (Some tok) false,
         (loadOrCreate now user tok s1).2)
      | None =>
        (App.mk (App.currentScreen st) (App.userData st) (App.sessionToken st) false,
         mkStorage (validateSession now tok (auth s)).2 (pomogrow_data s) None)
      end
    | None =>
      (App.mk (App.currentScreen st) (App.userData st) (App.sessionToken st) false, s)
    end.
Proof.
  unfold App_mount, getCurrentUser, resolves.
  unfold mbind, SIO_bind, mret, SIO_ret, getSession, removeSession, liftIO.
  cbn [fst snd].
  destruct (truthy (pomogrow_session s)) as [tok|]; [|done].
  by destruct (validateSession now tok (auth s)).1.
Qed.

Section Ui.
Context `{Platform} `{Encoder}.

Lemma AuthScreen_handleLogin_run now uuid ident pw st s :
  AuthScreen_handleLogin now uuid ident pw st s
  = let r := loginUser now uuid ident pw (auth s) in
    match Result.success r.1, Result.user r.1, truthy (Result.sessionToken r.1) with
    | true, Some user, Some tok =>
      let s1 := mkStorage r.2 (pomogrow_data s) (Some tok) in
      ((None,
        App.mk App.dashboard (Some (loadOrCreate now user tok s1).1) (Some tok)
          (App.loading st)),
       (loadOrCreate now user tok s1).2)
    | _, _, _ =>
      ((Some (if default false (Result.locked r.1)
              then default "undefined" (Result.error r.1)
                   +:+ " Please check your email for security alerts."
              else default "Login failed" (truthy (Result.error r.1))), st),
       mkStorage r.2 (pomogrow_data s) (pomogrow_session s))
    end.
Proof.
  unfold AuthScreen_handleLogin.
  unfold mbind, SIO_bind, mret, SIO_ret, setSession, liftIO, App_handleLogin.
  cbn [fst snd].
  destruct (Result.success (loginUser now uuid ident pw (auth s)).1); [|done].
  destruct (Result.user (loginUser now uuid ident pw (auth s)).1); [|done].
  destruct (truthy (Result.sessionToken (loginUser now uuid ident pw (auth s)).1)); done.
Qed.

End Ui.

(** ** Per-user data across calls *)

Lemma getUserDataKey_inj a b : getUserDataKey a = getUserDataKey b → a = b.
Proof. unfold getUserDataKey. cbn. intros [= Heq]. exact Heq. Qed.

Lemma validateSession_users now tok w :
  pomogrow_users (validateSession now tok w).2 = pomogrow_users w.
Proof. validate_cases now tok w; done. Qed.

Lemma resolves_registered now tok w u :
  resolves now tok w = Some u → u ∈ pomogrow_users w.
Proof.
  unfold resolves. rewrite validateSession_result.
  destruct (snd <$> list_find _ (pomogrow_sessions w)) as [session|]; [|done].
  destruct (AuthSession.expiresAt session <? now); [done|].
  destruct (list_find _ (pomogrow_users w)) as [[j v]|] eqn:Hf; [|done].
  intros [= <-]. by apply list_find_elem in Hf as [? _].
Qed.

Lemma access_granted now tok target w :
  (hasDataAccess now tok target w).1 = true →
  ∃ u, resolves now tok w = Some u ∧ User.studyId u = target
       ∧ u ∈ pomogrow_users (hasDataAccess now tok target w).2.
Proof.
  intros (u & Hu & Hid)%hasDataAccess_true. exists u. split_and!; [done|done|].
  rewrite hasDataAccess_world, validateSession_users. by eapply resolves_registered.
Qed.

Ltac case_loaded now tok id s :=
  let Ha := fresh "Haccess" in
  destruct (hasDataAccess now tok id (auth s)).1 eqn:Ha;
  [destruct (pomogrow_data s !! getUserDataKey id) as [?d0|]|].

Section Storage_steps.
Context `{Platform} `{Encoder}.

Lemma loginUser_user_stored now uuid ident pw w user :
  Result.user (loginUser now uuid ident pw w).1 = Some user →
  user ∈ pomogrow_users (loginUser now uuid ident pw w).2.
Proof.
  login_cases now uuid ident pw w; cbn [fst snd Result.user Result.failure]; try done.
  intros [= <-]. cbn [pomogrow_users].
  eapply list_elem_of_lookup_2. by eapply list_lookup_insert_found.
Qed.

Lemma reachable_run cs w : reachable w → reachable (run cs w).
Proof.
  intros Hw. induction cs as [|c cs IH] using rev_ind; [done|].
  rewrite run_snoc. by apply reachable_call.
Qed.

(** The collections of the authentication module change by its own
    calls only. *)
Lemma scall_auth c s : ∃ cs, auth (scall c s) = run cs (auth s).
Proof.
  destruct c as [c | now d tok | now id tok | now id tok ups | now id tok x
                | now id tok x | now id tok x | now id tok
                | now uuid ident pw st | now st | st]; cbn [scall].
  - by exists [c].
  - rewrite saveSecureUserData_run. by exists [HasDataAccess now tok (SecureUserData.studyId d)].
  - rewrite loadSecureUserData_run. by exists [HasDataAccess now tok id].
  - rewrite updateSecureUserData_run. exists [HasDataAccess now tok id].
    cbn zeta. by case_loaded now tok id s.
  - rewrite addStudySession_run. exists [HasDataAccess now tok id].
    cbn zeta. by case_loaded now tok id s.
  - rewrite addEmotionEntry_run. exists [HasDataAccess now tok id].
    cbn zeta. by case_loaded now tok id s.
  - rewrite addTimetableEntry_run. exists [HasDataAccess now tok id].
    cbn zeta. by case_loaded now tok id s.
  - rewrite deleteUserData_run. by exists [HasDataAccess now tok id].
  - rewrite AuthScreen_handleLogin_run. cbn zeta.
    destruct (Result.success _); [|by exists [Login now uuid ident pw]].
    destruct (Result.user _) as [user|]; [|by exists [Login now uuid ident pw]].
    destruct (truthy _) as [t|]; [|by exists [Login now uuid ident pw]].
    rewrite loadOrCreate_run. cbn zeta.
    exists [Login now uuid ident pw; HasDataAccess now t (User.studyId user)].
    cbn [auth pomogrow_data].
    destruct (hasDataAccess now t (User.studyId user) _).1;
      [by destruct (pomogrow_data s !! _)|done].
  - rewrite App_mount_run.
    destruct (truthy (pomogrow_session s)) as [t|]; [|by exists []].
    destruct (resolves now t (auth s)) as [user|]; [|by exists [ValidateSession now t]].
    cbn zeta. rewrite loadOrCreate_run. cbn zeta.
    exists [ValidateSession now t; HasDataAccess now t (User.studyId user)].
    cbn [auth pomogrow_data].
    destruct (hasDataAccess now t (User.studyId user) _).1;
      [by destruct (pomogrow_data s !! _)|done].
  - rewrite App_handleLogout_run. cbn [snd auth].
    destruct (truthy (App.sessionToken st)) as [t|]; [by exists [Logout t]|by exists []].
Qed.

(** What one call does to the data records: nothing, or the write or
    the removal of the record of the acting user. *)
Lemma scall_data c s :
  pomogrow_data (scall c s) = pomogrow_data s
  ∨ (∃ u d, acting_user c s = Some u
            ∧ SecureUserData.studyId d = User.studyId u
            ∧ u ∈ pomogrow_users (auth (scall c s))
            ∧ pomogrow_data (scall c s)
              = <[getUserDataKey (User.studyId u) := d]> (pomogrow_data s))
  ∨ (∃ u, acting_user c s = Some u
          ∧ pomogrow_data (scall c s)
            = delete (getUserDataKey (User.studyId u)) (pomogrow_data s)).
Proof.
  assert (Hwrite : ∀ now tok id d w,
    (hasDataAccess now tok (SecureUserData.studyId d) w).1 = true →
    ∃ u, resolves now tok w = Some u
         ∧ SecureUserData.studyId d = User.studyId u
         ∧ u ∈ pomogrow_users (hasDataAccess now tok id w).2
         ∧ <[getUserDataKey (SecureUserData.studyId d) := d]> (pomogrow_data s)
           = <[getUserDataKey (User.studyId u) := d]> (pomogrow_data s)).
  { intros now tok id d w (u & Hu & Hid & _)%access_granted.
    exists u. split_and!; [done|done| |by rewrite Hid].
    rewrite hasDataAccess_world, validateSession_users. by eapply resolves_registered. }
  destruct c as [c | now d tok | now id tok | now id tok ups | now id tok x
                | now id tok x | now id tok x | now id tok
                | now uuid ident pw st | now st | st]; cbn [scall acting_user].
  - by left.
  - rewrite saveSecureUserData_run. cbn [snd pomogrow_data auth].
    destruct (hasDataAccess now tok (SecureUserData.studyId d) (auth s)).1 eqn:Ha;
      cbn [andb]; [|by left].
    destruct (encodes d); [|by left].
    destruct (Hwrite now tok (SecureUserData.studyId d) d (auth s) Ha)
      as (u & Hu & Hid & Hin & Heq).
    right. left. exists u, d. by split_and!.
  - rewrite loadSecureUserData_run. by left.
  - rewrite updateSecureUserData_run. cbn zeta.
    case_loaded now tok id s; [|by left|by left]. cbn [snd pomogrow_data auth].
    match goal with
    | |- context [(hasDataAccess now tok (SecureUserData.studyId ?d) (auth s)).1] =>
      destruct (hasDataAccess now tok (SecureUserData.studyId d) (auth s)).1 eqn:Hb;
        cbn [andb]; [destruct (encodes d)|]
    end; [|by left|by left].
    destruct (Hwrite now tok id _ (auth s) Hb) as (u & Hu & Hid & Hin & Heq).
    right. left. exists u, (spread d0 ups). by split_and!.
  - rewrite addStudySession_run. cbn zeta.
    case_loaded now tok id s; [|by left|by left]. cbn [snd pomogrow_data auth].
    match goal with
    | |- context [(hasDataAccess now tok (SecureUserData.studyId ?d) (auth s)).1] =>
      destruct (hasDataAccess now tok (SecureUserData.studyId d) (auth s)).1 eqn:Hb;
        cbn [andb]; [destruct (encodes d)|]
    end; [|by left|by left].
    destruct (Hwrite now tok id _ (auth s) Hb) as (u & Hu & Hid & Hin & Heq).
    right. left. eexists u, _. by split_and!.
  - rewrite addEmotionEntry_run. cbn zeta.
    case_loaded now tok id s; [|by left|by left]. cbn [snd pomogrow_data auth].
    match goal with
    | |- context [(hasDataAccess now tok (SecureUserData.studyId ?d) (auth s)).1] =>
      destruct (hasDataAccess now tok (SecureUserData.studyId d) (auth s)).1 eqn:Hb;
        cbn [andb]; [destruct (encodes d)|]
    end; [|by left|by left].
    destruct (Hwrite now tok id _ (auth s) Hb) as (u & Hu & Hid & Hin & Heq).
    right. left. eexists u, _. by split_and!.
  - rewrite addTimetableEntry_run. cbn zeta.
    case_loaded now tok id s; [|by left|by left]. cbn [snd pomogrow_data auth].
    match goal with
    | |- context [(hasDataAccess now tok (SecureUserData.studyId ?d) (auth s)).1] =>
      destruct (hasDataAccess now tok (SecureUserData.studyId d) (auth s)).1 eqn:Hb;
        cbn [andb]; [destruct (encodes d)|]
    end; [|by left|by left].
    destruct (Hwrite now tok id _ (auth s) Hb) as (u & Hu & Hid & Hin & Heq).
    right. left. eexists u, _. by split_and!.
  - rewrite deleteUserData_run. cbn [snd pomogrow_data].
    destruct (hasDataAccess now tok id (auth s)).1 eqn:Ha; [|by left].
    apply access_granted in Ha as (u & Hu & Hid & _).
    right. right. exists u. split; [done|]. by rewrite Hid.
  - rewrite AuthScreen_handleLogin_run. cbn zeta.
    destruct (Result.success _); [|by left].
    destruct (Result.user _) as [user|] eqn:Huser; [|by left].
    destruct (truthy _) as [t|]; [|by left].
    rewrite loadOrCreate_run. cbn zeta. cbn [auth pomogrow_data pomogrow_session].
    destruct (hasDataAccess now t (User.studyId user) _).1 eqn:Ha.
    + destruct (pomogrow_data s !! _) as [d0|]; [by left|].
      cbn [snd pomogrow_data auth andb].
      destruct (encodes _); [|by left]. right. left.
      exists user, (createInitialUserData now user).
      split_and!; [done|done| |done].
      rewrite hasDataAccess_world, validateSession_users.
      by apply loginUser_user_stored.
    + by left.
  - rewrite App_mount_run.
    destruct (truthy (pomogrow_session s)) as [t|]; [|by left].
    destruct (resolves now t (auth s)) as [user|] eqn:Hu; [|by left].
    cbn zeta. rewrite loadOrCreate_run. cbn zeta. cbn [auth pomogrow_data pomogrow_session].
    destruct (hasDataAccess now t (User.studyId user) _).1 eqn:Ha.
    + destruct (pomogrow_data s !! _) as [d0|]; [by left|].
      cbn [snd pomogrow_data auth andb].
      destruct (encodes _); [|by left]. right. left.
      exists user, (createInitialUserData now user).
      split_and!; [done|done| |done].
      rewrite hasDataAccess_world, !validateSession_users.
      by eapply resolves_registered.
    + by left.
  - rewrite App_handleLogout_run. by left.
Qed.

End Storage_steps.

(** ** Properties of the per-user data *)

Section Storage_properties.
Context `{Platform} `{Encoder}.

Lemma srun_snoc cs c s : srun (cs ++ [c]) s = scall c (srun cs s).
Proof. unfold srun. by rewrite foldl_snoc. Qed.

Lemma scall_keeps_owner c s u :
  u ∈ pomogrow_users (auth s) →
  ∃ u', u' ∈ pomogrow_users (auth (scall c s)) ∧ User.studyId u' = User.studyId u.
Proof.
  intros (i & Hi)%list_elem_of_lookup.
  destruct (scall_auth c s) as (cs & ->).
  destruct (run_keeps_accounts cs (auth s) i u Hi) as (u' & Hu' & Hid & _).
  exists u'. split; [by eapply list_elem_of_lookup_2|done].
Qed.

(** X13: a call changes no data record other than that of the acting
    user: the record kept for any other identifier is after the call
    what it was before, whatever the call and its arguments.  Calls of
    the authentication module and the logout change no data record. *)
Theorem data_isolation (c : SCall) (s : Storage) (other : string) :
  (∀ u, acting_user c s = Some u → User.studyId u ≠ other) →
  pomogrow_data (scall c s) !! getUserDataKey other
  = pomogrow_data s !! getUserDataKey other.
Proof.
  intros Hother.
  destruct (scall_data c s) as [->|[(u & d & Hu & _ & _ & ->)|(u & Hu & ->)]]; [done| |].
  - apply lookup_insert_ne. intros Heq%getUserDataKey_inj. by apply (Hother u).
  - apply lookup_delete_ne. intros Heq%getUserDataKey_inj. by apply (Hother u).
Qed.

Lemma scall_data_keyed c s : data_keyed s → data_keyed (scall c s).
Proof.
  intros Hk key d.
  destruct (scall_data c s) as [->|[(u & d' & Hu & Hid & _ & ->)|(u & Hu & ->)]].
  - apply Hk.
  - intros [[<- <-]|[_ Hold]]%lookup_insert_Some; [by rewrite Hid|by apply Hk].
  - intros [_ Hold]%lookup_delete_Some. by apply Hk.
Qed.

Lemma scall_data_owned c s : data_owned s → data_owned (scall c s).
Proof.
  intros Ho key d.
  destruct (scall_data c s) as [->|[(u & d' & Hu & Hid & Hin & ->)|(u & Hu & ->)]].
  - intros Hd. destruct (Ho key d Hd) as (v & Hv & Hvid).
    destruct (scall_keeps_owner c s v Hv) as (v' & Hv' & Hid'). exists v'.
    split; [done|congruence].
  - intros [[<- <-]|[_ Hold]]%lookup_insert_Some.
    + exists u. by split.
    + destruct (Ho key d Hold) as (v & Hv & Hvid).
      destruct (scall_keeps_owner c s v Hv) as (v' & Hv' & Hid'). exists v'.
      split; [done|congruence].
  - intros [_ Hold]%lookup_delete_Some.
    destruct (Ho key d Hold) as (v & Hv & Hvid).
    destruct (scall_keeps_owner c s v Hv) as (v' & Hv' & Hid'). exists v'.
    split; [done|congruence].
Qed.

Lemma sreachable_invariants s :
  sreachable s → reachable (auth s) ∧ data_keyed s ∧ data_owned s.
Proof.
  intros [cs ->]. induction cs as [|c cs IH] using rev_ind.
  - split_and!; [apply reachable_empty|done|done].
  - rewrite srun_snoc. destruct IH as (Hr & Hk & Ho). split_and!.
    + destruct (scall_auth c (srun cs empty_storage)) as (cs' & ->).
      by apply reachable_run.
    + by apply scall_data_keyed.
    + by apply scall_data_owned.
Qed.

(** X14: in every store the application can build, the collections of
    the authentication module are ones the module can build, every data
    record sits under the key of its own identifier, and every data
    record belongs to a registered user. *)
Theorem stored_data_invariants (s : Storage) :
  sreachable s →
  reachable (auth s)
  ∧ (∀ key d, pomogrow_data s !! key = Some d →
       key = getUserDataKey (SecureUserData.studyId d))
  ∧ (∀ key d, pomogrow_data s !! key = Some d →
       ∃ u, u ∈ pomogrow_users (auth s) ∧ User.studyId u = SecureUserData.studyId d).
Proof. apply sreachable_invariants. Qed.

End Storage_properties.

(** X15: [saveSecureUserData] answers true exactly when the token
    resolves to the user whose identifier the record carries and the
    record encodes, and only then writes; the record is then read back
    unchanged by every [loadSecureUserData] for that identifier that is
    granted access.  A save that answers false, because it is refused
    or because the encoding fails, leaves every data record as it was. *)
Theorem save_then_load `{Encoder}
    (now : Z) (d : SecureUserData) (sessionToken : string) (s : Storage) :
  let r := saveSecureUserData now d sessionToken s in
  (r.1 = true ↔ (∃ u, resolves now sessionToken (auth s) = Some u
                      ∧ User.studyId u = SecureUserData.studyId d)
                ∧ encodes d = true)
  ∧ (r.1 = false →
       pomogrow_data r.2 = pomogrow_data s ∧ pomogrow_session r.2 = pomogrow_session s)
  ∧ (encodes d = false → r.1 = false)
  ∧ (r.1 = true →
       pomogrow_data r.2
       = <[getUserDataKey (SecureUserData.studyId d) := d]> (pomogrow_data s)
       ∧ loadSecureUserData now (SecureUserData.studyId d) sessionToken r.2 = (Some d, r.2)
       ∧ ∀ now' tok',
           (hasDataAccess now' tok' (SecureUserData.studyId d) (auth r.2)).1 = true →
           (loadSecureUserData now' (SecureUserData.studyId d) tok' r.2).1 = Some d).
Proof.
  intros r. subst r. rewrite saveSecureUserData_run. cbn zeta. cbn [fst snd].
  split_and!.
  - rewrite andb_true_iff, hasDataAccess_true. done.
  - by intros ->.
  - intros ->. apply andb_false_r.
  - intros Hok. rewrite Hok. apply andb_true_iff in Hok as [Ha _].
    cbn [pomogrow_data]. split_and!; [done| |].
    + rewrite loadSecureUserData_run. cbn zeta. cbn [auth pomogrow_data pomogrow_session].
      rewrite hasDataAccess_twice, Ha. cbn [fst snd]. by rewrite lookup_insert_eq.
    + intros now' tok' Ha'. rewrite loadSecureUserData_run. cbn zeta.
      cbn [auth pomogrow_data pomogrow_session fst] in *. rewrite Ha'.
      by rewrite lookup_insert_eq.
Qed.

(** X16: [loadSecureUserData] returns a record only to a token that
    resolves to the user with the requested identifier, and then the
    record kept under that identifier's key; in a store where records
    sit under their own keys it is the record of that user.  It never
    changes a data record. *)
Theorem load_guard (now : Z) (studyId sessionToken : string) (s : Storage) :
  let r := loadSecureUserData now studyId sessionToken s in
  pomogrow_data r.2 = pomogrow_data s
  ∧ (∀ d, r.1 = Some d →
       (∃ u, resolves now sessionToken (auth s) = Some u ∧ User.studyId u = studyId)
       ∧ pomogrow_data s !! getUserDataKey studyId = Some d
       ∧ (data_keyed s → SecureUserData.studyId d = studyId))
  ∧ ((∀ u, resolves now sessionToken (auth s) = Some u → User.studyId u ≠ studyId) →
       r.1 = None).
Proof.
  intros r. subst r. rewrite loadSecureUserData_run. cbn zeta. cbn [fst snd pomogrow_data].
  split_and!; [done| |].
  - intros d Hd.
    destruct (hasDataAccess now sessionToken studyId (auth s)).1 eqn:Ha; [|done].
    split_and!; [by apply hasDataAccess_true|done|].
    intros Hk. apply Hk in Hd. by apply getUserDataKey_inj in Hd.
  - intros Hno.
    destruct (hasDataAccess now sessionToken studyId (auth s)).1 eqn:Ha; [|done].
    apply hasDataAccess_true in Ha as (u & Hu & Hid). by destruct (Hno u Hu).
Qed.

(** X17: [deleteUserData] answers true exactly when the token resolves
    to the user with the identifier; the record is then gone for every
    later load, and the records of other identifiers stay.  A refused
    deletion leaves every data record as it was. *)
Theorem delete_then_load (now : Z) (studyId sessionToken : string) (s : Storage) :
  let r := deleteUserData now studyId sessionToken s in
  (r.1 = true ↔ ∃ u, resolves now sessionToken (auth s) = Some u
                     ∧ User.studyId u = studyId)
  ∧ (r.1 = false → pomogrow_data r.2 = pomogrow_data s)
  ∧ (r.1 = true →
       pomogrow_data r.2 !! getUserDataKey studyId = None
       ∧ (∀ other, other ≠ studyId →
            pomogrow_data r.2 !! getUserDataKey other
            = pomogrow_data s !! getUserDataKey other)
       ∧ ∀ now' tok', (loadSecureUserData now' studyId tok' r.2).1 = None).
Proof.
  intros r. subst r. rewrite deleteUserData_run. cbn zeta. cbn [fst snd].
  split_and!.
  - apply hasDataAccess_true.
  - by intros ->.
  - intros Ha. rewrite Ha. cbn [pomogrow_data]. split_and!.
    + apply lookup_delete_eq.
    + intros other Hne. apply lookup_delete_ne. by intros ?%getUserDataKey_inj.
    + intros now' tok'. rewrite loadSecureUserData_run. cbn zeta.
      cbn [fst pomogrow_data]. rewrite lookup_delete_eq.
      by destruct (hasDataAccess now' tok' studyId _).1.
Qed.

(** X18: [updateSecureUserData] cannot move a record to another
    identifier: an update that carries a different [studyId] answers
    null and changes no data record.  In a store where records sit
    under their own keys, an update that does not change the identifier
    answers the merged record and stores it, when the load succeeds and
    the merged record encodes; when the load fails, or the merged record
    does not encode, it answers null and changes nothing. *)
Theorem update_cannot_rebind `{Encoder}
    (now : Z) (studyId sessionToken : string) (updates : Updates) (s : Storage) :
  let r := updateSecureUserData now studyId sessionToken updates s in
  (∀ other, Updates.studyId updates = Some other → other ≠ studyId →
     r.1 = None ∧ pomogrow_data r.2 = pomogrow_data s)
  ∧ ((loadSecureUserData now studyId sessionToken s).1 = None →
       r.1 = None ∧ pomogrow_data r.2 = pomogrow_data s)
  ∧ (∀ d0, data_keyed s →
       Updates.studyId updates = None ∨ Updates.studyId updates = Some studyId →
       (loadSecureUserData now studyId sessionToken s).1 = Some d0 →
       encodes (spread d0 updates) = true →
       r.1 = Some (spread d0 updates)
       ∧ pomogrow_data r.2
         = <[getUserDataKey studyId := spread d0 updates]> (pomogrow_data s))
  ∧ (∀ d0,
       (loadSecureUserData now studyId sessionToken s).1 = Some d0 →
       encodes (spread d0 updates) = false →
       r.1 = None ∧ pomogrow_data r.2 = pomogrow_data s).
Proof.
  intros r. subst r. rewrite updateSecureUserData_run, loadSecureUserData_run.
  cbn zeta. cbn [fst snd].
  split_and!.
  - intros other Hups Hne.
    destruct (hasDataAccess now sessionToken studyId (auth s)).1 eqn:Ha; [|done].
    destruct (pomogrow_data s !! getUserDataKey studyId) as [d0|]; [|done].
    cbn [fst snd pomogrow_data].
    assert (Hb : (hasDataAccess now sessionToken
                    (SecureUserData.studyId (spread d0 updates)) (auth s)).1 = false).
    { apply not_true_iff_false. intros (u & Hu & Hid)%hasDataAccess_true.
      apply hasDataAccess_true in Ha as (u' & Hu' & Hid').
      rewrite Hu in Hu'. injection Hu' as <-.
      cbn in Hid. rewrite Hups in Hid. cbn in Hid. congruence. }
    by rewrite Hb.
  - intros Hnone.
    destruct (if (hasDataAccess now sessionToken studyId (auth s)).1
              then pomogrow_data s !! getUserDataKey studyId else None); done.
  - intros d0 Hk Hups Hload Hencodes.
    destruct (hasDataAccess now sessionToken studyId (auth s)).1 eqn:Ha; [|done].
    rewrite Hload. cbn [fst snd pomogrow_data].
    assert (Hsid : SecureUserData.studyId (spread d0 updates) = studyId).
    { apply Hk in Hload. apply getUserDataKey_inj in Hload.
      cbn. destruct Hups as [->| ->]; cbn; congruence. }
    by rewrite Hsid, Ha, Hencodes.
  - intros d0 Hload Hencodes.
    destruct (hasDataAccess now sessionToken studyId (auth s)).1 eqn:Ha; [|done].
    rewrite Hload. cbn [fst snd pomogrow_data].
    by rewrite Hencodes, andb_false_r.
Qed.

(** X19: in a store where records sit under their own keys, each of the
    three append operations answers true exactly when the load of the
    record succeeds and the record with the new entry encodes; the
    stored record then has the new entry at the end of its list, and a
    study session also stamps the time of last activity.  When they
    answer false no data record changes. *)
Theorem append_operations `{Encoder}
    (now : Z) (studyId sessionToken : string) (s : Storage)
    (session : StudySession) (emotion : EmotionEntry) (slot : TimetableEntry) :
  data_keyed s →
  let loaded := (loadSecureUserData now studyId sessionToken s).1 in
  let r1 := addStudySession now studyId sessionToken session s in
  let r2 := addEmotionEntry now studyId sessionToken emotion s in
  let r3 := addTimetableEntry now studyId sessionToken slot s in
  (loaded = None →
     r1.1 = false ∧ pomogrow_data r1.2 = pomogrow_data s
     ∧ r2.1 = false ∧ pomogrow_data r2.2 = pomogrow_data s
     ∧ r3.1 = false ∧ pomogrow_data r3.2 = pomogrow_data s)
  ∧ (∀ d0, loaded = Some d0 →
       let d1 := SecureUserData.set_lastActiveDate now
                   (SecureUserData.set_studySessions
                      (SecureUserData.studySessions d0 ++ [session]) d0) in
       let d2 := SecureUserData.set_emotionEntries
                   (SecureUserData.emotionEntries d0 ++ [emotion]) d0 in
       let d3 := SecureUserData.set_timetable
                   (SecureUserData.timetable d0 ++ [slot]) d0 in
       r1.1 = encodes d1
       ∧ pomogrow_data r1.2
         = (if encodes d1 then <[getUserDataKey studyId := d1]> (pomogrow_data s)
            else pomogrow_data s)
       ∧ r2.1 = encodes d2
       ∧ pomogrow_data r2.2
         = (if encodes d2 then <[getUserDataKey studyId := d2]> (pomogrow_data s)
            else pomogrow_data s)
       ∧ r3.1 = encodes d3
       ∧ pomogrow_data r3.2
         = (if encodes d3 then <[getUserDataKey studyId := d3]> (pomogrow_data s)
            else pomogrow_data s)).
Proof.
  intros Hk loaded r1 r2 r3. subst loaded r1 r2 r3.
  rewrite addStudySession_run, addEmotionEntry_run, addTimetableEntry_run,
    loadSecureUserData_run.
  cbn zeta. cbn [fst snd].
  split.
  - intros Hnone.
    destruct (if (hasDataAccess now sessionToken studyId (auth s)).1
              then pomogrow_data s !! getUserDataKey studyId else None); done.
  - intros d0 Hload.
    destruct (hasDataAccess now sessionToken studyId (auth s)).1 eqn:Ha; [|done].
    rewrite Hload. cbn [fst snd pomogrow_data SecureUserData.studyId
      SecureUserData.set_lastActiveDate SecureUserData.set_studySessions
      SecureUserData.set_emotionEntries SecureUserData.set_timetable].
    assert (Hsid : SecureUserData.studyId d0 = studyId).
    { apply Hk in Hload. by apply getUserDataKey_inj in Hload. }
    rewrite Hsid, Ha. cbn [andb]. by split_and!.
Qed.

(** X20: once [logout] has run for a token, the token opens no data:
    save, load, update, the append operations and delete all refuse, at
    any clock reading, and leave every data record as it was. *)
Theorem logout_closes_data `{Encoder} (sessionToken : string) (s : Storage) :
  let s1 := (liftIO (logout sessionToken) s).2 in
  ∀ now studyId d updates session emotion slot,
    saveSecureUserData now d sessionToken s1
    = (false, s1)
    ∧ loadSecureUserData now studyId sessionToken s1 = (None, s1)
    ∧ updateSecureUserData now studyId sessionToken updates s1 = (None, s1)
    ∧ addStudySession now studyId sessionToken session s1 = (false, s1)
    ∧ addEmotionEntry now studyId sessionToken emotion s1 = (false, s1)
    ∧ addTimetableEntry now studyId sessionToken slot s1 = (false, s1)
    ∧ deleteUserData now studyId sessionToken s1 = (false, s1).
Proof.
  intros s1 now studyId d updates session emotion slot.
  assert (Hno : ∀ target, hasDataAccess now sessionToken target (auth s1) = (false, auth s1)).
  { intros target. rewrite hasDataAccess_unfold. unfold resolves.
    subst s1. cbn [liftIO snd auth]. rewrite logout_run. cbn [snd].
    rewrite validateSession_unknown; [done|].
    apply list_find_none_forall. intros x Hx.
    by apply list_elem_of_filter in Hx as [Hne _]. }
  assert (Heta : mkStorage (auth s1) (pomogrow_data s1) (pomogrow_session s1) = s1)
    by done.
  rewrite saveSecureUserData_run, loadSecureUserData_run, updateSecureUserData_run,
    addStudySession_run, addEmotionEntry_run, addTimetableEntry_run, deleteUserData_run.
  cbn zeta. rewrite !Hno. cbn [fst snd]. by rewrite Heta.
Qed.

(** ** The login form and the application shell *)

Section Ui_properties.
Context `{Platform} `{Encoder}.

Lemma login_token_live now uuid ident pw w i u now' :
  reachable w →
  list_find (login_key ident) (pomogrow_users w) = Some (i, u) →
  is_locked now u = false →
  bcrypt_compare pw (User.passwordHash u) = true →
  (∀ x, x ∈ pomogrow_sessions w → AuthSession.sessionToken x ≠ uuid) →
  now' ≤ now + SESSION_DURATION →
  loginUser now uuid ident pw w
  = (Result.mk true None (Some (after_success now u)) None None (Some uuid),
     (loginUser now uuid ident pw w).2)
  ∧ validateSession now' uuid (loginUser now uuid ident pw w).2
    = (Some (after_success now u), (loginUser now uuid ident pw w).2).
Proof.
  intros Hw Hf Hl Hpw Hfresh Hle.
  rewrite (loginUser_success now uuid ident pw w i u Hf Hl Hpw).
  fold (after_success now u). cbn [snd]. split; [done|].
  set (session := AuthSession.mk _ _ _ _). set (w' := mkWorld _ _ _ _).
  assert (Hfs : list_find (λ x, AuthSession.sessionToken x = uuid) (pomogrow_sessions w')
                = Some (length (filter (λ x, AuthSession.studyId x ≠ User.studyId u)
                                  (pomogrow_sessions w)), session)).
  { by apply list_find_issued. }
  erewrite validateSession_live; [|exact Hfs|cbn; lia].
  cbn [pomogrow_users w' AuthSession.studyId session].
  erewrite list_find_insert_same; [done| |done].
  destruct (reachable_unique_users w Hw) as [_ Hnd].
  apply (list_find_unique User.studyId); [exact Hnd|by eapply list_find_lookup].
Qed.

Lemma truthy_nonempty tok : tok ≠ "" → truthy (Some tok) = Some tok.
Proof. intros Hne. unfold truthy. by rewrite (proj2 (String.eqb_neq _ _) Hne). Qed.

(** X21: a login through the form that succeeds, in a store the
    application can build and with a fresh token, shows no error, keeps
    the token under pomogrow_session and opens the dashboard with the
    data record of the user: the stored one, or else a new one.  When a
    record was stored, or the new one encodes, the record is in the
    store afterwards, and mounting the application again within 24
    hours opens the dashboard with the same record and changes nothing
    in the store.  When none was stored and the new one does not encode,
    no data record is written and a mount within 24 hours shows a record
    created at the time of the mount.  After 24 hours the mount stays
    where it was and removes the kept token. *)
Theorem ui_login_then_reload
    (now : Z) (uuid studyIdOrEmail password : string) (st : App.State) (s : Storage)
    (i : nat) (u : User) :
  sreachable s →
  list_find (login_key studyIdOrEmail) (pomogrow_users (auth s)) = Some (i, u) →
  is_locked now u = false →
  bcrypt_compare password (User.passwordHash u) = true →
  (∀ x, x ∈ pomogrow_sessions (auth s) → AuthSession.sessionToken x ≠ uuid) →
  uuid ≠ "" →
  let r := AuthScreen_handleLogin now uuid studyIdOrEmail password st s in
  let stored := pomogrow_data s !! getUserDataKey (User.studyId u) in
  let d := default (createInitialUserData now u) stored in
  r.1 = (None, App.mk App.dashboard (Some d) (Some uuid) (App.loading st))
  ∧ pomogrow_session r.2 = Some uuid
  ∧ (is_Some stored ∨ encodes (createInitialUserData now u) = true →
       pomogrow_data r.2 !! getUserDataKey (User.studyId u) = Some d
       ∧ ∀ now' st', now' ≤ now + 24 * 60 * 60 * 1000 →
           App_mount now' st' r.2
           = (App.mk App.dashboard (Some d) (Some uuid) false, r.2))
  ∧ (stored = None → encodes (createInitialUserData now u) = false →
       pomogrow_data r.2 = pomogrow_data s
       ∧ ∀ now' st', now' ≤ now + 24 * 60 * 60 * 1000 →
           (App_mount now' st' r.2).1
           = App.mk App.dashboard (Some (createInitialUserData now' u)) (Some uuid) false)
  ∧ (∀ now' st', now + 24 * 60 * 60 * 1000 < now' →
       (App_mount now' st' r.2).1
       = App.mk (App.currentScreen st') (App.userData st') (App.sessionToken st') false
       ∧ pomogrow_session (App_mount now' st' r.2).2 = None).
Proof.
  intros Hs Hf Hl Hpw Hfresh Hne r stored d.
  destruct (sreachable_invariants s Hs) as (Hw & _ & _).
  assert (Hlive : ∀ now', now' ≤ now + SESSION_DURATION →
    validateSession now' uuid (loginUser now uuid studyIdOrEmail password (auth s)).2
    = (Some (after_success now u),
       (loginUser now uuid studyIdOrEmail password (auth s)).2)).
  { intros now' Hle.
    by destruct (login_token_live now uuid studyIdOrEmail password (auth s) i u now'
                   Hw Hf Hl Hpw Hfresh Hle). }
  destruct (login_token_live now uuid studyIdOrEmail password (auth s) i u now
              Hw Hf Hl Hpw Hfresh) as [Hlogin _]; [unfold SESSION_DURATION; lia|].
  set (w1 := (loginUser now uuid studyIdOrEmail password (auth s)).2) in *.
  assert (Hacc : ∀ now', now' ≤ now + SESSION_DURATION →
    hasDataAccess now' uuid (User.studyId u) w1 = (true, w1)).
  { intros now' Hle. rewrite hasDataAccess_unfold. unfold resolves.
    rewrite (Hlive now' Hle). cbn [fst snd].
    by rewrite bool_decide_eq_true_2. }
  set (written :=
         match stored with
         | Some _ => pomogrow_data s
         | None =>
           if encodes (createInitialUserData now u)
           then <[getUserDataKey (User.studyId u) := createInitialUserData now u]>
                  (pomogrow_data s)
           else pomogrow_data s
         end).
  assert (Hr : r = ((None, App.mk App.dashboard (Some d) (Some uuid) (App.loading st)),
                    mkStorage w1 written (Some uuid))).
  { subst r. rewrite AuthScreen_handleLogin_run. cbn zeta. rewrite Hlogin.
    cbn [fst snd Result.success Result.user Result.sessionToken].
    rewrite (truthy_nonempty uuid Hne). rewrite loadOrCreate_run. cbn zeta.
    cbn [auth pomogrow_data pomogrow_session after_success User.studyId
           User.set_lastLogin User.set_lockedUntil User.set_failedAttempts].
    rewrite Hacc by (unfold SESSION_DURATION; lia). cbn [fst snd andb].
    subst d written stored.
    by destruct (pomogrow_data s !! getUserDataKey (User.studyId u)) as [d0|] eqn:Hd. }
  rewrite Hr. cbn [fst snd pomogrow_session pomogrow_data].
  split_and!; [done|done| | |].
  - intros Hkept.
    assert (Hlook : written !! getUserDataKey (User.studyId u) = Some d).
    { subst written d stored.
      destruct (pomogrow_data s !! getUserDataKey (User.studyId u)) as [d0|] eqn:Hd.
      - done.
      - destruct Hkept as [[? [=]]|Hencodes]. rewrite Hencodes.
        cbn [default]. apply lookup_insert_eq. }
    split; [exact Hlook|].
    intros now' st' Hle. rewrite App_mount_run. cbn [pomogrow_session auth pomogrow_data].
    rewrite (truthy_nonempty uuid Hne). unfold resolves.
    rewrite Hlive by (unfold SESSION_DURATION; lia). cbn [fst snd]. cbn zeta.
    rewrite loadOrCreate_run. cbn zeta.
    cbn [auth pomogrow_data pomogrow_session after_success User.studyId
           User.set_lastLogin User.set_lockedUntil User.set_failedAttempts].
    rewrite Hacc by (unfold SESSION_DURATION; lia). cbn [fst snd].
    by rewrite Hlook.
  - intros Hnone Hencodes.
    assert (Hsame : written = pomogrow_data s).
    { subst written. by rewrite Hnone, Hencodes. }
    split; [exact Hsame|].
    intros now' st' Hle. rewrite App_mount_run. cbn [pomogrow_session auth pomogrow_data].
    rewrite (truthy_nonempty uuid Hne). unfold resolves.
    rewrite Hlive by (unfold SESSION_DURATION; lia). cbn [fst snd]. cbn zeta.
    rewrite loadOrCreate_run. cbn zeta.
    cbn [auth pomogrow_data pomogrow_session after_success User.studyId
           User.set_lastLogin User.set_lockedUntil User.set_failedAttempts].
    rewrite Hacc by (unfold SESSION_DURATION; lia). cbn [fst snd].
    rewrite Hsame. fold stored. by rewrite Hnone.
  - intros now' st' Hlt. rewrite App_mount_run. cbn [pomogrow_session auth pomogrow_data].
    rewrite (truthy_nonempty uuid Hne).
    assert (Hgone : resolves now' uuid w1 = None).
    { unfold resolves. rewrite validateSession_result. subst w1.
      rewrite (loginUser_success now uuid studyIdOrEmail password (auth s) i u Hf Hl Hpw).
      cbn [snd pomogrow_sessions]. rewrite list_find_issued by done.
      cbn [fmap option_fmap option_map snd AuthSession.expiresAt].
      by rewrite (proj2 (Z.ltb_lt _ _)) by (unfold SESSION_DURATION; lia). }
    by rewrite Hgone.
Qed.

(** X22: the logout of the application, with an open session, ends on
    the login screen with no data and no token in its state, removes
    the token kept under pomogrow_session and revokes the session, and
    leaves the data records alone; the token resolves to no user
    afterwards and mounting the application again changes nothing and
    stays where it is. *)
Theorem ui_logout (st : App.State) (s : Storage) (tok : string) :
  App.sessionToken st = Some tok →
  tok ≠ "" →
  let r := App_handleLogout st s in
  r.1 = App.mk App.login None None (App.loading st)
  ∧ pomogrow_session r.2 = None
  ∧ pomogrow_data r.2 = pomogrow_data s
  ∧ auth r.2 = (logout tok (auth s)).2
  ∧ (∀ now, resolves now tok (auth r.2) = None)
  ∧ (∀ now st',
       App_mount now st' r.2
       = (App.mk (App.currentScreen st') (App.userData st') (App.sessionToken st') false,
          r.2)).
Proof.
  intros Htok Hne r. subst r. rewrite App_handleLogout_run, Htok.
  rewrite (truthy_nonempty tok Hne). cbn [fst snd pomogrow_session pomogrow_data auth].
  split_and!; [done|done|done|done| |].
  - intros now. unfold resolves. rewrite logout_run. cbn [snd].
    rewrite validateSession_unknown; [done|].
    apply list_find_none_forall. intros x Hx.
    by apply list_elem_of_filter in Hx as [Hx _].
  - intros now st'. by rewrite App_mount_run.
Qed.

(** X23: a login through the form that fails shows the error of
    [loginUser], followed by the hint about security alerts when the
    account is locked, and changes neither the state of the application
    nor the kept token nor any data record.  On mount, a kept token
    that resolves to no user is removed and the state stays as it was
    but for the loading flag. *)
Theorem ui_login_failure
    (now : Z) (uuid studyIdOrEmail password : string) (st : App.State) (s : Storage) :
  let l := loginUser now uuid studyIdOrEmail password (auth s) in
  let r := AuthScreen_handleLogin now uuid studyIdOrEmail password st s in
  (Result.success l.1 = false →
     r.1.2 = st
     ∧ pomogrow_session r.2 = pomogrow_session s
     ∧ pomogrow_data r.2 = pomogrow_data s
     ∧ auth r.2 = l.2
     ∧ ∃ e, Result.error l.1 = Some e
            ∧ r.1.1 = Some (if default false (Result.locked l.1)
                            then e +:+ " Please check your email for security alerts."
                            else e))
  ∧ (∀ tok st', pomogrow_session s = Some tok → tok ≠ "" →
       resolves now tok (auth s) = None →
       (App_mount now st' s).1
       = App.mk (App.currentScreen st') (App.userData st') (App.sessionToken st') false
       ∧ pomogrow_session (App_mount now st' s).2 = None
       ∧ pomogrow_data (App_mount now st' s).2 = pomogrow_data s).
Proof.
  intros l r. split.
  - subst r. rewrite AuthScreen_handleLogin_run. cbn zeta. fold l. intros Hfail.
    rewrite Hfail. cbn [fst snd pomogrow_session pomogrow_data auth].
    split_and!; [done|done|done|done|].
    subst l. revert Hfail.
    login_cases now uuid studyIdOrEmail password (auth s);
      cbn [fst snd Result.success Result.error Result.locked Result.failure default];
      intros Hfail; try discriminate Hfail; eexists; (split; [reflexivity|done]).
  - intros tok st' Htok Hne Hnone. rewrite App_mount_run, Htok.
    rewrite (truthy_nonempty tok Hne), Hnone. done.
Qed.

End Ui_properties.

(** ** Badges *)

Lemma length_insertSorted {A} (compare : A → A → Z) x l :
  length (insertSorted compare x l) = S (length l).
Proof.
  induction l as [|y l IH]; [done|]. simpl.
  destruct (0 <? compare y x); simpl; [done|]. by rewrite IH.
Qed.

Lemma length_Array_sort {A} (compare : A → A → Z) l :
  length (Array_sort compare l) = length l.
Proof.
  unfold Array_sort.
  assert (Hgen : ∀ acc, length (foldl (λ sorted x, insertSorted compare x sorted) acc l)
                        = (length acc + length l)%nat).
  { induction l as [|x l IH]; intros acc; simpl; [lia|].
    rewrite IH, length_insertSorted. lia. }
  by rewrite Hgen.
Qed.

Lemma length_firstOccurrences arr : (length (firstOccurrences arr) ≤ length arr)%nat.
Proof.
  unfold firstOccurrences. rewrite length_fmap.
  etrans; [apply length_filter|]. by rewrite length_imap.
Qed.

Lemma existsb_nonempty {A} (f : A → bool) l : existsb f l = true → (1 ≤ length l)%nat.
Proof. destruct l; [done|]. simpl. lia. Qed.

Lemma foldl_append_if {A B} (keep : A → bool) (f : A → B) l acc :
  foldl (λ acc x, if keep x then acc ++ [f x] else acc) acc l
  = acc ++ (f <$> List.filter keep l).
Proof.
  revert acc. induction l as [|x l IH]; intros acc; simpl.
  - by rewrite app_nil_r.
  - rewrite IH. destruct (keep x); simpl; [|done]. by rewrite <- app_assoc.
Qed.

Lemma catalogue_NoDup : NoDup (Badge.id <$> getAllPossibleBadges).
Proof. apply (bool_decide_unpack _). vm_compute. exact I. Qed.

Section Badge_rules.
Context `{Calendar}.

Lemma countStreak_bound prev dates streak :
  countStreak prev dates streak ≤ streak + Z.of_nat (length dates).
Proof.
  revert prev streak. induction dates as [|current dates IH]; intros prev streak; simpl.
  - lia.
  - destruct (parseDate prev), (parseDate current); try lia.
    destruct (_ =? 1); [|lia]. specialize (IH current (streak + 1)). lia.
Qed.

Lemma getStudyStreak_bound now d :
  getStudyStreak now d ≤ Z.of_nat (length (SecureUserData.studySessions d)).
Proof.
  unfold getStudyStreak.
  set (dates := Array_sort _ _).
  assert (Hlen : (length dates ≤ length (SecureUserData.studySessions d))%nat).
  { unfold dates. rewrite length_Array_sort.
    etrans; [apply length_firstOccurrences|]. by rewrite length_fmap. }
  destruct dates as [|latest earlier]; [lia|].
  destruct (_ && _); [lia|].
  pose proof (countStreak_bound latest earlier 1). simpl in Hlen. lia.
Qed.

Lemma sessionsByDay_bound sessions day count :
  sessionsByDay sessions !! day = Some count → count ≤ Z.of_nat (length sessions).
Proof.
  unfold sessionsByDay.
  assert (Hgen : ∀ (acc : gmap string Z) n,
    0 ≤ n → (∀ k c, acc !! k = Some c → c ≤ n) →
    ∀ k c,
      foldl (λ acc session,
               let date := toDateString (StudySession.date session) in
               <[date := default 0 (acc !! date) + 1]> acc) acc sessions !! k = Some c →
      c ≤ n + Z.of_nat (length sessions)).
  { induction sessions as [|session sessions IH]; intros acc n Hn Hacc k c; simpl.
    - intros Hk. apply Hacc in Hk. lia.
    - intros Hk. apply (IH _ (n + 1)) in Hk; [lia|lia|].
      intros k' c'. destruct (decide (k' = toDateString (StudySession.date session)))
        as [->|Hne].
      + rewrite lookup_insert_eq. intros [= <-].
        destruct (acc !! _) as [c0|] eqn:Hc0; simpl.
        * apply Hacc in Hc0. lia.
        * lia.
      + rewrite lookup_insert_ne by done. intros Hk'. apply Hacc in Hk'. lia. }
  intros Hk. apply (Hgen ∅ 0) in Hk; [lia|lia|]. intros k c. by rewrite lookup_empty.
Qed.

End Badge_rules.

Lemma foldl_award {A B} (skip keep : A → bool) (f : A → B) l acc :
  foldl (λ acc x, if skip x then acc else if keep x then acc ++ [f x] else acc) acc l
  = acc ++ (f <$> List.filter (λ x, negb (skip x) && keep x) l).
Proof.
  revert acc. induction l as [|x l IH]; intros acc; simpl.
  - by rewrite app_nil_r.
  - rewrite IH. destruct (skip x); simpl; [done|].
    destruct (keep x); simpl; [|done]. by rewrite <- app_assoc.
Qed.

Lemma filter_sublist {A} (keep : A → bool) l : sublist (List.filter keep l) l.
Proof.
  induction l as [|x l IH]; simpl; [done|].
  destruct (keep x); [by apply sublist_skip|by apply sublist_cons].
Qed.

Lemma elem_of_List_filter {A} (keep : A → bool) l x :
  x ∈ List.filter keep l ↔ x ∈ l ∧ keep x = true.
Proof. rewrite !list_elem_of_In. apply filter_In. Qed.

Lemma List_filter_nil {A} (keep : A → bool) l :
  (∀ x, x ∈ l → keep x = false) → List.filter keep l = [].
Proof.
  intros Hall. destruct (List.filter keep l) as [|x k] eqn:Hk; [done|].
  assert (Hx : x ∈ List.filter keep l) by (rewrite Hk; apply list_elem_of_here).
  apply elem_of_List_filter in Hx as [Hx Hkeep]. rewrite (Hall x Hx) in Hkeep. done.
Qed.

Section Award.
Context `{Calendar}.

Lemma awardBadge_filter now d :
  awardBadge now d
  = earned now
      <$> List.filter
            (λ badge,
               negb (bool_decide
                       (Badge.id badge ∈ (EarnedBadge.id <$> SecureUserData.badges d)))
               && shouldAward now d (Badge.id badge))
            getAllPossibleBadges.
Proof.
  unfold awardBadge.
  exact (foldl_award
           (λ badge, bool_decide
                       (Badge.id badge ∈ (EarnedBadge.id <$> SecureUserData.badges d)))
           (λ badge, shouldAward now d (Badge.id badge)) (earned now)
           getAllPossibleBadges []).
Qed.

Lemma elem_of_awardBadge now d b :
  b ∈ awardBadge now d
  ↔ ∃ badge, badge ∈ getAllPossibleBadges ∧ b = earned now badge
             ∧ (Badge.id badge ∉ (EarnedBadge.id <$> SecureUserData.badges d))
             ∧ shouldAward now d (Badge.id badge) = true.
Proof.
  rewrite awardBadge_filter, list_elem_of_fmap. split.
  - intros (badge & -> & Hin). apply elem_of_List_filter in Hin as [Hin Hkeep].
    apply andb_true_iff in Hkeep as [Hnew Hshould].
    exists badge. split_and!; [done|done| |done].
    apply negb_true_iff, bool_decide_eq_false in Hnew. done.
  - intros (badge & Hin & -> & Hnew & Hshould). exists badge. split; [done|].
    apply elem_of_List_filter. split; [done|].
    apply andb_true_iff. split; [|done].
    by apply negb_true_iff, bool_decide_eq_false.
Qed.

Lemma awardBadge_ids now d :
  EarnedBadge.id <$> awardBadge now d
  = Badge.id
      <$> List.filter
            (λ badge,
               negb (bool_decide
                       (Badge.id badge ∈ (EarnedBadge.id <$> SecureUserData.badges d)))
               && shouldAward now d (Badge.id badge))
            getAllPossibleBadges.
Proof. rewrite awardBadge_filter, <- list_fmap_compose. done. Qed.

Lemma awardBadge_ids_sublist now d :
  sublist (EarnedBadge.id <$> awardBadge now d) (Badge.id <$> getAllPossibleBadges).
Proof. rewrite awardBadge_ids. apply fmap_sublist, filter_sublist. Qed.

Lemma awardBadge_ids_new now d id :
  id ∈ (EarnedBadge.id <$> awardBadge now d) →
  (id ∉ (EarnedBadge.id <$> SecureUserData.badges d)) ∧ shouldAward now d id = true.
Proof.
  rewrite list_elem_of_fmap. intros (b & -> & Hb).
  apply elem_of_awardBadge in Hb as (badge & _ & -> & Hnew & Hshould). done.
Qed.

Lemma awardBadge_keeps_NoDup now d :
  NoDup (EarnedBadge.id <$> SecureUserData.badges d) →
  NoDup (EarnedBadge.id <$> (SecureUserData.badges d ++ awardBadge now d)).
Proof.
  intros Hnd. rewrite fmap_app. apply NoDup_app. split_and!; [done| |].
  - intros id Hold Hnew. by apply awardBadge_ids_new in Hnew as [Hnew _].
  - eapply sublist_NoDup; [apply catalogue_NoDup|apply awardBadge_ids_sublist].
Qed.

Lemma shouldAward_withBadges now badges d id :
  shouldAward now (withBadges badges d) id = shouldAward now d id.
Proof. reflexivity. Qed.

(** A catalogue badge that is due and not yet held is awarded. *)
Lemma awardBadge_due now d badge :
  badge ∈ getAllPossibleBadges →
  shouldAward now d (Badge.id badge) = true →
  Badge.id badge ∈ (EarnedBadge.id <$> (SecureUserData.badges d ++ awardBadge now d)).
Proof.
  intros Hin Hshould. rewrite fmap_app, elem_of_app.
  destruct (decide (Badge.id badge ∈ (EarnedBadge.id <$> SecureUserData.badges d)))
    as [Hold|Hnew]; [by left|right].
  apply list_elem_of_fmap. exists (earned now badge). split; [done|].
  apply elem_of_awardBadge. by exists badge.
Qed.

Lemma awardBadge_again now d :
  awardBadge now (withBadges (SecureUserData.badges d ++ awardBadge now d) d) = [].
Proof.
  rewrite (awardBadge_filter now (withBadges _ d)).
  rewrite List_filter_nil; [done|].
  intros badge Hin. cbn [withBadges SecureUserData.badges].
  rewrite shouldAward_withBadges.
  destruct (shouldAward now d (Badge.id badge)) eqn:Hshould; [|by rewrite andb_false_r].
  rewrite andb_true_r. apply negb_false_iff, bool_decide_eq_true.
  by apply awardBadge_due.
Qed.

(** X24: [awardBadge] returns exactly the catalogue badges whose rule
    holds and whose id the user does not hold yet, each with the name and
    description of the catalogue and the clock reading as date, in the
    order of the catalogue. So no id is awarded twice, none that is held
    already, ids that were distinct stay distinct when the awards are
    added, and once the awards are added to the record a second call
    awards nothing. *)
Theorem awardBadge_sound (now : Z) (d : SecureUserData) :
  (∀ b, b ∈ awardBadge now d
        ↔ ∃ badge, badge ∈ getAllPossibleBadges
                   ∧ b = EarnedBadge.mk (Badge.id badge) (Badge.name badge)
                           (Badge.description badge) now
                   ∧ (Badge.id badge ∉ (EarnedBadge.id <$> SecureUserData.badges d))
                   ∧ shouldAward now d (Badge.id badge) = true)
  ∧ sublist (EarnedBadge.id <$> awardBadge now d) (Badge.id <$> getAllPossibleBadges)
  ∧ NoDup (EarnedBadge.id <$> awardBadge now d)
  ∧ (∀ b, b ∈ awardBadge now d →
          EarnedBadge.id b ∉ (EarnedBadge.id <$> SecureUserData.badges d))
  ∧ (NoDup (EarnedBadge.id <$> SecureUserData.badges d) →
       NoDup (EarnedBadge.id <$> (SecureUserData.badges d ++ awardBadge now d)))
  ∧ awardBadge now (withBadges (SecureUserData.badges d ++ awardBadge now d) d) = [].
Proof.
  split_and!.
  - intros b. apply elem_of_awardBadge.
  - apply awardBadge_ids_sublist.
  - eapply sublist_NoDup; [apply catalogue_NoDup|apply awardBadge_ids_sublist].
  - intros b Hb. apply (awardBadge_ids_new now d).
    apply list_elem_of_fmap. by exists b.
  - apply awardBadge_keeps_NoDup.
  - apply awardBadge_again.
Qed.

End Award.

Section Requirements.
Context `{Calendar}.

Lemma shouldAward_first_pomodoro now d :
  shouldAward now d "first_pomodoro" = (1 <=? SecureUserData.pomodorosCompleted d).
Proof. reflexivity. Qed.

Lemma shouldAward_forest_starter now d :
  shouldAward now d "forest_starter" = (10 <=? SecureUserData.trees d).
Proof. reflexivity. Qed.

Lemma shouldAward_tree_hugger now d :
  shouldAward now d "tree_hugger" = (50 <=? SecureUserData.trees d).
Proof. reflexivity. Qed.

Lemma shouldAward_forest_guardian now d :
  shouldAward now d "forest_guardian" = (100 <=? SecureUserData.trees d).
Proof. reflexivity. Qed.

Lemma shouldAward_pomodoro_master now d :
  shouldAward now d "pomodoro_master" = (500 <=? SecureUserData.pomodorosCompleted d).
Proof. reflexivity. Qed.

Lemma shouldAward_early_bird now d :
  shouldAward now d "early_bird"
  = existsb (λ session, getHours (StudySession.date session) <? 8)
      (SecureUserData.studySessions d).
Proof. reflexivity. Qed.

Lemma shouldAward_night_owl now d :
  shouldAward now d "night_owl"
  = existsb (λ session, 22 <=? getHours (StudySession.date session))
      (SecureUserData.studySessions d).
Proof. reflexivity. Qed.

Lemma shouldAward_consistency_champion now d :
  shouldAward now d "consistency_champion" = (7 <=? getStudyStreak now d).
Proof. reflexivity. Qed.

Lemma shouldAward_month_achiever now d :
  shouldAward now d "month_achiever" = (30 <=? getStudyStreak now d).
Proof. reflexivity. Qed.

Lemma shouldAward_weekend_warrior now d :
  shouldAward now d "weekend_warrior" = checkWeekendWarrior now d.
Proof. reflexivity. Qed.

Lemma shouldAward_study_marathon now d :
  shouldAward now d "study_marathon" = checkStudyMarathon d.
Proof. reflexivity. Qed.

Lemma shouldAward_deadline_dodger now d :
  shouldAward now d "deadline_dodger" = checkDeadlineDodger d.
Proof. reflexivity. Qed.

Lemma checkWeekendWarrior_sessions now d :
  checkWeekendWarrior now d = true → (1 ≤ length (SecureUserData.studySessions d))%nat.
Proof.
  unfold checkWeekendWarrior.
  destruct (list_find _ _) as [[? saturday]|]; [|done].
  destruct (list_find _ _) as [[? sunday]|]; [|done].
  intros [Hsat _]%andb_true_iff. by apply existsb_nonempty in Hsat.
Qed.

Lemma checkStudyMarathon_sessions d :
  checkStudyMarathon d = true → (10 ≤ length (SecureUserData.studySessions d))%nat.
Proof.
  unfold checkStudyMarathon. rewrite existsb_exists.
  intros (count & Hin & Hcount). apply list_elem_of_In in Hin.
  apply list_elem_of_fmap in Hin as ([day count'] & -> & Hin).
  apply elem_of_map_to_list in Hin. apply sessionsByDay_bound in Hin.
  cbn [snd] in Hcount. lia.
Qed.

Lemma checkDeadlineDodger_sessions d :
  checkDeadlineDodger d = true →
  (5 ≤ length (SecureUserData.studySessions d))%nat ∧ SecureUserData.exams d ≠ [].
Proof.
  unfold checkDeadlineDodger. rewrite existsb_exists.
  intros (exam & Hin & Hexam). split.
  - destruct (parseDate (Exam.date exam)) as [examDate|]; [|done].
    apply Nat.leb_le in Hexam. etrans; [exact Hexam|]. apply length_filter.
  - intros Hnil. rewrite Hnil in Hin. destruct Hin.
Qed.

Lemma catalogue_ids id :
  id ∈ (Badge.id <$> getAllPossibleBadges)
  ↔ id ∈ ["first_pomodoro"; "early_bird"; "night_owl"; "consistency_champion";
          "forest_starter"; "tree_hugger"; "forest_guardian"; "pomodoro_master";
          "deadline_dodger"; "weekend_warrior"; "study_marathon"; "month_achiever"].
Proof. reflexivity. Qed.

Lemma awarded_in_catalogue now d id :
  id ∈ (EarnedBadge.id <$> awardBadge now d) → id ∈ (Badge.id <$> getAllPossibleBadges).
Proof. intros Hid. eapply elem_of_sublist; [exact Hid|apply awardBadge_ids_sublist]. Qed.

Lemma awardBadge_due_id now d id :
  id ∈ (Badge.id <$> getAllPossibleBadges) →
  shouldAward now d id = true →
  id ∈ (EarnedBadge.id <$> (SecureUserData.badges d ++ awardBadge now d)).
Proof.
  intros (badge & -> & Hin)%list_elem_of_fmap. by apply awardBadge_due.
Qed.

Lemma shouldAward_sessions now d id :
  shouldAward now d id = true →
  (sessionsRequired id ≤ length (SecureUserData.studySessions d))%nat
  ∧ (id = "deadline_dodger" → SecureUserData.exams d ≠ []).
Proof.
  intros Hshould.
  destruct (decide (id ∈ (Badge.id <$> getAllPossibleBadges))) as [Hid|Hid].
  - apply catalogue_ids in Hid. apply list_elem_of_In in Hid. simpl in Hid.
    destruct Hid as [<-|[<-|[<-|[<-|[<-|[<-|[<-|[<-|[<-|[<-|[<-|[<-|[]]]]]]]]]]]]];
      (split; [|try discriminate]).
    + cbn. lia.
    + rewrite shouldAward_early_bird in Hshould. by apply existsb_nonempty in Hshould.
    + rewrite shouldAward_night_owl in Hshould. by apply existsb_nonempty in Hshould.
    + rewrite shouldAward_consistency_champion in Hshould.
      pose proof (getStudyStreak_bound now d). apply Z.leb_le in Hshould.
      change (sessionsRequired "consistency_champion") with 7%nat. lia.
    + cbn. lia.
    + cbn. lia.
    + cbn. lia.
    + cbn. lia.
    + rewrite shouldAward_deadline_dodger in Hshould.
      by apply checkDeadlineDodger_sessions in Hshould as [? _].
    + intros _. rewrite shouldAward_deadline_dodger in Hshould.
      by apply checkDeadlineDodger_sessions in Hshould as [_ ?].
    + rewrite shouldAward_weekend_warrior in Hshould.
      by apply checkWeekendWarrior_sessions in Hshould.
    + rewrite shouldAward_study_marathon in Hshould.
      by apply checkStudyMarathon_sessions in Hshould.
    + rewrite shouldAward_month_achiever in Hshould.
      pose proof (getStudyStreak_bound now d). apply Z.leb_le in Hshould.
      change (sessionsRequired "month_achiever") with 30%nat. lia.
  - exfalso. revert Hshould. unfold shouldAward.
    repeat match goal with
           | |- context [String.eqb id ?s] =>
             destruct (String.eqb_spec id s) as [->|_];
               [exfalso; apply Hid, catalogue_ids, list_elem_of_In; simpl; tauto|]
           end.
    done.
Qed.

End Requirements.

Section Requirements_theorem.
Context `{Calendar}.

(** X25: whatever the time zone, a badge is awarded only to a record
    with the study sessions its rule needs: one for the early bird, the
    night owl and the weekend warrior, 5 and an exam for the deadline
    dodger, 7 for the consistency champion, 10 for the study marathon and
    30 for the month achiever. So a record without sessions earns none
    but the badges that count pomodoros and trees. The counting badges come
    in order: when a higher one is awarded the lower one is held, awarded
    before or together with it. *)
Theorem awardBadge_requirements (now : Z) (d : SecureUserData) :
  let awarded id := id ∈ (EarnedBadge.id <$> awardBadge now d) in
  let held id := id ∈ (EarnedBadge.id <$> (SecureUserData.badges d ++ awardBadge now d)) in
  (∀ id, awarded id →
     (sessionsRequired id ≤ length (SecureUserData.studySessions d))%nat
     ∧ (id = "deadline_dodger" → SecureUserData.exams d ≠ []))
  ∧ (SecureUserData.studySessions d = [] → ∀ id, awarded id → id ∈ counterBadges)
  ∧ (awarded "forest_guardian" → held "tree_hugger")
  ∧ (awarded "tree_hugger" → held "forest_starter")
  ∧ (awarded "pomodoro_master" → held "first_pomodoro")
  ∧ (awarded "month_achiever" → held "consistency_champion").
Proof.
  intros awarded held. subst awarded held. cbv beta.
  assert (Hcat : ∀ id, id ∈ ["first_pomodoro"; "early_bird"; "night_owl";
                             "consistency_champion"; "forest_starter"; "tree_hugger";
                             "forest_guardian"; "pomodoro_master"; "deadline_dodger";
                             "weekend_warrior"; "study_marathon"; "month_achiever"] →
                       id ∈ (Badge.id <$> getAllPossibleBadges)).
  { intros id. apply catalogue_ids. }
  split_and!.
  - intros id Hid. apply awardBadge_ids_new in Hid as [_ Hshould].
    by apply (shouldAward_sessions now).
  - intros Hnone id Hid. pose proof (awarded_in_catalogue _ _ _ Hid) as Hcatalogue.
    apply awardBadge_ids_new in Hid as [_ Hshould].
    apply (shouldAward_sessions now) in Hshould as [Hneed _]. rewrite Hnone in Hneed.
    apply catalogue_ids, list_elem_of_In in Hcatalogue. simpl in Hcatalogue.
    destruct Hcatalogue as [<-|[<-|[<-|[<-|[<-|[<-|[<-|[<-|[<-|[<-|[<-|[<-|[]]]]]]]]]]]]];
      try (by vm_compute in Hneed; lia);
      apply list_elem_of_In; simpl; tauto.
  - intros Hid. apply awardBadge_ids_new in Hid as [_ Hshould].
    rewrite shouldAward_forest_guardian in Hshould. apply Z.leb_le in Hshould.
    apply awardBadge_due_id.
    + apply Hcat, list_elem_of_In. simpl. tauto.
    + rewrite shouldAward_tree_hugger. apply Z.leb_le. lia.
  - intros Hid. apply awardBadge_ids_new in Hid as [_ Hshould].
    rewrite shouldAward_tree_hugger in Hshould. apply Z.leb_le in Hshould.
    apply awardBadge_due_id.
    + apply Hcat, list_elem_of_In. simpl. tauto.
    + rewrite shouldAward_forest_starter. apply Z.leb_le. lia.
  - intros Hid. apply awardBadge_ids_new in Hid as [_ Hshould].
    rewrite shouldAward_pomodoro_master in Hshould. apply Z.leb_le in Hshould.
    apply awardBadge_due_id.
    + apply Hcat, list_elem_of_In. simpl. tauto.
    + rewrite shouldAward_first_pomodoro. apply Z.leb_le. lia.
  - intros Hid. apply awardBadge_ids_new in Hid as [_ Hshould].
    rewrite shouldAward_month_achiever in Hshould. apply Z.leb_le in Hshould.
    apply awardBadge_due_id.
    + apply Hcat, list_elem_of_In. simpl. tauto.
    + rewrite shouldAward_consistency_champion. apply Z.leb_le. lia.
Qed.

End Requirements_theorem.

(** ** The study timer *)

Section Timer_properties.
Context `{Platform} `{Calendar} `{Encoder}.

Lemma handleTimerComplete_focus now tok t st s :
  Timer.isBreak t = false →
  StudyTimer_handleTimerComplete now tok t st s
  = let d := focusCompleted now (Timer.focusTime t) (Timer.userData t) in
    let saved := saveSecureUserData now d tok s in
    ((Timer.mk (if saved.1 then d else Timer.userData t)
        ((if Z.rem (Timer.pomodoroCount t + 1) 4 =? 0
          then Timer.longBreakTime t else Timer.shortBreakTime t) * 60)
        false true (Timer.pomodoroCount t + 1) (Timer.showSettings t) (Timer.focusTime t)
        (Timer.shortBreakTime t) (Timer.longBreakTime t),
      if saved.1 then App_setUserData d st else st), saved.2).
Proof. intros Hb. unfold StudyTimer_handleTimerComplete. rewrite Hb. reflexivity. Qed.

Lemma handleTimerComplete_break now tok t st s :
  Timer.isBreak t = true →
  StudyTimer_handleTimerComplete now tok t st s
  = ((Timer.mk (Timer.userData t) (Timer.focusTime t * 60) false false
        (Timer.pomodoroCount t) (Timer.showSettings t) (Timer.focusTime t)
        (Timer.shortBreakTime t) (Timer.longBreakTime t), st), s).
Proof. intros Hb. unfold StudyTimer_handleTimerComplete. rewrite Hb. reflexivity. Qed.

(** What a save writes when access is granted and the record encodes,
    and reads back. *)
Lemma save_granted now d tok s :
  (hasDataAccess now tok (SecureUserData.studyId d) (auth s)).1 = true →
  encodes d = true →
  let r := saveSecureUserData now d tok s in
  r.1 = true
  ∧ pomogrow_data r.2 = <[getUserDataKey (SecureUserData.studyId d) := d]> (pomogrow_data s)
  ∧ pomogrow_session r.2 = pomogrow_session s
  ∧ loadSecureUserData now (SecureUserData.studyId d) tok r.2 = (Some d, r.2).
Proof.
  intros Ha Hencodes r. subst r. rewrite saveSecureUserData_run. cbn zeta. cbn [fst snd].
  rewrite Ha, Hencodes. cbn [andb pomogrow_data pomogrow_session].
  split_and!; [done|done|done|].
  rewrite loadSecureUserData_run. cbn zeta. cbn [auth pomogrow_data pomogrow_session].
  rewrite hasDataAccess_twice, Ha. cbn [fst snd]. by rewrite lookup_insert_eq.
Qed.

Lemma save_refused now d tok s :
  (hasDataAccess now tok (SecureUserData.studyId d) (auth s)).1 = false →
  let r := saveSecureUserData now d tok s in
  r.1 = false
  ∧ pomogrow_data r.2 = pomogrow_data s
  ∧ pomogrow_session r.2 = pomogrow_session s.
Proof.
  intros Ha r. subst r. rewrite saveSecureUserData_run. cbn zeta. cbn [fst snd].
  rewrite Ha. done.
Qed.

Lemma save_unencoded now d tok s :
  encodes d = false →
  let r := saveSecureUserData now d tok s in
  r.1 = false
  ∧ pomogrow_data r.2 = pomogrow_data s
  ∧ pomogrow_session r.2 = pomogrow_session s.
Proof.
  intros Hencodes r. subst r. rewrite saveSecureUserData_run. cbn zeta. cbn [fst snd].
  rewrite Hencodes, andb_false_r. done.
Qed.

Lemma save_is_call now d tok s :
  (saveSecureUserData now d tok s).2 = srun [SaveData now d tok] s.
Proof. reflexivity. Qed.

Lemma focusCompleted_held now focusTime d id :
  id ∈ (Badge.id <$> getAllPossibleBadges) →
  shouldAward now (focusCompleted now focusTime d) id = true →
  id ∈ (EarnedBadge.id <$> SecureUserData.badges (focusCompleted now focusTime d)).
Proof.
  intros Hid Hshould. unfold focusCompleted in *. cbv zeta in *.
  rewrite shouldAward_withBadges in Hshould.
  cbn [withBadges SecureUserData.badges].
  by apply (awardBadge_due_id now (SecureUserData.mk _ _ _ _ _ _ _ _ _ _ _ _ _ _) id).
Qed.

(** X26: a focus session that runs out with a token that opens the
    record builds the record with one pomodoro, one tree and one study
    session more and the badges this earns added behind the ones held.
    When this record encodes it is recorded: set in the component,
    passed to [App] and stored, where the next load reads it back.  When
    it does not encode, the save fails and nothing is recorded: the
    component, [App] and the data records keep what they had, though the
    timer counts the pomodoro and starts the break.  In the record
    built, badge ids that were distinct stay distinct, and each counting
    badge whose threshold the new counts reach is held. *)
Theorem timer_focus_recorded
    (now : Z) (sessionToken : string) (t : Timer.State) (st : App.State) (s : Storage) :
  Timer.isBreak t = false →
  (hasDataAccess now sessionToken (SecureUserData.studyId (Timer.userData t))
     (auth s)).1 = true →
  let d := Timer.userData t in
  let d' := focusCompleted now (Timer.focusTime t) d in
  let r := StudyTimer_handleTimerComplete now sessionToken t st s in
  let held id := id ∈ (EarnedBadge.id <$> SecureUserData.badges d') in
  (encodes d' = true →
     Timer.userData r.1.1 = d'
     ∧ App.userData r.1.2 = Some d'
     ∧ pomogrow_data r.2
       = <[getUserDataKey (SecureUserData.studyId d) := d']> (pomogrow_data s)
     ∧ loadSecureUserData now (SecureUserData.studyId d) sessionToken r.2 = (Some d', r.2))
  ∧ (encodes d' = false →
       Timer.userData r.1.1 = d
       ∧ r.1.2 = st
       ∧ pomogrow_data r.2 = pomogrow_data s
       ∧ Timer.pomodoroCount r.1.1 = Timer.pomodoroCount t + 1
       ∧ Timer.isBreak r.1.1 = true)
  ∧ SecureUserData.studyId d' = SecureUserData.studyId d
  ∧ SecureUserData.pomodorosCompleted d' = SecureUserData.pomodorosCompleted d + 1
  ∧ SecureUserData.trees d' = SecureUserData.trees d + 1
  ∧ SecureUserData.studySessions d'
    = SecureUserData.studySessions d
      ++ [StudySession.mk now (Timer.focusTime t) StudySession.focus]
  ∧ SecureUserData.exams d' = SecureUserData.exams d
  ∧ (∃ newBadges,
       SecureUserData.badges d' = SecureUserData.badges d ++ newBadges
       ∧ ∀ b, b ∈ newBadges →
              EarnedBadge.earnedDate b = now
              ∧ EarnedBadge.id b ∉ (EarnedBadge.id <$> SecureUserData.badges d))
  ∧ (NoDup (EarnedBadge.id <$> SecureUserData.badges d) →
       NoDup (EarnedBadge.id <$> SecureUserData.badges d'))
  ∧ (0 ≤ SecureUserData.pomodorosCompleted d → held "first_pomodoro")
  ∧ (499 ≤ SecureUserData.pomodorosCompleted d → held "pomodoro_master")
  ∧ (9 ≤ SecureUserData.trees d → held "forest_starter")
  ∧ (49 ≤ SecureUserData.trees d → held "tree_hugger")
  ∧ (99 ≤ SecureUserData.trees d → held "forest_guardian").
Proof.
  intros Hb Ha d d' r held. subst held r.
  rewrite (handleTimerComplete_focus _ _ _ _ _ Hb). cbv zeta. cbn [fst snd].
  fold d. fold d'.
  assert (Hid : SecureUserData.studyId d' = SecureUserData.studyId d) by reflexivity.
  change (SecureUserData.studyId (Timer.userData t)) with (SecureUserData.studyId d')
    in Ha.
  assert (Hcat : ∀ id, id ∈ ["first_pomodoro"; "pomodoro_master"; "forest_starter";
                             "tree_hugger"; "forest_guardian"] →
                       id ∈ (Badge.id <$> getAllPossibleBadges)).
  { intros id Hin. apply catalogue_ids. apply list_elem_of_In in Hin.
    apply list_elem_of_In. simpl in *. tauto. }
  refine (conj _ (conj _ _)).
  - intros Hencodes.
    destruct (save_granted now d' sessionToken s Ha Hencodes) as (Hok & Hdata & _ & Hload).
    rewrite Hok. cbn [Timer.userData App_setUserData App.userData].
    rewrite Hid in Hdata, Hload. done.
  - intros Hencodes.
    destruct (save_unencoded now d' sessionToken s Hencodes) as (Hno & Hdata & _).
    rewrite Hno. done.
  - split_and!; try done.
    + exists (awardBadge now
                (SecureUserData.mk
                   (SecureUserData.studyId d) (SecureUserData.loginId d)
                   (SecureUserData.displayName d) (SecureUserData.mood d)
                   (SecureUserData.joinDate d) (SecureUserData.pomodorosCompleted d + 1)
                   (SecureUserData.badges d) (SecureUserData.trees d + 1)
                   (SecureUserData.studySessions d
                      ++ [StudySession.mk now (Timer.focusTime t) StudySession.focus])
                   (SecureUserData.exams d) (SecureUserData.skipDays d)
                   (SecureUserData.lastActiveDate d) (SecureUserData.emotionEntries d)
                   (SecureUserData.timetable d))).
      split; [reflexivity|]. intros b Hb'.
      apply elem_of_awardBadge in Hb' as (badge & _ & -> & Hnew & _). done.
    + intros Hnd. unfold d', focusCompleted. cbv zeta.
      cbn [withBadges SecureUserData.badges].
      by apply (awardBadge_keeps_NoDup now (SecureUserData.mk _ _ _ _ _ _ _ _ _ _ _ _ _ _)).
    + intros Hc. apply focusCompleted_held; [apply Hcat, list_elem_of_In; simpl; tauto|].
      rewrite shouldAward_first_pomodoro. apply Z.leb_le. cbn. lia.
    + intros Hc. apply focusCompleted_held; [apply Hcat, list_elem_of_In; simpl; tauto|].
      rewrite shouldAward_pomodoro_master. apply Z.leb_le. cbn. lia.
    + intros Hc. apply focusCompleted_held; [apply Hcat, list_elem_of_In; simpl; tauto|].
      rewrite shouldAward_forest_starter. apply Z.leb_le. cbn. lia.
    + intros Hc. apply focusCompleted_held; [apply Hcat, list_elem_of_In; simpl; tauto|].
      rewrite shouldAward_tree_hugger. apply Z.leb_le. cbn. lia.
    + intros Hc. apply focusCompleted_held; [apply Hcat, list_elem_of_In; simpl; tauto|].
      rewrite shouldAward_forest_guardian. apply Z.leb_le. cbn. lia.
Qed.

(** X27: when the token does not open the record, a focus session that
    runs out is counted by the timer, which starts the break, but is not
    recorded: the record of the component, the state of [App] and every
    data record stay as they were. A break that runs out touches neither
    store nor record and sets the timer to the focus length. Either way
    the timer stops, the break is the long one exactly when the count of
    pomodoros reached is a multiple of 4, and the store changes as by at
    most one call of [saveSecureUserData]. *)
Theorem timer_unrecorded
    (now : Z) (sessionToken : string) (t : Timer.State) (st : App.State) (s : Storage) :
  let r := StudyTimer_handleTimerComplete now sessionToken t st s in
  (Timer.isBreak t = false →
   (hasDataAccess now sessionToken (SecureUserData.studyId (Timer.userData t))
      (auth s)).1 = false →
     Timer.userData r.1.1 = Timer.userData t
     ∧ r.1.2 = st
     ∧ pomogrow_data r.2 = pomogrow_data s
     ∧ pomogrow_session r.2 = pomogrow_session s
     ∧ Timer.pomodoroCount r.1.1 = Timer.pomodoroCount t + 1
     ∧ Timer.isBreak r.1.1 = true)
  ∧ (Timer.isBreak t = true →
       r.2 = s ∧ r.1.2 = st
       ∧ Timer.userData r.1.1 = Timer.userData t
       ∧ Timer.pomodoroCount r.1.1 = Timer.pomodoroCount t
       ∧ Timer.timeLeft r.1.1 = Timer.focusTime t * 60)
  ∧ (Timer.isBreak t = false →
       ((4 | Timer.pomodoroCount t + 1) →
          Timer.timeLeft r.1.1 = Timer.longBreakTime t * 60)
       ∧ (¬ (4 | Timer.pomodoroCount t + 1) →
            Timer.timeLeft r.1.1 = Timer.shortBreakTime t * 60))
  ∧ Timer.isActive r.1.1 = false
  ∧ Timer.isBreak r.1.1 = negb (Timer.isBreak t)
  ∧ Timer.focusTime r.1.1 = Timer.focusTime t
  ∧ Timer.shortBreakTime r.1.1 = Timer.shortBreakTime t
  ∧ Timer.longBreakTime r.1.1 = Timer.longBreakTime t
  ∧ ∃ cs, (length cs ≤ 1)%nat ∧ r.2 = srun cs s.
Proof.
  intros r. subst r. destruct (Timer.isBreak t) eqn:Hb.
  - rewrite (handleTimerComplete_break _ _ _ _ _ Hb). cbn [fst snd].
    split_and!; try done. exists []. split; [simpl; lia|done].
  - rewrite (handleTimerComplete_focus _ _ _ _ _ Hb). cbv zeta. cbn [fst snd].
    split_and!; try done.
    + intros _ Ha.
      destruct (save_refused now (focusCompleted now (Timer.focusTime t) (Timer.userData t))
                  sessionToken s Ha) as (Hno & Hdata & Hsess).
      rewrite Hno. done.
    + intros _. cbn [Timer.timeLeft].
      destruct (Z.rem (Timer.pomodoroCount t + 1) 4 =? 0) eqn:Hrem.
      * split; [done|]. intros Hdiv. destruct Hdiv.
        apply Z.eqb_eq in Hrem. apply Z.rem_divide; [lia|done].
      * split; [|done]. intros Hdiv. apply Z.rem_divide in Hdiv; [|lia].
        apply Z.eqb_neq in Hrem. done.
    + exists [SaveData now (focusCompleted now (Timer.focusTime t) (Timer.userData t))
                sessionToken].
      split; [simpl; lia|]. apply save_is_call.
Qed.

End Timer_properties.

(** ** The exam planner *)

Section Planner_properties.
Context `{Platform} `{Encoder}.

Lemma withExams_same d : withExams (SecureUserData.exams d) d = d.
Proof. by destruct d. Qed.

Lemma withExams_twice exams exams' d :
  withExams exams (withExams exams' d) = withExams exams d.
Proof. reflexivity. Qed.

Lemma filter_added_exam (exams : list Exam) (new : Exam) (examId : string) :
  Exam.id new = examId →
  (∀ e, e ∈ exams → Exam.id e ≠ examId) →
  filter (λ exam, Exam.id exam ≠ examId) (exams ++ [new]) = exams.
Proof.
  intros Hid Hfresh. rewrite filter_app, filter_cons_False, filter_nil, app_nil_r.
  - by apply filter_all.
  - intros Hne. by apply Hne.
Qed.

Lemma ids_after_edit (exams : list Exam) (editing new : Exam) :
  Exam.id new = Exam.id editing →
  Exam.id <$> ((λ exam, if String.eqb (Exam.id exam) (Exam.id editing) then new else exam)
                 <$> exams)
  = Exam.id <$> exams.
Proof.
  intros Hid. rewrite <- list_fmap_compose. apply list_fmap_ext. intros i exam _. simpl.
  destruct (String.eqb_spec (Exam.id exam) (Exam.id editing)) as [Heq|_]; [|done].
  by rewrite Hid.
Qed.

Lemma handleSubmit_run now tok p st s :
  ExamPlanner_handleSubmit now tok p st s
  = let new := examData now (Planner.editingExam p) (Planner.formData p) in
    let exams := SecureUserData.exams (Planner.userData p) in
    let d' :=
      withExams
        match Planner.editingExam p with
        | Some editing =>
          (λ exam, if String.eqb (Exam.id exam) (Exam.id editing) then new else exam)
            <$> exams
        | None => exams ++ [new]
        end (Planner.userData p) in
    let saved := saveSecureUserData now d' tok s in
    ((Planner.mk (if saved.1 then d' else Planner.userData p) false None Planner.emptyForm,
      if saved.1 then App_setUserData d' st else st), saved.2).
Proof.
  unfold ExamPlanner_handleSubmit, Planner_save.
  unfold mbind, SIO_bind, mret, SIO_ret. cbv zeta. cbn [fst snd].
  by destruct (saveSecureUserData _ _ _ _).1.
Qed.

Lemma handleDelete_run now tok examId p st s :
  ExamPlanner_handleDelete now tok examId p st s
  = let d' :=
      withExams
        (filter (λ exam, Exam.id exam ≠ examId) (SecureUserData.exams (Planner.userData p)))
        (Planner.userData p) in
    let saved := saveSecureUserData now d' tok s in
    ((Planner.mk (if saved.1 then d' else Planner.userData p) (Planner.showAddForm p)
        (Planner.editingExam p) (Planner.formData p),
      if saved.1 then App_setUserData d' st else st), saved.2).
Proof.
  unfold ExamPlanner_handleDelete, Planner_save.
  unfold mbind, SIO_bind, mret, SIO_ret. cbv zeta. cbn [fst snd].
  by destruct (saveSecureUserData _ _ _ _).1.
Qed.

Lemma examData_id now editing form :
  Exam.id editing ≠ "" → Exam.id (examData now (Some editing) form) = Exam.id editing.
Proof.
  intros Hid. unfold examData. cbn [Exam.id fmap option_fmap option_map truthy].
  by destruct (String.eqb_spec (Exam.id editing) "").
Qed.

Lemma examData_unchanged now (exam : Exam) location notes :
  Exam.id exam ≠ "" →
  Exam.location exam = Some location → Exam.notes exam = Some notes →
  examData now (Some exam)
    (Planner.mkForm (Exam.subject exam) (Exam.date exam) (Exam.time exam)
       (default "" (truthy (Exam.location exam))) (default "" (truthy (Exam.notes exam))))
  = exam.
Proof.
  intros Hid Hlocation Hnotes. destruct exam as [id subject date time ? ?].
  cbn [Exam.id Exam.location Exam.notes Exam.subject Exam.date Exam.time] in *.
  subst. unfold examData.
  cbn [fmap option_fmap option_map Exam.id Planner.subject Planner.date Planner.time
         Planner.location Planner.notes].
  rewrite (truthy_nonempty id Hid). cbn [default]. unfold truthy.
  by destruct (String.eqb_spec location ""), (String.eqb_spec notes ""); subst.
Qed.

Lemma edit_in_place (exams : list Exam) (exam : Exam) :
  NoDup (Exam.id <$> exams) → exam ∈ exams →
  (λ other, if String.eqb (Exam.id other) (Exam.id exam) then exam else other) <$> exams
  = exams.
Proof.
  intros Hdistinct Hin. rewrite <- (list_fmap_id exams) at 2.
  apply list_fmap_ext. intros i other Hother. unfold id.
  destruct (String.eqb_spec (Exam.id other) (Exam.id exam)) as [Heq|_]; [|done].
  symmetry. eapply (NoDup_fmap_unique Exam.id); [done| |done|done].
  by eapply list_elem_of_lookup_2.
Qed.

Lemma examData_editing now editing form :
  Exam.id editing ≠ "" →
  examData now (Some editing) form
  = Exam.mk (Exam.id editing) (Planner.subject form) (Planner.date form)
      (Planner.time form) (Some (Planner.location form)) (Some (Planner.notes form)).
Proof.
  intros Hid. unfold examData. cbn [fmap option_fmap option_map].
  by rewrite (truthy_nonempty _ Hid).
Qed.

(** X28: in the exam planner, with a token that opens the record, an
    exam submitted from the empty form state is added at the end of the
    list under the clock reading as id, in the component, in [App] and in
    the store, when the record with it encodes; deleting that id
    afterwards, when no other exam carries it, gives back the record as
    it was. An edited exam that is submitted replaces the exams carrying
    its id and changes neither the ids nor their order; opened for
    editing and submitted as it is, an exam with a location and notes
    leaves a record with distinct exam ids as it was. With a token that
    does not open the record, or a record that does not encode, submit
    and delete change no record. Either way the form is cleared after a
    submit, and the store changes as by at most one call of
    [saveSecureUserData]. *)
Theorem exam_planner
    (now : Z) (sessionToken : string) (p : Planner.State) (st : App.State) (s : Storage) :
  let d := Planner.userData p in
  let key := getUserDataKey (SecureUserData.studyId d) in
  let access t w := (hasDataAccess t sessionToken (SecureUserData.studyId d) w).1 in
  let form := Planner.formData p in
  let r := ExamPlanner_handleSubmit now sessionToken p st s in
  (access now (auth s) = true → Planner.editingExam p = None →
     let new := Exam.mk (show now) (Planner.subject form) (Planner.date form)
                  (Planner.time form) (Some (Planner.location form))
                  (Some (Planner.notes form)) in
     let d' := withExams (SecureUserData.exams d ++ [new]) d in
     (encodes d' = true →
        Planner.userData r.1.1 = d'
        ∧ App.userData r.1.2 = Some d'
        ∧ pomogrow_data r.2 = <[key := d']> (pomogrow_data s)
        ∧ ∀ now',
            access now' (auth r.2) = true →
            (∀ e, e ∈ SecureUserData.exams d → Exam.id e ≠ show now) →
            encodes d = true →
            let r' := ExamPlanner_handleDelete now' sessionToken (show now) r.1.1 r.1.2
                        r.2 in
            Planner.userData r'.1.1 = d
            ∧ App.userData r'.1.2 = Some d
            ∧ pomogrow_data r'.2 = <[key := d]> (pomogrow_data s))
     ∧ (encodes d' = false →
          Planner.userData r.1.1 = d ∧ r.1.2 = st
          ∧ pomogrow_data r.2 = pomogrow_data s))
  ∧ (∀ editing,
       access now (auth s) = true → Planner.editingExam p = Some editing →
       Exam.id editing ≠ "" →
       let new := Exam.mk (Exam.id editing) (Planner.subject form) (Planner.date form)
                    (Planner.time form) (Some (Planner.location form))
                    (Some (Planner.notes form)) in
       let d' :=
         withExams
           ((λ exam, if String.eqb (Exam.id exam) (Exam.id editing) then new else exam)
              <$> SecureUserData.exams d) d in
       Exam.id <$> SecureUserData.exams d' = Exam.id <$> SecureUserData.exams d
       ∧ (∀ e, e ∈ SecureUserData.exams d' → e ∈ SecureUserData.exams d ∨ e = new)
       ∧ (encodes d' = true →
            Planner.userData r.1.1 = d'
            ∧ App.userData r.1.2 = Some d'
            ∧ pomogrow_data r.2 = <[key := d']> (pomogrow_data s))
       ∧ (encodes d' = false →
            Planner.userData r.1.1 = d ∧ r.1.2 = st
            ∧ pomogrow_data r.2 = pomogrow_data s))
  ∧ (∀ exam location notes,
       access now (auth s) = true →
       exam ∈ SecureUserData.exams d → NoDup (Exam.id <$> SecureUserData.exams d) →
       Exam.id exam ≠ "" →
       Exam.location exam = Some location → Exam.notes exam = Some notes →
       encodes d = true →
       let r' := ExamPlanner_handleSubmit now sessionToken (ExamPlanner_handleEdit exam p)
                   st s in
       Planner.userData r'.1.1 = d
       ∧ pomogrow_data r'.2 = <[key := d]> (pomogrow_data s))
  ∧ (∀ examId,
       let d' :=
         withExams (filter (λ exam, Exam.id exam ≠ examId) (SecureUserData.exams d)) d in
       let r' := ExamPlanner_handleDelete now sessionToken examId p st s in
       (access now (auth s) = true → encodes d' = true →
          Planner.userData r'.1.1 = d'
          ∧ App.userData r'.1.2 = Some d'
          ∧ pomogrow_data r'.2 = <[key := d']> (pomogrow_data s))
       ∧ (access now (auth s) = false ∨ encodes d' = false →
            Planner.userData r'.1.1 = d ∧ r'.1.2 = st
            ∧ pomogrow_data r'.2 = pomogrow_data s)
       ∧ ∃ cs, (length cs ≤ 1)%nat ∧ r'.2 = srun cs s)
  ∧ (access now (auth s) = false →
       Planner.userData r.1.1 = d ∧ r.1.2 = st ∧ pomogrow_data r.2 = pomogrow_data s)
  ∧ Planner.formData r.1.1 = Planner.emptyForm
  ∧ Planner.showAddForm r.1.1 = false
  ∧ Planner.editingExam r.1.1 = None
  ∧ ∃ cs, (length cs ≤ 1)%nat ∧ r.2 = srun cs s.
Proof.
  intros d key access form r. subst r access key. cbv beta.
  rewrite handleSubmit_run. cbv zeta. cbn [fst snd]. fold d form.
  assert (Hsaved : ∀ now' (d' : SecureUserData) s',
    SecureUserData.studyId d' = SecureUserData.studyId d →
    (hasDataAccess now' sessionToken (SecureUserData.studyId d) (auth s')).1 = true →
    encodes d' = true →
    (saveSecureUserData now' d' sessionToken s').1 = true
    ∧ pomogrow_data (saveSecureUserData now' d' sessionToken s').2
      = <[getUserDataKey (SecureUserData.studyId d) := d']> (pomogrow_data s')).
  { intros now' d' s' Hid Ha Hencodes. rewrite <- Hid in Ha |- *.
    by destruct (save_granted now' d' sessionToken s' Ha Hencodes) as (? & ? & _). }
  assert (Hunsaved : ∀ now' (d' : SecureUserData) s',
    SecureUserData.studyId d' = SecureUserData.studyId d →
    (hasDataAccess now' sessionToken (SecureUserData.studyId d) (auth s')).1 = false
    ∨ encodes d' = false →
    (saveSecureUserData now' d' sessionToken s').1 = false
    ∧ pomogrow_data (saveSecureUserData now' d' sessionToken s').2 = pomogrow_data s').
  { intros now' d' s' Hid [Ha|Hencodes].
    - rewrite <- Hid in Ha.
      by destruct (save_refused now' d' sessionToken s' Ha) as (? & ? & _).
    - by destruct (save_unencoded now' d' sessionToken s' Hencodes) as (? & ? & _). }
  refine (conj _ (conj _ (conj _ (conj _ (conj _ (conj _ (conj _ (conj _ _)))))))).
  - intros Ha Hnone. rewrite Hnone.
    change (examData now None form)
      with (Exam.mk (show now) (Planner.subject form) (Planner.date form)
              (Planner.time form) (Some (Planner.location form))
              (Some (Planner.notes form))).
    set (new := Exam.mk _ _ _ _ _ _). set (d' := withExams _ d). split.
    + intros Hencodes.
      destruct (Hsaved now d' s eq_refl Ha Hencodes) as (Hok & Hdata).
      rewrite Hok. cbn [fst snd Planner.userData App_setUserData App.userData].
      split_and!; [done|done|done|].
      intros now' Ha' Hfresh Hencodes'. rewrite handleDelete_run. cbv zeta.
      cbn [fst snd Planner.userData].
      assert (Hback : withExams
                        (filter (λ exam, Exam.id exam ≠ show now)
                           (SecureUserData.exams d')) d' = d).
      { unfold d'. cbn [withExams SecureUserData.exams]. rewrite withExams_twice.
        rewrite (filter_added_exam (SecureUserData.exams d) new (show now) eq_refl
                   Hfresh).
        apply withExams_same. }
      rewrite Hback.
      destruct (Hsaved now' d _ eq_refl Ha' Hencodes') as (Hok' & Hdata').
      rewrite Hok'. cbn [App_setUserData App.userData].
      split_and!; [done|done|]. rewrite Hdata', Hdata. apply insert_insert_eq.
    + intros Hencodes.
      destruct (Hunsaved now d' s eq_refl (or_intror Hencodes)) as (Hno & Hdata).
      rewrite Hno. done.
  - intros editing Ha Hsome Hid. rewrite Hsome.
    rewrite (examData_editing now editing form Hid).
    set (new := Exam.mk _ _ _ _ _ _). set (d' := withExams _ d).
    split_and!.
    + unfold d'. cbn [withExams SecureUserData.exams]. by apply ids_after_edit.
    + intros e He. unfold d' in He. cbn [withExams SecureUserData.exams] in He.
      apply list_elem_of_fmap in He as (e0 & -> & He0).
      destruct (String.eqb (Exam.id e0) (Exam.id editing)); [by right|by left].
    + intros Hencodes.
      destruct (Hsaved now d' s eq_refl Ha Hencodes) as (Hok & Hdata).
      rewrite Hok. done.
    + intros Hencodes.
      destruct (Hunsaved now d' s eq_refl (or_intror Hencodes)) as (Hno & Hdata).
      rewrite Hno. done.
  - intros exam location notes Ha Hin Hdistinct Hid Hlocation Hnotes Hencodes.
    rewrite handleSubmit_run. cbv zeta.
    cbn [fst snd ExamPlanner_handleEdit Planner.userData Planner.editingExam
           Planner.formData]. fold d.
    rewrite (examData_unchanged now exam location notes Hid Hlocation Hnotes).
    rewrite (edit_in_place _ exam Hdistinct Hin), withExams_same.
    destruct (Hsaved now d s eq_refl Ha Hencodes) as (Hok & Hdata).
    rewrite Hok. done.
  - intros examId. rewrite handleDelete_run. cbv zeta. cbn [fst snd]. fold d.
    set (d' := withExams _ d).
    split_and!.
    + intros Ha Hencodes.
      destruct (Hsaved now d' s eq_refl Ha Hencodes) as (Hok & Hdata).
      rewrite Hok. done.
    + intros Hnot.
      destruct (Hunsaved now d' s eq_refl Hnot) as (Hno & Hdata).
      rewrite Hno. done.
    + exists [SaveData now d' sessionToken]. split; [simpl; lia|]. apply save_is_call.
  - intros Ha. set (d' := withExams _ d).
    destruct (Hunsaved now d' s eq_refl (or_introl Ha)) as (Hno & Hdata).
    rewrite Hno. done.
  - done.
  - done.
  - done.
  - eexists [SaveData now _ sessionToken]. split; [simpl; lia|]. apply save_is_call.
Qed.

End Planner_properties.

(** ** The forms of the login screen *)

Section Form_properties.
Context `{Platform} `{Encoder}.

Lemma chooseStudyId_nonempty customStudyId uuid : chooseStudyId customStudyId uuid ≠ "".
Proof.
  unfold chooseStudyId, generateStudyId.
  destruct customStudyId as [c|]; [|done].
  by destruct (String.eqb_spec c "").
Qed.

Lemma shown_error_nonempty (fallback : string) (e : option string) :
  fallback ≠ "" → default fallback (truthy e) ≠ "".
Proof.
  intros Hne. destruct e as [e|]; [|done]. unfold truthy.
  by destruct (String.eqb_spec e "").
Qed.

Lemma resetPassword_failure now salt email tok pw w :
  Result.success (resetPassword now salt email tok pw w).1 = false →
  (resetPassword now salt email tok pw w).2 = w.
Proof. reset_cases now salt email tok pw w; done. Qed.

Lemma handleRegister_run now uuid salt a s :
  let form := AuthScreen.formData a in
  AuthScreen.password form = AuthScreen.confirmPassword form →
  AuthScreen_handleRegister now uuid salt a s
  = let reg := registerUser now uuid salt (AuthScreen.email form)
                 (AuthScreen.password form) (AuthScreen.preferredName form)
                 (truthy (Some (AuthScreen.customStudyId form))) (auth s) in
    (if Result.success reg.1
     then AuthScreen.mk AuthScreen.login (AuthScreen.showPassword a) false ""
            ("Registration successful! Your Study ID is: "
             +:+ default "undefined" (Result.studyId reg.1))
            (AuthScreen.mkForm (default "" (truthy (Result.studyId reg.1)))
               (AuthScreen.customStudyId form) (AuthScreen.email form) "" ""
               (AuthScreen.preferredName form) (AuthScreen.resetToken form))
     else AuthScreen.mk (AuthScreen.mode a) (AuthScreen.showPassword a) false
            (default "Registration failed" (truthy (Result.error reg.1)))
            (AuthScreen.success a) form,
     mkStorage reg.2 (pomogrow_data s) (pomogrow_session s)).
Proof.
  intros form Heq. unfold AuthScreen_handleRegister. fold form.
  rewrite (proj2 (String.eqb_eq _ _) Heq). cbn [negb].
  unfold mbind, SIO_bind, mret, SIO_ret, liftIO. cbv zeta. cbn [fst snd].
  by destruct (Result.success _).
Qed.

Lemma handleResetPassword_run now salt a s :
  let form := AuthScreen.formData a in
  AuthScreen.password form = AuthScreen.confirmPassword form →
  AuthScreen_handleResetPassword now salt a s
  = let res := resetPassword now salt (AuthScreen.email form)
                 (AuthScreen.resetToken form) (AuthScreen.password form) (auth s) in
    (if Result.success res.1
     then AuthScreen.mk AuthScreen.login (AuthScreen.showPassword a) false ""
            "Password reset successful! You can now log in with your new password."
            (AuthScreen.mkForm (AuthScreen.studyIdOrEmail form)
               (AuthScreen.customStudyId form) (AuthScreen.email form) "" ""
               (AuthScreen.preferredName form) "")
     else AuthScreen.mk (AuthScreen.mode a) (AuthScreen.showPassword a) false
            (default "Password reset failed" (truthy (Result.error res.1)))
            (AuthScreen.success a) form,
     mkStorage res.2 (pomogrow_data s) (pomogrow_session s)).
Proof.
  intros form Heq. unfold AuthScreen_handleResetPassword. fold form.
  rewrite (proj2 (String.eqb_eq _ _) Heq). cbn [negb].
  unfold mbind, SIO_bind, mret, SIO_ret, liftIO. cbv zeta. cbn [fst snd].
  by destruct (Result.success _).
Qed.

Lemma handleForgotPassword_run now uuid a s :
  let form := AuthScreen.formData a in
  AuthScreen_handleForgotPassword now uuid a s
  = let ini := initiatePasswordReset now uuid (AuthScreen.email form) (auth s) in
    (if Result.success ini.1
     then AuthScreen.mk AuthScreen.reset (AuthScreen.showPassword a) false ""
            "If this email is registered, you will receive password reset instructions."
            form
     else AuthScreen.mk (AuthScreen.mode a) (AuthScreen.showPassword a) false
            (default "Password reset failed" (truthy (Result.error ini.1)))
            (AuthScreen.success a) form,
     mkStorage ini.2 (pomogrow_data s) (pomogrow_session s)).
Proof.
  intros form. unfold AuthScreen_handleForgotPassword. fold form.
  unfold mbind, SIO_bind, mret, SIO_ret, liftIO. cbv zeta. cbn [fst snd].
  by destruct (Result.success _).
Qed.

Lemma storage_eta s : mkStorage (auth s) (pomogrow_data s) (pomogrow_session s) = s.
Proof. by destruct s. Qed.

(** X29: the register and reset forms refuse, without a call of the
    authentication module and with the store as it was, when the password
    and its confirmation differ. Otherwise they pass the fields to
    [registerUser] and [resetPassword]: on success the screen goes to the
    login form with the password fields cleared, and after a registration
    with the new study ID filled in and shown; on failure the screen and
    the form stay, an error that is not empty is shown and the store is
    as it was. The forgot form shows, for every address [validateEmail]
    accepts, the same notice and the reset form, whether the address is
    registered or not, and the error of [initiatePasswordReset] for every
    other. No form touches a data record or the kept token, and each
    changes the store as by at most one call of the module. *)
Theorem auth_forms (now : Z) (uuid salt : string) (a : AuthScreen.State) (s : Storage) :
  let form := AuthScreen.formData a in
  let refused message :=
    AuthScreen.mk (AuthScreen.mode a) (AuthScreen.showPassword a) false message
      (AuthScreen.success a) form in
  let customStudyId := truthy (Some (AuthScreen.customStudyId form)) in
  let reg := registerUser now uuid salt (AuthScreen.email form) (AuthScreen.password form)
               (AuthScreen.preferredName form) customStudyId (auth s) in
  let res := resetPassword now salt (AuthScreen.email form) (AuthScreen.resetToken form)
               (AuthScreen.password form) (auth s) in
  let r1 := AuthScreen_handleRegister now uuid salt a s in
  let r2 := AuthScreen_handleForgotPassword now uuid a s in
  let r3 := AuthScreen_handleResetPassword now salt a s in
  (AuthScreen.password form ≠ AuthScreen.confirmPassword form →
     r1 = (refused "Passwords do not match", s)
     ∧ r3 = (refused "Passwords do not match", s))
  ∧ (AuthScreen.password form = AuthScreen.confirmPassword form →
       (Result.success reg.1 = true →
          let studyId := chooseStudyId customStudyId uuid in
          r1 = (AuthScreen.mk AuthScreen.login (AuthScreen.showPassword a) false ""
                  ("Registration successful! Your Study ID is: " +:+ studyId)
                  (AuthScreen.mkForm studyId (AuthScreen.customStudyId form)
                     (AuthScreen.email form) "" "" (AuthScreen.preferredName form)
                     (AuthScreen.resetToken form)),
                mkStorage reg.2 (pomogrow_data s) (pomogrow_session s)))
       ∧ (Result.success reg.1 = false →
            ∃ message, message ≠ "" ∧ r1 = (refused message, s))
       ∧ (Result.success res.1 = true →
            r3 = (AuthScreen.mk AuthScreen.login (AuthScreen.showPassword a) false ""
                    "Password reset successful! You can now log in with your new password."
                    (AuthScreen.mkForm (AuthScreen.studyIdOrEmail form)
                       (AuthScreen.customStudyId form) (AuthScreen.email form) "" ""
                       (AuthScreen.preferredName form) ""),
                  mkStorage res.2 (pomogrow_data s) (pomogrow_session s)))
       ∧ (Result.success res.1 = false →
            ∃ message, message ≠ "" ∧ r3 = (refused message, s)))
  ∧ (validateEmail (sanitizeInput (toLowerCase (AuthScreen.email form))) = true →
       r2.1 = AuthScreen.mk AuthScreen.reset (AuthScreen.showPassword a) false ""
                "If this email is registered, you will receive password reset instructions."
                form)
  ∧ (validateEmail (sanitizeInput (toLowerCase (AuthScreen.email form))) = false →
       r2 = (refused "Please enter a valid Gmail address", s))
  ∧ (∀ now' uuid' s', (AuthScreen_handleForgotPassword now' uuid' a s').1 = r2.1)
  ∧ (pomogrow_data r1.2 = pomogrow_data s ∧ pomogrow_session r1.2 = pomogrow_session s)
  ∧ (pomogrow_data r2.2 = pomogrow_data s ∧ pomogrow_session r2.2 = pomogrow_session s)
  ∧ (pomogrow_data r3.2 = pomogrow_data s ∧ pomogrow_session r3.2 = pomogrow_session s)
  ∧ (∃ cs, (length cs ≤ 1)%nat ∧ r1.2 = srun cs s)
  ∧ (∃ cs, (length cs ≤ 1)%nat ∧ r2.2 = srun cs s)
  ∧ (∃ cs, (length cs ≤ 1)%nat ∧ r3.2 = srun cs s).
Proof.
  intros form refused customStudyId reg res r1 r2 r3. subst r1 r2 r3.
  assert (Hmismatch : AuthScreen.password form ≠ AuthScreen.confirmPassword form →
            AuthScreen_handleRegister now uuid salt a s
            = (refused "Passwords do not match", s)
            ∧ AuthScreen_handleResetPassword now salt a s
              = (refused "Passwords do not match", s)).
  { intros Hne. unfold AuthScreen_handleRegister, AuthScreen_handleResetPassword.
    fold form. rewrite (proj2 (String.eqb_neq _ _) Hne). done. }
  assert (Hforgot : ∀ now' uuid' s',
            (AuthScreen_handleForgotPassword now' uuid' a s').1
            = if validateEmail (sanitizeInput (toLowerCase (AuthScreen.email form)))
              then AuthScreen.mk AuthScreen.reset (AuthScreen.showPassword a) false ""
                     "If this email is registered, you will receive password reset instructions."
                     form
              else refused "Please enter a valid Gmail address").
  { intros now' uuid' s'. rewrite handleForgotPassword_run. cbv zeta. cbn [fst]. fold form.
    initiate_cases now' uuid' (AuthScreen.email form) (auth s'); done. }
  assert (Hreg : AuthScreen.password form = AuthScreen.confirmPassword form →
            AuthScreen_handleRegister now uuid salt a s
            = (if Result.success reg.1
               then AuthScreen.mk AuthScreen.login (AuthScreen.showPassword a) false ""
                      ("Registration successful! Your Study ID is: "
                       +:+ default "undefined" (Result.studyId reg.1))
                      (AuthScreen.mkForm (default "" (truthy (Result.studyId reg.1)))
                         (AuthScreen.customStudyId form) (AuthScreen.email form) "" ""
                         (AuthScreen.preferredName form) (AuthScreen.resetToken form))
               else refused (default "Registration failed" (truthy (Result.error reg.1))),
               mkStorage reg.2 (pomogrow_data s) (pomogrow_session s))).
  { intros Heq. by rewrite (handleRegister_run now uuid salt a s Heq). }
  assert (Hres : AuthScreen.password form = AuthScreen.confirmPassword form →
            AuthScreen_handleResetPassword now salt a s
            = (if Result.success res.1
               then AuthScreen.mk AuthScreen.login (AuthScreen.showPassword a) false ""
                      "Password reset successful! You can now log in with your new password."
                      (AuthScreen.mkForm (AuthScreen.studyIdOrEmail form)
                         (AuthScreen.customStudyId form) (AuthScreen.email form) "" ""
                         (AuthScreen.preferredName form) "")
               else refused (default "Password reset failed"
                               (truthy (Result.error res.1))),
               mkStorage res.2 (pomogrow_data s) (pomogrow_session s))).
  { intros Heq. by rewrite (handleResetPassword_run now salt a s Heq). }
  assert (Hini : AuthScreen_handleForgotPassword now uuid a s
            = ((AuthScreen_handleForgotPassword now uuid a s).1,
               mkStorage
                 (initiatePasswordReset now uuid (AuthScreen.email form) (auth s)).2
                 (pomogrow_data s) (pomogrow_session s))).
  { by rewrite handleForgotPassword_run. }
  refine (conj _ (conj _ (conj _ (conj _ (conj _ (conj _ (conj _ (conj _ (conj _
            (conj _ _)))))))))).
  - exact Hmismatch.
  - intros Heq. rewrite (Hreg Heq), (Hres Heq).
    destruct (registerUser_outcome now uuid salt (AuthScreen.email form)
                (AuthScreen.password form) (AuthScreen.preferredName form)
                customStudyId (auth s)) as (_ & Hok & Hfail).
    fold reg in Hok, Hfail.
    split_and!.
    + intros Hs studyId. specialize (Hok Hs) as (Hr & _).
      rewrite Hs, Hr. cbn [Result.studyId default]. subst studyId.
      rewrite (truthy_nonempty _ (chooseStudyId_nonempty customStudyId uuid)). done.
    + intros Hs. specialize (Hfail Hs) as (Hw & _).
      eexists. split; [|rewrite Hs, Hw, storage_eta; reflexivity].
      by apply shown_error_nonempty.
    + intros Hs. by rewrite Hs.
    + intros Hs. pose proof (resetPassword_failure _ _ _ _ _ _ Hs) as Hw. fold res in Hw.
      eexists. split; [|rewrite Hs, Hw, storage_eta; reflexivity].
      by apply shown_error_nonempty.
  - intros Hv. rewrite (Hforgot now uuid s), Hv. done.
  - intros Hv. rewrite Hini, (Hforgot now uuid s), Hv.
    rewrite (initiatePasswordReset_invalid now uuid (AuthScreen.email form) (auth s) Hv).
    cbn [snd]. by rewrite storage_eta.
  - intros now' uuid' s'. by rewrite (Hforgot now' uuid' s'), (Hforgot now uuid s).
  - destruct (decide (AuthScreen.password form = AuthScreen.confirmPassword form))
      as [Heq|Hne].
    + by rewrite (Hreg Heq).
    + by rewrite (proj1 (Hmismatch Hne)).
  - by rewrite Hini.
  - destruct (decide (AuthScreen.password form = AuthScreen.confirmPassword form))
      as [Heq|Hne].
    + by rewrite (Hres Heq).
    + by rewrite (proj2 (Hmismatch Hne)).
  - destruct (decide (AuthScreen.password form = AuthScreen.confirmPassword form))
      as [Heq|Hne].
    + exists [AuthCall (Register now uuid salt (AuthScreen.email form)
                          (AuthScreen.password form) (AuthScreen.preferredName form)
                          customStudyId)].
      split; [simpl; lia|]. by rewrite (Hreg Heq).
    + exists []. split; [simpl; lia|]. by rewrite (proj1 (Hmismatch Hne)).
  - exists [AuthCall (InitiatePasswordReset now uuid (AuthScreen.email form))].
    split; [simpl; lia|]. by rewrite Hini.
  - destruct (decide (AuthScreen.password form = AuthScreen.confirmPassword form))
      as [Heq|Hne].
    + exists [AuthCall (ResetPassword now salt (AuthScreen.email form)
                          (AuthScreen.resetToken form) (AuthScreen.password form))].
      split; [simpl; lia|]. by rewrite (Hres Heq).
    + exists []. split; [simpl; lia|]. by rewrite (proj2 (Hmismatch Hne)).
Qed.

End Form_properties.

(** ** Who an identifier belongs to *)

Section First_come.
Context `{Platform}.

Lemma list_find_run ident w i u cs :
  list_find (login_key ident) (pomogrow_users w) = Some (i, u) →
  ∃ u', list_find (login_key ident) (pomogrow_users (run cs w)) = Some (i, u')
        ∧ same_identity u u'.
Proof.
  intros (Hi & Hkey & Hfirst)%list_find_Some.
  destruct (run_keeps_accounts cs w i u Hi) as (u' & Hi' & Hsame).
  exists u'. split; [|done]. apply list_find_Some. split_and!; [done| |].
  - destruct Hsame as (-> & -> & _). done.
  - intros j y' Hj Hlt Hkey'.
    destruct (lookup_lt_is_Some_2 (pomogrow_users w) j) as [y Hy].
    { apply lookup_lt_Some in Hi. lia. }
    destruct (run_keeps_accounts cs w j y Hy) as (y'' & Hj' & Hsame').
    rewrite Hj in Hj'. injection Hj' as <-. destruct Hsame' as (Hid & Hmail & _).
    apply (Hfirst j y Hy Hlt). by rewrite <- Hid, <- Hmail.
Qed.

(** X30: an identifier belongs to the first record it matches, for
    good. Once the lower-cased study ID or email of a record is what the
    identifier sanitises to, and no earlier record matches, every later
    login with this identifier is decided against that record, whatever
    was registered or called in between: only that record can be returned
    or changed, and a session is issued to no other user. A record
    registered later whose study ID or email gives the same key is never
    reached with it. *)
Theorem login_identifier_first_come
    (ident : string) (w : World) (i : nat) (u : User) (cs : list Call)
    (now : Z) (uuid password : string) :
  list_find (login_key ident) (pomogrow_users w) = Some (i, u) →
  let w' := run cs w in
  let r := loginUser now uuid ident password w' in
  (∃ u', list_find (login_key ident) (pomogrow_users w') = Some (i, u')
         ∧ same_identity u u')
  ∧ (∀ x, Result.user r.1 = Some x →
          User.studyId x = User.studyId u ∧ User.email x = User.email u
          ∧ pomogrow_users r.2 !! i = Some x)
  ∧ (∀ j, j ≠ i → pomogrow_users r.2 !! j = pomogrow_users w' !! j)
  ∧ (∀ session, session ∈ pomogrow_sessions r.2 →
       session ∈ pomogrow_sessions w'
       ∨ AuthSession.studyId session = User.studyId u).
Proof.
  intros Hfind w' r. subst r.
  destruct (list_find_run ident w i u cs Hfind) as (u' & Hfind' & Hsame).
  fold w' in Hfind'. split; [by exists u'|].
  destruct Hsame as (Hid & Hmail & _).
  pose proof (proj1 (list_find_Some _ _ _ _) Hfind') as (Hi & _).
  login_cases now uuid ident password w';
    try (injection Hfind' as <- <-);
    cbn [fst snd Result.user Result.failure pomogrow_users pomogrow_sessions].
  - split_and!; [done|done|by left].
  - split_and!.
    + intros x [= <-]. cbn [User.studyId User.email User.set_lastLogin
        User.set_lockedUntil User.set_failedAttempts].
      split_and!; [done|done|]. by eapply list_lookup_insert_found.
    + intros j Hj. by rewrite list_lookup_insert_ne.
    + intros session [Hold|Hnew]%elem_of_app.
      * left. by apply list_elem_of_filter in Hold as [_ ?].
      * right. apply list_elem_of_singleton in Hnew as ->. done.
  - cbv zeta. destruct (MAX_FAILED_ATTEMPTS <=? _);
      cbn [pomogrow_users pomogrow_sessions];
      (split_and!; [done|intros j Hj; by rewrite list_lookup_insert_ne|by left]).
  - done.
Qed.

End First_come.

(** ** The further properties on the sample stores *)

Section Account_samples.
#[local] Existing Instance Reference.platform.

Lemma two_users_reachable : reachable Sample.two_users.
Proof.
  exists [Register 1000 "u1" "s1" "ana@gmail.com" "Abcdef1!" "Ana" None;
          Register 2000 "u2" "s2" "bob@gmail.com" "Qwerty9?" "Bob" None;
          Login 5000 "token-a" "ana@gmail.com" "Abcdef1!";
          Login 6000 "token-b" "bob@gmail.com" "Qwerty9?"].
  reflexivity.
Defined.

Lemma registered_reachable : reachable Sample.registered.
Proof.
  exists [Register 1000 "u1" "s1" "ana@gmail.com" "Abcdef1!" "Ana" None]. reflexivity.
Defined.

Lemma registered_users_unique_witness :
  unique_users (pomogrow_users Sample.two_users).
Proof. exact (proj1 (registered_users_unique Sample.two_users two_users_reachable)). Defined.

Lemma registered_users_well_formed_witness :
  endsWith (User.email Sample.ana) "@gmail.com" = true.
Proof.
  apply (registered_users_well_formed Sample.registered Sample.ana registered_reachable).
  apply list_elem_of_here.
Defined.

Lemma sessions_have_owners_witness :
  ∃ u, validateSession 7000 "token-a" Sample.two_users = (Some u, Sample.two_users)
       ∧ User.email u = "ana@gmail.com".
Proof.
  destruct (sessions_have_owners Sample.two_users two_users_reachable) as [_ Hlive].
  destruct (Hlive 7000 "token-a" 0%nat
              (AuthSession.mk "STUDY-u1" "ana@gmail.com" "token-a" 86405000))
    as (u & Hu & _ & _ & Hmail); [reflexivity|simpl; lia|].
  exists u. split; [exact Hu|exact Hmail].
Defined.

Lemma accounts_persist_witness :
  ∃ u', pomogrow_users
          (call (Login 9000 "k" "ana@gmail.com" "wrong") Sample.registered) !! 0%nat
        = Some u'
        ∧ User.email u' = "ana@gmail.com".
Proof.
  destruct accounts_persist as (Hcall & _ & _).
  destruct (Hcall (Login 9000 "k" "ana@gmail.com" "wrong") Sample.registered 0%nat
              Sample.ana) as (u' & Hu' & (_ & Hmail & _) & _); [reflexivity|].
  exists u'. split; [exact Hu'|exact Hmail].
Defined.

Lemma registerUser_success_iff_witness :
  Result.success
    (registerUser 2000 "u2" "s2" "Bob@Gmail.com" "Qwerty9?" " Bob " None
       Sample.registered).1 = true
  ∧ (registerUser 2000 "u2" "s2" "bob@gmail.com" "Qwerty9?" "B" None Sample.registered).2
    = Sample.registered.
Proof.
  split.
  - apply (proj1 (registerUser_success_iff 2000 "u2" "s2" "Bob@Gmail.com" "Qwerty9?"
                    " Bob " None Sample.registered)).
    split_and!; [reflexivity|reflexivity|simpl; lia| |].
    + intros u Hu. apply list_elem_of_In in Hu. simpl in Hu.
      destruct Hu as [<-|[]]. discriminate.
    + intros u Hu. apply list_elem_of_In in Hu. simpl in Hu.
      destruct Hu as [<-|[]]. discriminate.
  - apply (proj2 (proj2 (registerUser_success_iff 2000 "u2" "s2" "bob@gmail.com"
                           "Qwerty9?" "B" None Sample.registered))).
    reflexivity.
Defined.

Lemma registerUser_twice_witness :
  let w1 := (registerUser 1000 "u1" "s1" "ana@gmail.com" "Abcdef1!" "Ana" None
               empty_world).2 in
  let w2 := run [Login 2000 "k1" "ana@gmail.com" "bad1"] w1 in
  Result.success
    (registerUser 3000 "u9" "s9" " ANA@gmail.com" "Zyxwvu9!" "Anna" (Some "mine") w2).1
  = false.
Proof.
  intros w1 w2. subst w2 w1.
  apply (registerUser_twice 1000 "u1" "s1" "ana@gmail.com" "Abcdef1!" "Ana" None
           empty_world [Login 2000 "k1" "ana@gmail.com" "bad1"]
           3000 "u9" "s9" " ANA@gmail.com" "Zyxwvu9!" "Anna" (Some "mine"));
    reflexivity.
Defined.

Lemma logout_revokes_witness :
  let w' := (logout "token-a" Sample.two_users).2 in
  validateSession 7000 "token-a" w' = (None, w')
  ∧ (validateSession 7000 "token-b" w').1
    = (validateSession 7000 "token-b" Sample.two_users).1
  ∧ pomogrow_sessions (logout "token-z" Sample.two_users).2
    = pomogrow_sessions Sample.two_users.
Proof.
  intros w'. subst w'.
  destruct (logout_revokes "token-a" Sample.two_users)
    as (_ & _ & _ & Hgone & _ & Hother & _).
  destruct (logout_revokes "token-z" Sample.two_users)
    as (_ & _ & _ & _ & _ & _ & _ & Hnone).
  split_and!.
  - apply Hgone.
  - apply Hother. discriminate.
  - apply Hnone. intros s Hs. apply list_elem_of_In in Hs. simpl in Hs.
    destruct Hs as [<-|[<-|[]]]; discriminate.
Defined.

Lemma validateSession_settles_witness :
  (validateSession 7000 "token-a"
     (validateSession 86405001 "token-a" Sample.two_users).2).1 = None.
Proof.
  apply (proj2 (validateSession_settles 86405001 "token-a" Sample.two_users)).
  reflexivity.
Defined.

Lemma loginUser_success_iff_witness :
  Result.success (loginUser 9000 "k" "ana@gmail.com" "Abcdef1!" Sample.registered).1 = true
  ∧ pomogrow_sessions (loginUser 9000 "k" "ana@gmail.com" "wrong" Sample.registered).2
    = pomogrow_sessions Sample.registered.
Proof.
  split.
  - apply (proj1 (loginUser_success_iff 9000 "k" "ana@gmail.com" "Abcdef1!"
                    Sample.registered)).
    exists 0%nat, Sample.ana. split_and!; reflexivity.
  - apply (proj2 (loginUser_success_iff 9000 "k" "ana@gmail.com" "wrong"
                    Sample.registered)).
    reflexivity.
Defined.

Lemma login_token_validates_witness :
  let r := loginUser 9000 "k" "ana@gmail.com" "Abcdef1!" Sample.registered in
  (hasDataAccess 9500 "k" "STUDY-u1" r.2).1 = true
  ∧ (hasDataAccess 9500 "k" "STUDY-u2" r.2).1 = false
  ∧ (validateSession 86409001 "k" r.2).1 = None.
Proof.
  intros r. subst r.
  destruct (login_token_validates 9000 "k" "ana@gmail.com" "Abcdef1!" Sample.registered
              0%nat Sample.ana registered_reachable eq_refl eq_refl eq_refl)
    as (_ & _ & Hlive & Hdead).
  { intros s Hs. apply list_elem_of_In in Hs. simpl in Hs. destruct Hs. }
  destruct (Hlive 9500) as (_ & Hown & Hother); [lia|].
  destruct (Hdead 86409001) as (Hnone & _); [lia|].
  split_and!; [exact Hown|apply Hother; discriminate|exact Hnone].
Defined.

Lemma reset_ticket_lifetime_witness :
  let w1 := (initiatePasswordReset 7000 "r1" "ana@gmail.com" Sample.registered).2 in
  (resetPassword 3607000 "s9" "ana@gmail.com" "r1" "Zyxwvu9!" w1).1 = Result.ok
  ∧ resetPassword 3607001 "s9" "ana@gmail.com" "r1" "Zyxwvu9!" w1
    = (Result.failure msg_invalid_token, w1)
  ∧ (let w2 := (initiatePasswordReset 8000 "r2" "ana@gmail.com" w1).2 in
     resetPassword 9000 "s9" "ana@gmail.com" "r1" "Zyxwvu9!" w2
     = (Result.failure msg_invalid_token, w2)).
Proof.
  intros w1. subst w1.
  assert (Hv : validateEmail (sanitizeInput (toLowerCase "ana@gmail.com")) = true)
    by reflexivity.
  assert (Hf : list_find (email_key "ana@gmail.com") (pomogrow_users Sample.registered)
               = Some (0%nat, Sample.ana)) by reflexivity.
  destruct (reset_ticket_lifetime 7000 "r1" "ana@gmail.com" Sample.registered 0%nat
              Sample.ana Hv Hf) as (Hgood & Hbad & Hreplaced).
  split_and!.
  - apply (Hgood 3607000 "s9" "Zyxwvu9!"); [reflexivity|lia].
  - apply (Hbad 3607001 "s9" "Zyxwvu9!" "r1"); [reflexivity|left; lia].
  - apply (Hreplaced 8000 "r2" 9000 "s9" "Zyxwvu9!"); [discriminate|reflexivity].
Defined.

Lemma reset_unlocks_account_witness :
  let locked := run [Login 2000 "k1" "ana@gmail.com" "bad1";
                     Login 3000 "k2" "ana@gmail.com" "bad2";
                     Login 4000 "k3" "ana@gmail.com" "bad3";
                     InitiatePasswordReset 5000 "r1" "ana@gmail.com"] Sample.registered in
  let w1 := (resetPassword 6000 "s9" "ana@gmail.com" "r1" "Zyxwvu9!" locked).2 in
  (loginUser 6500 "k4" "ana@gmail.com" "Zyxwvu9!" locked).1
  = locked_response 6500 1804000
  ∧ Result.success (loginUser 6500 "k4" "ana@gmail.com" "Zyxwvu9!" w1).1 = true.
Proof.
  intros locked w1. subst w1 locked. split; [reflexivity|].
  eapply (reset_unlocks_account 6000 "s9" "ana@gmail.com" "r1" "Zyxwvu9!" "ana@gmail.com"
            _ 0%nat); reflexivity.
Defined.

End Account_samples.

Section Storage_samples.
#[local] Existing Instance Reference.platform.
#[local] Existing Instance ReferenceEncoder.strict.

Lemma app_two_users_reachable : sreachable SampleApp.two_users.
Proof.
  exists [AuthCall (Register 1000 "u1" "s1" "ana@gmail.com" "Abcdef1!" "Ana" None);
          AuthCall (Register 2000 "u2" "s2" "bob@gmail.com" "Qwerty9?" "Bob" None);
          UiLogin 5000 "token-a" "ana@gmail.com" "Abcdef1!" App.initial;
          UiLogin 6000 "token-b" "bob@gmail.com" "Qwerty9?" App.initial].
  reflexivity.
Defined.

Lemma app_registered_reachable : sreachable SampleApp.registered.
Proof.
  exists [AuthCall (Register 1000 "u1" "s1" "ana@gmail.com" "Abcdef1!" "Ana" None);
          AuthCall (Register 2000 "u2" "s2" "bob@gmail.com" "Qwerty9?" "Bob" None)].
  reflexivity.
Defined.

Lemma data_isolation_witness :
  pomogrow_data (scall (SaveData 7000 SampleApp.forged "token-a") SampleApp.two_users)
    !! getUserDataKey "STUDY-u2"
  = pomogrow_data SampleApp.two_users !! getUserDataKey "STUDY-u2"
  ∧ pomogrow_data (scall (DeleteData 7000 "STUDY-u2" "token-a") SampleApp.two_users)
      !! getUserDataKey "STUDY-u2"
    = pomogrow_data SampleApp.two_users !! getUserDataKey "STUDY-u2".
Proof.
  split.
  - apply (data_isolation (SaveData 7000 SampleApp.forged "token-a") SampleApp.two_users
             "STUDY-u2").
    intros u Hu. vm_compute in Hu. injection Hu as <-. discriminate.
  - apply (data_isolation (DeleteData 7000 "STUDY-u2" "token-a") SampleApp.two_users
             "STUDY-u2").
    intros u Hu. vm_compute in Hu. injection Hu as <-. discriminate.
Defined.

Lemma stored_data_invariants_witness :
  ∃ u, u ∈ pomogrow_users (auth SampleApp.two_users) ∧ User.studyId u = "STUDY-u1".
Proof.
  destruct (stored_data_invariants SampleApp.two_users app_two_users_reachable)
    as (_ & _ & Howned).
  apply (Howned (getUserDataKey "STUDY-u1") SampleApp.ana_data). reflexivity.
Defined.

Lemma save_then_load_witness :
  let r := saveSecureUserData 7000 SampleApp.grown "token-a" SampleApp.two_users in
  loadSecureUserData 7000 "STUDY-u1" "token-a" r.2 = (Some SampleApp.grown, r.2)
  ∧ (saveSecureUserData 7000 SampleApp.forged "token-a" SampleApp.two_users).1 = false
  ∧ (saveSecureUserData 7000 SampleApp.renamed "token-a" SampleApp.two_users).1 = false.
Proof.
  intros r. subst r.
  destruct (save_then_load 7000 SampleApp.grown "token-a" SampleApp.two_users)
    as (_ & _ & _ & Hload).
  destruct (save_then_load 7000 SampleApp.forged "token-a" SampleApp.two_users)
    as (Hiff & _).
  destruct (save_then_load 7000 SampleApp.renamed "token-a" SampleApp.two_users)
    as (_ & _ & Hwide & _).
  split_and!.
  - apply Hload. vm_compute. reflexivity.
  - apply not_true_iff_false. intros Hsaved.
    apply Hiff in Hsaved as [(u & Hu & Hid) _].
    vm_compute in Hu. injection Hu as <-. vm_compute in Hid. discriminate.
  - apply Hwide. vm_compute. reflexivity.
Defined.

Lemma load_guard_witness :
  (loadSecureUserData 7000 "STUDY-u2" "token-a" SampleApp.two_users).1 = None
  ∧ (loadSecureUserData 86405001 "STUDY-u1" "token-a" SampleApp.two_users).1 = None.
Proof.
  split.
  - apply (load_guard 7000 "STUDY-u2" "token-a" SampleApp.two_users).
    intros u Hu. vm_compute in Hu. injection Hu as <-. discriminate.
  - apply (load_guard 86405001 "STUDY-u1" "token-a" SampleApp.two_users).
    intros u Hu. vm_compute in Hu. discriminate.
Defined.

Lemma delete_then_load_witness :
  let r := deleteUserData 7000 "STUDY-u1" "token-a" SampleApp.two_users in
  pomogrow_data r.2 !! getUserDataKey "STUDY-u1" = None
  ∧ pomogrow_data r.2 !! getUserDataKey "STUDY-u2"
    = pomogrow_data SampleApp.two_users !! getUserDataKey "STUDY-u2"
  ∧ (loadSecureUserData 8000 "STUDY-u1" "token-a" r.2).1 = None.
Proof.
  intros r. subst r.
  destruct (delete_then_load 7000 "STUDY-u1" "token-a" SampleApp.two_users)
    as (_ & _ & Hdel).
  destruct Hdel as (Hgone & Hother & Hload); [reflexivity|].
  split_and!; [exact Hgone|apply Hother; discriminate|apply Hload].
Defined.

Lemma update_cannot_rebind_witness :
  (updateSecureUserData 7000 "STUDY-u1" "token-a" SampleApp.rebind
     SampleApp.two_users).1 = None
  ∧ (updateSecureUserData 7000 "STUDY-u1" "token-a" SampleApp.grow
       SampleApp.two_users).1 = Some SampleApp.grown
  ∧ (updateSecureUserData 7000 "STUDY-u1" "token-a" SampleApp.rename
       SampleApp.two_users).1 = None.
Proof.
  destruct (update_cannot_rebind 7000 "STUDY-u1" "token-a" SampleApp.rebind
              SampleApp.two_users)
    as (Hrebind & _).
  destruct (update_cannot_rebind 7000 "STUDY-u1" "token-a" SampleApp.grow
              SampleApp.two_users)
    as (_ & _ & Hgrow & _).
  destruct (update_cannot_rebind 7000 "STUDY-u1" "token-a" SampleApp.rename
              SampleApp.two_users)
    as (_ & _ & _ & Hrename).
  split_and!.
  - apply (Hrebind "STUDY-u2"); [reflexivity|discriminate].
  - apply (Hgrow SampleApp.ana_data).
    + apply (sreachable_invariants _ app_two_users_reachable).
    + left. reflexivity.
    + reflexivity.
    + vm_compute. reflexivity.
  - apply (Hrename SampleApp.ana_data); [reflexivity|vm_compute; reflexivity].
Defined.

Lemma append_operations_witness :
  let wide := EmotionEntry.mk "e2" "2024-01-02" EmotionEntry.tired 3 (Some "zmęczony")
                true in
  (addStudySession 7000 "STUDY-u1" "token-a" SampleApp.one_session SampleApp.two_users).1 = true
  ∧ (addEmotionEntry 7000 "STUDY-u1" "token-a" SampleApp.one_emotion SampleApp.two_users).1 = true
  ∧ (addTimetableEntry 7000 "STUDY-u2" "token-a" SampleApp.one_slot
       SampleApp.two_users).1 = false
  ∧ (addEmotionEntry 7000 "STUDY-u1" "token-a" wide SampleApp.two_users).1 = false.
Proof.
  intros wide.
  destruct (append_operations 7000 "STUDY-u1" "token-a" SampleApp.two_users
              SampleApp.one_session SampleApp.one_emotion SampleApp.one_slot
              (proj1 (proj2 (sreachable_invariants _ app_two_users_reachable))))
    as (_ & Hsome).
  destruct (append_operations 7000 "STUDY-u2" "token-a" SampleApp.two_users
              SampleApp.one_session SampleApp.one_emotion SampleApp.one_slot
              (proj1 (proj2 (sreachable_invariants _ app_two_users_reachable))))
    as (Hnone & _).
  destruct (append_operations 7000 "STUDY-u1" "token-a" SampleApp.two_users
              SampleApp.one_session wide SampleApp.one_slot
              (proj1 (proj2 (sreachable_invariants _ app_two_users_reachable))))
    as (_ & Hwide).
  destruct (Hsome SampleApp.ana_data) as (H1 & _ & H2 & _); [reflexivity|].
  destruct Hnone as (_ & _ & _ & _ & H3 & _); [reflexivity|].
  destruct (Hwide SampleApp.ana_data) as (_ & _ & H4 & _); [reflexivity|].
  split_and!; [exact H1|exact H2|exact H3|exact H4].
Defined.

Lemma logout_closes_data_witness :
  let s1 := (liftIO (logout "token-a") SampleApp.two_users).2 in
  loadSecureUserData 7000 "STUDY-u1" "token-a" s1 = (None, s1)
  ∧ deleteUserData 7000 "STUDY-u1" "token-a" s1 = (false, s1).
Proof.
  intros s1. subst s1.
  destruct (logout_closes_data "token-a" SampleApp.two_users 7000 "STUDY-u1"
              SampleApp.ana_data Updates.none SampleApp.one_session
              SampleApp.one_emotion SampleApp.one_slot)
    as (_ & Hload & _ & _ & _ & _ & Hdel).
  split; [exact Hload|exact Hdel].
Defined.

Lemma ui_login_then_reload_witness :
  let r := AuthScreen_handleLogin 9000 "token-c" "ana@gmail.com" "Abcdef1!" App.initial
             SampleApp.two_users in
  let s' := srun [AuthCall (Register 1000 "u1" "s1" "lukasz@gmail.com" "Abcdef1!"
                              "Łukasz" None)]
              empty_storage in
  let r' := AuthScreen_handleLogin 9000 "token-c" "lukasz@gmail.com" "Abcdef1!"
              App.initial s' in
  r.1 = (None, App.mk App.dashboard (Some SampleApp.ana_data) (Some "token-c") true)
  ∧ App_mount 9500 App.initial r.2
    = (App.mk App.dashboard (Some SampleApp.ana_data) (Some "token-c") false, r.2)
  ∧ pomogrow_session (App_mount 86409001 App.initial r.2).2 = None
  ∧ pomogrow_data r'.2 = ∅
  ∧ SecureUserData.lastActiveDate <$> App.userData (App_mount 9500 App.initial r'.2).1
    = Some 9500.
Proof.
  intros r s' r'. subst r r'.
  assert (Hf : list_find (login_key "ana@gmail.com")
                 (pomogrow_users (auth SampleApp.two_users))
               = Some (0%nat, SampleApp.ana)) by reflexivity.
  assert (Hl : is_locked 9000 SampleApp.ana = false) by reflexivity.
  assert (Hp : bcrypt_compare "Abcdef1!" (User.passwordHash SampleApp.ana) = true)
    by reflexivity.
  destruct (ui_login_then_reload 9000 "token-c" "ana@gmail.com" "Abcdef1!" App.initial
              SampleApp.two_users 0%nat SampleApp.ana app_two_users_reachable Hf Hl Hp)
    as (Hres & _ & Hlive & _ & Hdead).
  { intros x Hx. apply list_elem_of_In in Hx. vm_compute in Hx.
    destruct Hx as [<-|[<-|[]]]; discriminate. }
  { discriminate. }
  set (u := default SampleApp.ana (head (pomogrow_users (auth s')))).
  assert (Hf' : list_find (login_key "lukasz@gmail.com") (pomogrow_users (auth s'))
                = Some (0%nat, u)) by (vm_compute; reflexivity).
  assert (Hl' : is_locked 9000 u = false) by (vm_compute; reflexivity).
  assert (Hp' : bcrypt_compare "Abcdef1!" (User.passwordHash u) = true)
    by (vm_compute; reflexivity).
  assert (Hs' : sreachable s') by (by eexists).
  destruct (ui_login_then_reload 9000 "token-c" "lukasz@gmail.com" "Abcdef1!" App.initial
              s' 0%nat u Hs' Hf' Hl' Hp')
    as (_ & _ & _ & Hwide & _).
  { intros x Hx. apply list_elem_of_In in Hx. vm_compute in Hx. destruct Hx. }
  { discriminate. }
  destruct Hwide as (Hdata & Hmount);
    [vm_compute; reflexivity|vm_compute; reflexivity|].
  split_and!.
  - refine (eq_trans Hres _). vm_compute. reflexivity.
  - destruct Hlive as (_ & Hlive); [left; by eexists|].
    apply (Hlive 9500 App.initial). lia.
  - apply (Hdead 86409001 App.initial). lia.
  - exact Hdata.
  - rewrite (Hmount 9500 App.initial) by lia. reflexivity.
Defined.

Lemma ui_logout_witness :
  let st := App.mk App.dashboard (Some SampleApp.ana_data) (Some "token-a") false in
  let r := App_handleLogout st SampleApp.two_users in
  r.1 = App.mk App.login None None false
  ∧ pomogrow_session r.2 = None
  ∧ resolves 7000 "token-a" (auth r.2) = None.
Proof.
  intros st r. subst r.
  destruct (ui_logout st SampleApp.two_users "token-a") as (Hst & Hs & _ & _ & Hres & _);
    [reflexivity|discriminate|].
  split_and!; [exact Hst|exact Hs|apply Hres].
Defined.

Lemma ui_login_failure_witness :
  let r := AuthScreen_handleLogin 9000 "token-c" "ana@gmail.com" "wrong" App.initial
             SampleApp.two_users in
  r.1.2 = App.initial
  ∧ pomogrow_session r.2 = Some "token-b"
  ∧ pomogrow_session (App_mount 86406001 App.initial SampleApp.two_users).2 = None.
Proof.
  intros r. subst r.
  destruct (ui_login_failure 9000 "token-c" "ana@gmail.com" "wrong" App.initial
              SampleApp.two_users) as (Hfail & _).
  destruct (ui_login_failure 86406001 "token-c" "ana@gmail.com" "wrong" App.initial
              SampleApp.two_users) as (_ & Hstale).
  destruct Hfail as (Hst & Hs & _); [reflexivity|].
  destruct (Hstale "token-b" App.initial) as (_ & Hgone & _);
    [reflexivity|discriminate|reflexivity|].
  split_and!; [exact Hst|exact Hs|exact Hgone].
Defined.

End Storage_samples.

Section Component_samples.
#[local] Existing Instance Reference.platform.
#[local] Existing Instance ReferenceCalendar.utc.
#[local] Existing Instance ReferenceEncoder.strict.

Lemma awardBadge_sound_witness :
  NoDup (EarnedBadge.id
           <$> (SecureUserData.badges SampleUi.hundred_trees
                ++ awardBadge 7000 SampleUi.hundred_trees))
  ∧ awardBadge 7000
      (withBadges
         (SecureUserData.badges SampleUi.hundred_trees
          ++ awardBadge 7000 SampleUi.hundred_trees)
         SampleUi.hundred_trees) = [].
Proof.
  destruct (awardBadge_sound 7000 SampleUi.hundred_trees)
    as (_ & _ & _ & _ & Hdistinct & Hagain).
  split; [apply Hdistinct; apply NoDup_nil_2|exact Hagain].
Defined.

Lemma awardBadge_requirements_witness :
  "tree_hugger"
  ∈ (EarnedBadge.id
       <$> (SecureUserData.badges SampleUi.hundred_trees
            ++ awardBadge 7000 SampleUi.hundred_trees)).
Proof.
  destruct (awardBadge_requirements 7000 SampleUi.hundred_trees)
    as (_ & _ & Hguardian & _).
  apply Hguardian. apply list_elem_of_In. vm_compute.
  repeat (first [left; reflexivity|right]).
Defined.

Lemma timer_focus_recorded_witness :
  let r := StudyTimer_handleTimerComplete 7000 "token-a" SampleUi.timer App.initial
             SampleApp.two_users in
  let r' := StudyTimer_handleTimerComplete 7000 "token-a"
              (Timer.initial SampleApp.renamed) App.initial SampleApp.two_users in
  SecureUserData.pomodorosCompleted (Timer.userData r.1.1) = 1
  ∧ "first_pomodoro" ∈ (EarnedBadge.id <$> SecureUserData.badges (Timer.userData r.1.1))
  ∧ loadSecureUserData 7000 "STUDY-u1" "token-a" r.2 = (Some (Timer.userData r.1.1), r.2)
  ∧ Timer.userData r'.1.1 = SampleApp.renamed
  ∧ pomogrow_data r'.2 = pomogrow_data SampleApp.two_users.
Proof.
  intros r r'. subst r r'.
  assert (Hbreak : Timer.isBreak SampleUi.timer = false) by reflexivity.
  assert (Haccess : (hasDataAccess 7000 "token-a"
                       (SecureUserData.studyId (Timer.userData SampleUi.timer))
                       (auth SampleApp.two_users)).1 = true) by (vm_compute; reflexivity).
  assert (Hbreak' : Timer.isBreak (Timer.initial SampleApp.renamed) = false)
    by reflexivity.
  assert (Haccess' : (hasDataAccess 7000 "token-a"
                        (SecureUserData.studyId
                           (Timer.userData (Timer.initial SampleApp.renamed)))
                        (auth SampleApp.two_users)).1 = true)
    by (vm_compute; reflexivity).
  destruct (timer_focus_recorded 7000 "token-a" SampleUi.timer App.initial
              SampleApp.two_users Hbreak Haccess)
    as (Hsaved & _ & _ & Hcount & _ & _ & _ & _ & _ & Hfirst & _).
  destruct (timer_focus_recorded 7000 "token-a" (Timer.initial SampleApp.renamed)
              App.initial SampleApp.two_users Hbreak' Haccess')
    as (_ & Hunsaved & _).
  destruct Hsaved as (Hdata & _ & _ & Hload); [vm_compute; reflexivity|].
  destruct Hunsaved as (Hdata' & _ & Hstore' & _); [vm_compute; reflexivity|].
  rewrite Hdata.
  split_and!; [exact Hcount| |exact Hload|exact Hdata'|exact Hstore'].
  apply Hfirst. vm_compute. discriminate.
Defined.

Lemma timer_unrecorded_witness :
  let r := StudyTimer_handleTimerComplete 7000 "token-z" SampleUi.timer App.initial
             SampleApp.two_users in
  Timer.userData r.1.1 = SampleApp.ana_data
  ∧ Timer.pomodoroCount r.1.1 = 1
  ∧ pomogrow_data r.2 = pomogrow_data SampleApp.two_users.
Proof.
  intros r. subst r.
  assert (Hbreak : Timer.isBreak SampleUi.timer = false) by reflexivity.
  assert (Haccess : (hasDataAccess 7000 "token-z"
                       (SecureUserData.studyId (Timer.userData SampleUi.timer))
                       (auth SampleApp.two_users)).1 = false) by (vm_compute; reflexivity).
  destruct (timer_unrecorded 7000 "token-z" SampleUi.timer App.initial
              SampleApp.two_users) as (Hrefused & _).
  destruct (Hrefused Hbreak Haccess) as (Hkept & _ & Hdata & _ & Hcount & _).
  split_and!; [exact Hkept|exact Hcount|exact Hdata].
Defined.

Lemma exam_planner_witness :
  let r := ExamPlanner_handleSubmit 7000 "token-a" SampleUi.planner App.initial
             SampleApp.two_users in
  let r' := ExamPlanner_handleDelete 8000 "token-a" "7000" r.1.1 r.1.2 r.2 in
  let wide := Planner.mk SampleApp.ana_data true None
                (Planner.mkForm "Język polski" "19805" "09:00" "Hall 2" "") in
  let r'' := ExamPlanner_handleSubmit 7000 "token-a" wide App.initial
               SampleApp.two_users in
  (Exam.id <$> SecureUserData.exams (Planner.userData r.1.1)) = ["7000"]
  ∧ Planner.userData r'.1.1 = SampleApp.ana_data
  ∧ Planner.userData r''.1.1 = SampleApp.ana_data
  ∧ pomogrow_data r''.2 = pomogrow_data SampleApp.two_users.
Proof.
  intros r r' wide r''. subst r' r r''.
  assert (Haccess : (hasDataAccess 7000 "token-a"
                       (SecureUserData.studyId (Planner.userData SampleUi.planner))
                       (auth SampleApp.two_users)).1 = true) by (vm_compute; reflexivity).
  assert (Haccess' : (hasDataAccess 7000 "token-a"
                        (SecureUserData.studyId (Planner.userData wide))
                        (auth SampleApp.two_users)).1 = true) by (vm_compute; reflexivity).
  destruct (exam_planner 7000 "token-a" SampleUi.planner App.initial SampleApp.two_users)
    as (Hadd & _).
  destruct (exam_planner 7000 "token-a" wide App.initial SampleApp.two_users)
    as (Hwide & _).
  destruct (Hadd Haccess eq_refl) as (Hsaved & _).
  destruct (Hwide Haccess' eq_refl) as (_ & Hunsaved).
  destruct Hsaved as (Hnew & _ & _ & Hdelete); [vm_compute; reflexivity|].
  destruct Hunsaved as (Hkept & _ & Hstore); [vm_compute; reflexivity|].
  split_and!.
  - rewrite Hnew. reflexivity.
  - apply (Hdelete 8000).
    + vm_compute. reflexivity.
    + intros e He. vm_compute in He. inversion He.
    + vm_compute. reflexivity.
  - exact Hkept.
  - exact Hstore.
Defined.

Lemma auth_forms_witness :
  AuthScreen_handleRegister 3000 "u3" "s3" SampleUi.mistyped SampleApp.registered
  = (AuthScreen.mk AuthScreen.register false false "Passwords do not match" ""
       (AuthScreen.formData SampleUi.mistyped), SampleApp.registered)
  ∧ AuthScreen.studyIdOrEmail
      (AuthScreen.formData
         (AuthScreen_handleRegister 3000 "u3" "s3" SampleUi.carol SampleApp.registered).1)
    = "STUDY-u3".
Proof.
  destruct (auth_forms 3000 "u3" "s3" SampleUi.mistyped SampleApp.registered)
    as (Hmismatch & _).
  destruct (auth_forms 3000 "u3" "s3" SampleUi.carol SampleApp.registered)
    as (_ & Hmatch & _).
  split.
  - apply Hmismatch. discriminate.
  - destruct (Hmatch eq_refl) as (Hregistered & _).
    rewrite Hregistered; [reflexivity|]. vm_compute. reflexivity.
Defined.

Lemma login_identifier_first_come_witness :
  (∃ u', list_find (login_key "TEAM")
           (pomogrow_users (run [SampleUi.register_bob] SampleUi.team))
         = Some (0%nat, u')
         ∧ same_identity SampleUi.team_ana u')
  ∧ length (pomogrow_users (run [SampleUi.register_bob] SampleUi.team)) = 2%nat
  ∧ Result.success
      (loginUser 3000 "k" "TEAM" "Qwerty9?" (run [SampleUi.register_bob] SampleUi.team)).1
    = false.
Proof.
  assert (Hfind : list_find (login_key "TEAM") (pomogrow_users SampleUi.team)
                  = Some (0%nat, SampleUi.team_ana)) by reflexivity.
  destruct (login_identifier_first_come "TEAM" SampleUi.team 0%nat SampleUi.team_ana
              [SampleUi.register_bob] 3000 "k" "Qwerty9?" Hfind) as (Hstill & _).
  split_and!; [exact Hstill|reflexivity|reflexivity].
Defined.

End Component_samples.
